(** * Register-level I2C/SMBus sensor drivers (MLX90614, TMP007, CaliPile)

  A shallow embedding of the drivers under [drivers/i2c] and of their other
  revisions kept in the repository, together with the properties the
  specification states about them.

  Integers are [Z] with the wrap-around of the Go type written out, bytes are
  [Z] in [0, 256), [float64] is IEEE binary64 ([PrimFloat], every operation
  rounded on its own), slices are lists.  A driver talks to its device
  through a [Connection]; every call on the connection is appended to a
  history of events, so that "no bus activity" and "in this order" are
  statements about that history.

  Two drivers are there in two revisions, each in a module of its own:
  [MLX90614] is [drivers/i2c/mlx90614_driver.go] and [MLX90614_part002] the
  revision that talks in SMBus words; [TMP007] is [drivers/i2c/tmp007.go] and
  [TMP007_part001] the revision whose readings carry no error. *)

From Stdlib Require Import ZArith List String Lia Bool DecimalString.
From Stdlib Require Import Floats.
Import ListNotations.

Set Warnings "-inexact-float".

Open Scope string_scope.
Open Scope list_scope.
Open Scope Z_scope.

(** ** Go scalar types *)

Definition uint8 (z : Z) : Z := z mod 256.
Definition uint16 (z : Z) : Z := z mod 65536.
Definition uint32 (z : Z) : Z := z mod 4294967296.

(** Conversion to a signed 16-bit integer: two's complement wrap-around. *)
Definition int16 (z : Z) : Z := (z + 32768) mod 65536 - 32768.

Definition float64 : Set := float.

(** [float64(x)] for an integer [x] of at most 32 bits: exact. *)
Definition float64_of_int (z : Z) : float64 :=
  if z <? 0 then PrimFloat.opp (PrimFloat.of_uint63 (Uint63.of_Z (- z)))
  else PrimFloat.of_uint63 (Uint63.of_Z z).

(** ** Go errors

  [errors.New] and [fmt.Errorf] keep the literal of the source; a [%v]
  argument is the wrapped error, [%X] arguments are integers. *)

Inductive error : Type :=
| conn_error (msg : string)
| errors_New (msg : string)
| fmt_Errorf_v (format : string) (err : error)
| fmt_Errorf_XX (format : string) (a b : Z).

Definition is_nil (err : option error) : bool :=
  match err with None => true | Some _ => false end.

(** ** The bus *)

Inductive event : Type :=
| EvWrite (b : list Z)
| EvRead (len : nat)
| EvWriteByteData (reg val : Z)
| EvReadByteData (reg : Z)
| EvWriteWordData (reg val : Z)
| EvReadWordData (reg : Z)
| EvWriteBlockData (reg : Z) (b : list Z)
| EvSleep (ms : Z).

(** [time.Sleep] is recorded in the history but is not a bus operation. *)
Definition is_bus_op (e : event) : bool :=
  match e with EvSleep _ => false | _ => true end.

Definition bus_ops (h : list event) : list event := filter is_bus_op h.

(** Modelled from the spec: the bus transport contract of section 6
  ([connection.write], [connection.read], [writeWordData], [readWordData],
  [writeBlockData], and the byte variants the CaliPile driver calls); the
  interface itself is declared outside the drivers.  A connection answers
  each call from the history of the calls made before it.  [Read] answers
  with the bytes it copies into the caller's buffer, the count and the
  error it reports. *)
Record Connection : Type := {
  Write_impl : list event -> list Z -> Z * option error;
  Read_impl : list event -> nat -> list Z * Z * option error;
  WriteByteData_impl : list event -> Z -> Z -> option error;
  ReadByteData_impl : list event -> Z -> Z * option error;
  WriteWordData_impl : list event -> Z -> Z -> option error;
  ReadWordData_impl : list event -> Z -> Z * option error;
  WriteBlockData_impl : list event -> Z -> list Z -> option error
}.

(** ** Computations: a history of events, and a result or a run-time panic *)

Inductive outcome (A : Type) : Type :=
| Returns (a : A)
| Panics (msg : string).

Arguments Returns {A} a.
Arguments Panics {A} msg.

Definition M (A : Type) : Type := list event -> outcome A * list event.

Definition ret {A : Type} (a : A) : M A := fun h => (Returns a, h).

Definition bind {A B : Type} (m : M A) (k : A -> M B) : M B :=
  fun h =>
  match m h with
  | (Returns a, h') => k a h'
  | (Panics msg, h') => (Panics msg, h')
  end.

Definition panic {A : Type} (msg : string) : M A := fun h => (Panics msg, h).

Declare Scope go_scope.
Delimit Scope go_scope with go.

Notation "x <- m ;; k" := (bind m (fun x => k))
  (at level 61, m at next level, right associativity) : go_scope.
Notation "' pat <- m ;; k" := (bind m (fun x => match x with pat => k end))
  (at level 61, pat pattern, m at next level, right associativity) : go_scope.

Open Scope go_scope.

(** [copy(buf, data)]: the first [min (len buf) (len data)] bytes are
  overwritten, the length of [buf] is unchanged. *)
Definition copy (buf data : list Z) : list Z :=
  firstn (List.length buf) data ++ skipn (List.length data) buf.

(** [make([]byte, n)] *)
Definition make (n : nat) : list Z := repeat 0 n.

(** [b[i]] on a slice: a run-time panic out of range (a nil slice is [[]]). *)
Definition index (b : list Z) (i : nat) : M Z :=
  match nth_error b i with
  | Some x => ret x
  | None => panic "index out of range"
  end.

Definition time_Sleep (ms : Z) : M unit :=
  fun h => (Returns tt, h ++ [EvSleep ms]).

Section ConnectionCalls.

Variable c : Connection.

Definition Write (b : list Z) : M (Z * option error) :=
  fun h => (Returns (Write_impl c h b), h ++ [EvWrite b]).

Definition Read (buf : list Z) : M (list Z * Z * option error) :=
  fun h =>
    let '(data, n, err) := Read_impl c h (List.length buf) in
    (Returns (copy buf data, n, err), h ++ [EvRead (List.length buf)]).

Definition WriteByteData (reg val : Z) : M (option error) :=
  fun h => (Returns (WriteByteData_impl c h reg val), h ++ [EvWriteByteData reg val]).

Definition ReadByteData (reg : Z) : M (Z * option error) :=
  fun h => (Returns (ReadByteData_impl c h reg), h ++ [EvReadByteData reg]).

Definition WriteWordData (reg val : Z) : M (option error) :=
  fun h => (Returns (WriteWordData_impl c h reg val), h ++ [EvWriteWordData reg val]).

Definition ReadWordData (reg : Z) : M (Z * option error) :=
  fun h => (Returns (ReadWordData_impl c h reg), h ++ [EvReadWordData reg]).

Definition WriteBlockData (reg : Z) (b : list Z) : M (option error) :=
  fun h => (Returns (WriteBlockData_impl c h reg b), h ++ [EvWriteBlockData reg b]).

End ConnectionCalls.

(** Modelled from the spec: the device-naming and bus/address-selection
  configuration surface (an external collaborator): an address override, or
  none.  [GetAddressOrDefault] gives the override when there is one. *)
Record Config : Type := { address : option Z }.

Definition GetAddressOrDefault (cfg : Config) (d : Z) : Z :=
  match address cfg with Some a => a | None => d end.

(** A Go map literal from [uint8] to [float64]; a missing key reads as zero. *)
Fixpoint map_index (m : list (Z * float64)) (k : Z) : float64 :=
  match m with
  | [] => 0%float
  | (k', v) :: m' => if k =? k' then v else map_index m' k
  end.

(** ** Further Go library calls the drivers make *)

Definition uint64 (z : Z) : Z := z mod 18446744073709551616.

(** [fmt.Errorf(prefix ++ "%d" ++ suffix, i, err)], the suffix holding the
  [%v]: the decimal of [i] is written into the format, the [%v] argument
  stays the wrapped error. *)
Definition fmt_Errorf_dv (prefix suffix : string) (i : Z) (err : error) : error :=
  fmt_Errorf_v
    (String.append prefix (String.append (NilZero.string_of_int (Z.to_int i)) suffix))
    err.

(** [binary.BigEndian.PutUint16(b, v)] on a slice of two bytes. *)
Definition BigEndian_PutUint16 (v : Z) : list Z :=
  [uint8 (Z.shiftr v 8); uint8 v].

(** [binary.Read(bytes.NewBuffer(b), binary.BigEndian, &v)] for a [uint16]
  [v]: the first two bytes, high byte first; with fewer than two bytes the
  call fails and [v] keeps its value (the drivers drop the error). *)
Definition binary_Read_uint16 (b : list Z) (v : Z) : Z :=
  match b with
  | b0 :: b1 :: _ => Z.lor (uint16 b1) (uint16 (Z.shiftl (uint16 b0) 8))
  | _ => v
  end.

(** * MLX90614, [drivers/i2c/mlx90614_driver.go]: SMBus framing with PEC *)

Module MLX90614.

Definition mlx90614DefaultSlaveAddress : Z := 0x5A.
Definition mlx90614RegisterKE : Z := 0x24.
Definition mlx90614RegisterAddress : Z := 0x2E.
Definition mlx90614RegisterConfig : Z := 0x25.

Record MLX90614Driver : Type := {
  connection : Connection;
  config : Config
}.

Definition crc8ccitt_round (data : Z) : Z :=
  let data := uint8 (Z.shiftl data 1) in
  if negb (Z.land data 0x80 =? 0) then Z.lxor data 0x07 else data.

Definition crc8ccitt (inCRC inData : Z) : Z :=
  Nat.iter 8 crc8ccitt_round (Z.lxor inCRC inData).

Definition write (d : MLX90614Driver) (address : Z) (data : Z) : M (option error) :=
  let lsb := uint8 (Z.land data 0x00FF) in
  let msb := uint8 (Z.shiftr data 8) in
  let pec := crc8ccitt 0 (uint8 (Z.shiftl (GetAddressOrDefault (config d) mlx90614DefaultSlaveAddress) 1)) in
  let pec := crc8ccitt pec address in
  let pec := crc8ccitt pec lsb in
  let pec := crc8ccitt pec msb in
  WriteBlockData (connection d) address [address; lsb; msb; pec].

(** The loop [for numRetries > 0 { ...; if ... { break }; numRetries-- }]. *)
Fixpoint read_retry (c : Connection) (n : nat) (numRetries : nat)
    (buf : list Z) (bytesRead : Z) (err : option error)
    : M (list Z * Z * option error) :=
  match numRetries with
  | O => ret (buf, bytesRead, err)
  | S numRetries' =>
      '(buf, bytesRead, err) <- Read c buf ;;
      if (bytesRead =? Z.of_nat n) && is_nil err then ret (buf, bytesRead, err)
      else read_retry c n numRetries' buf bytesRead err
  end.

Definition read (d : MLX90614Driver) (address : Z) (n : nat) : M (list Z * option error) :=
  '(_, err) <- Write (connection d) [address] ;;
  match err with
  | Some err =>
      ret ([], Some (fmt_Errorf_v "MLX90614::read() failed to send command: %v" err))
  | None =>
      let buf := make n in
      '(buf, bytesRead, err) <- read_retry (connection d) n 50 buf 0 None ;;
      match err with
      | Some err =>
          ret ([], Some (fmt_Errorf_v "MLX90614::read() failed to read from connection: %v" err))
      | None =>
          lsb <- index buf 0 ;;
          msb <- index buf 1 ;;
          pecIncoming <- index buf 2 ;;
          let pec := crc8ccitt 0 (uint8 (Z.shiftl (GetAddressOrDefault (config d) mlx90614DefaultSlaveAddress) 1)) in
          let pec := crc8ccitt pec address in
          let pec := crc8ccitt pec (uint8 (uint8 (Z.shiftl (GetAddressOrDefault (config d) mlx90614DefaultSlaveAddress) 1) + 1)) in
          let pec := crc8ccitt pec lsb in
          let pec := crc8ccitt pec msb in
          if pecIncoming =? pec then ret (buf, None)
          else ret ([], Some (fmt_Errorf_XX "MLX90614::read() PEC mismatch exp:%X act:%X" pec pecIncoming))
      end
  end.

Definition readUint16 (d : MLX90614Driver) (address : Z) : M (Z * option error) :=
  '(b, err) <- read d address 3 ;;
  match err with
  | Some err => ret (0, Some (fmt_Errorf_v "MLX90614::readUint16() failed: %v" err))
  | None =>
      b0 <- index b 0 ;;
      b1 <- index b 1 ;;
      let raw := Z.lor (uint16 (Z.shiftl (uint16 b0) 8)) (uint16 b1) in
      ret (raw, None)
  end.

Definition writeEEPROM (d : MLX90614Driver) (address : Z) (data : Z) : M (option error) :=
  err <- write d address 0 ;;
  match err with
  | Some err =>
      ret (Some (fmt_Errorf_v "MLX90614::writeEEPROM() failed to erase cell content: %v" err))
  | None =>
      _ <- time_Sleep 5 ;;
      err <- write d address data ;;
      match err with
      | Some err =>
          ret (Some (fmt_Errorf_v "MLX90614::writeEEPROM() failed to write new cell content: %v" err))
      | None =>
          _ <- time_Sleep 5 ;;
          ret None
      end
  end.

Definition ReadAddress (d : MLX90614Driver) : M (Z * option error) :=
  '(addr16, err) <- readUint16 d mlx90614RegisterAddress ;;
  match err with
  | Some err => ret (0, Some (fmt_Errorf_v "MLX90614::ReadAddress() failed: %v" err))
  | None => ret (uint8 addr16, None)
  end.

Definition ReadConfig (d : MLX90614Driver) : M (Z * option error) :=
  readUint16 d mlx90614RegisterConfig.

Definition firSettingsMap : list (Z * float64) :=
  [(0x04, 5.184%float); (0x05, 9.28%float); (0x06, 17.472%float); (0x07, 33.856%float)].

Definition iirSettingsMap : list (Z * float64) :=
  [(0x00, 10%float); (0x01, 10%float); (0x02, 10%float); (0x03, 10%float);
   (0x04, 1%float); (0x05, 4%float); (0x06, 8%float); (0x07, 9%float)].

Definition WriteFilterConfig (d : MLX90614Driver) (fir iir : Z) : M (float64 * option error) :=
  if fir <? 0x04 then
    ret (0%float, Some (errors_New "MLX90614::WriteFilterConfig() FIR out of range: must be at least 0x04"))
  else if (fir >? 0x07) || (iir >? 0x07) then
    ret (0%float, Some (errors_New "MLX90614::WriteFilterConfig() FIR or IIR out of range: each must be less than 0x08"))
  else
    '(config, err) <- ReadConfig d ;;
    match err with
    | Some err =>
        ret (0%float, Some (fmt_Errorf_v "MLX90614::WriteFilterConfig() failed to read config: %v" err))
    | None =>
        let dual := if negb (Z.land config 0x40 =? 0) then 1%float else 0%float in
        let firS := map_index firSettingsMap fir in
        let iirS := map_index iirSettingsMap iir in
        let tSet := (9.719 + (iirS * (firS + 5.26)) + (iirS * (firS + 12.542))
                     + (dual * iirS * (firS + 12.542)))%float in
        let fir16 := uint16 fir in
        let fir16 := uint16 (Z.shiftl fir16 8) in
        let iir16 := uint16 iir in
        let config := Z.lor config fir16 in
        let config := Z.lor config iir16 in
        err <- writeEEPROM d mlx90614RegisterConfig config ;;
        match err with
        | Some err =>
            ret (tSet, Some (fmt_Errorf_v "MLX90614::WriteFilterConfig() failed: %v" err))
        | None => ret (tSet, None)
        end
    end.


Definition mlx90614RegisterTObj1 : Z := 0x07.
Definition mlx90614RegisterTObj2 : Z := 0x08.
Definition mlx90614RegisterID0 : Z := 0x3C.

Definition initialization (d : MLX90614Driver) : M (option error) :=
  '(addr8, err) <- ReadAddress d ;;
  match err with
  | Some err =>
      ret (Some (fmt_Errorf_v
        "MLX90614::initialization() failed to communicate with slave device: %v" err))
  | None =>
      let addrExpected := GetAddressOrDefault (config d) mlx90614DefaultSlaveAddress in
      if negb (addr8 =? addrExpected) then
        ret (Some (fmt_Errorf_XX
          "MLX90614::initialization() SMBus slave address command returned mismatch, expected:%X actual:%X"
          addrExpected addr8))
      else ret None
  end.

Definition WriteAddress (d : MLX90614Driver) (newAddress : Z) : M (option error) :=
  if (newAddress >=? 0x78) || (newAddress <=? 0x07) then
    ret (Some (errors_New "MLX90614::WriteAddress() invalid or reserved SMBus address"))
  else
    '(tempAddr16, err) <- readUint16 d mlx90614RegisterAddress ;;
    match err with
    | Some err => ret (Some (fmt_Errorf_v "MLX90614::WriteAddress() failed: %v" err))
    | None =>
        let tempAddr16 := Z.land tempAddr16 0xFF00 in
        let tempAddr16 := Z.lor tempAddr16 (uint16 newAddress) in
        writeEEPROM d mlx90614RegisterAddress tempAddr16
    end.

(** The loop [for i := byte(0); i < 4; i++] of [ReadID], from [i] on with
    [remaining] rounds to go. *)
Fixpoint ReadID_loop (d : MLX90614Driver) (remaining : nat) (i : Z) (id64 : list Z)
    : M (list Z * option error) :=
  match remaining with
  | O => ret (id64, None)
  | S remaining' =>
      '(tempBuf, err) <- read d (uint8 (mlx90614RegisterID0 + i)) 3 ;;
      match err with
      | Some err =>
          ret (id64, Some (fmt_Errorf_dv "MLX90614::ReadID() failed on part " ": %v" i err))
      | None =>
          lsb <- index tempBuf 0 ;;
          let id64 := id64 ++ [lsb] in
          msb <- index tempBuf 1 ;;
          let id64 := id64 ++ [msb] in
          ReadID_loop d remaining' (uint8 (i + 1)) id64
      end
  end.

Definition ReadID (d : MLX90614Driver) : M (list Z * option error) :=
  ReadID_loop d 4 0 [].

Definition ReadEmissivity (d : MLX90614Driver) : M (float64 * option error) :=
  '(ke, err) <- readUint16 d mlx90614RegisterKE ;;
  match err with
  | Some err => ret (0%float, Some (fmt_Errorf_v "MLX90614::ReadEmissivity() failed: %v" err))
  | None => ret ((float64_of_int ke / 65535.0)%float, None)
  end.

Definition ReadTObj1Raw (d : MLX90614Driver) : M (Z * option error) :=
  '(rawObj, err) <- readUint16 d mlx90614RegisterTObj1 ;;
  match err with
  | Some err => ret (0, Some (fmt_Errorf_v "MLX90614::ReadTObj1Raw() failed: %v" err))
  | None =>
      if negb (Z.land rawObj 0x8000 =? 0) then
        ret (0, Some (errors_New "MLX90614::ReadTObj1Raw() TObj1 error flag set"))
      else ret (rawObj, None)
  end.

Definition ReadTObj2Raw (d : MLX90614Driver) : M (Z * option error) :=
  '(rawObj, err) <- readUint16 d mlx90614RegisterTObj2 ;;
  match err with
  | Some err => ret (0, Some (fmt_Errorf_v "MLX90614::ReadTObj2Raw() failed: %v" err))
  | None =>
      if negb (Z.land rawObj 0x8000 =? 0) then
        ret (0, Some (errors_New "MLX90614::ReadTObj2Raw() TObj1 error flag set"))
      else ret (rawObj, None)
  end.

Definition ConvertRawTempToDegK (raw : Z) : float64 :=
  (float64_of_int raw * 0.02)%float.

Definition ConvertRawTempToDegC (raw : Z) : float64 :=
  (float64_of_int raw * 0.02 - 273.15)%float.

Definition ConvertRawTempToDegF (raw : Z) : float64 :=
  ((float64_of_int raw * 0.02 - 273.15) * 9 / 5 + 32)%float.

End MLX90614.


(** * MLX90614, the word-data revision (source part_002): [ReadWordData] /
    [WriteWordData] transactions and a guard on the protected registers *)

Module MLX90614_part002.

Definition mlx90614DefaultSlaveAddress : Z := 0x5A.
Definition mlx90614RegisterKE : Z := 0x24.
Definition mlx90614RegisterAddress : Z := 0x2E.
Definition mlx90614RegisterConfig : Z := 0x25.

Record MLX90614Driver : Type := {
  connection : Connection;
  config : Config
}.

(** The loop [for numRetries > 0 { ...; if err == nil { break }; numRetries-- }]. *)
Fixpoint read_retry (c : Connection) (address : Z) (numRetries : nat)
    (val16 : Z) (err : option error) : M (Z * option error) :=
  match numRetries with
  | O => ret (val16, err)
  | S numRetries' =>
      '(val16, err) <- ReadWordData c address ;;
      if is_nil err then ret (val16, err)
      else read_retry c address numRetries' val16 err
  end.

Definition read (d : MLX90614Driver) (address : Z) : M (Z * option error) :=
  '(val16, err) <- read_retry (connection d) address 10 0 None ;;
  match err with
  | Some err => ret (0x00, Some (fmt_Errorf_v "MLX90614::read() error:\n\t%v" err))
  | None => ret (val16, None)
  end.

(** The [log.Printf] call is not a bus operation and is left out. *)
Definition write (d : MLX90614Driver) (address : Z) (data : Z) : M (option error) :=
  match address with
  | 0x24 | 0x19 | 0x0F =>
      ret (Some (errors_New "Refusing to write to protected register, see datasheet"))
  | _ => WriteWordData (connection d) address data
  end.

Definition writeEEPROM (d : MLX90614Driver) (address : Z) (data : Z) : M (option error) :=
  err <- write d address 0 ;;
  match err with
  | Some err =>
      ret (Some (fmt_Errorf_v "MLX90614::writeEEPROM() failed to erase cell content:\n\t%v" err))
  | None =>
      _ <- time_Sleep 5 ;;
      err <- write d address data ;;
      match err with
      | Some err =>
          ret (Some (fmt_Errorf_v "MLX90614::writeEEPROM() failed to write new cell content:\n\t%v" err))
      | None =>
          _ <- time_Sleep 5 ;;
          ret None
      end
  end.

Definition ReadAddress (d : MLX90614Driver) : M (Z * option error) :=
  '(val16, err) <- read d mlx90614RegisterAddress ;;
  match err with
  | Some err => ret (0, Some (fmt_Errorf_v "MLX90614::ReadAddress() failed:\n\t%v" err))
  | None => ret (uint8 val16, None)
  end.

Definition ReadConfig (d : MLX90614Driver) : M (Z * option error) :=
  read d mlx90614RegisterConfig.

Definition firSettingsMap : list (Z * float64) :=
  [(0x04, 5.184%float); (0x05, 9.28%float); (0x06, 17.472%float); (0x07, 33.856%float)].

Definition iirSettingsMap : list (Z * float64) :=
  [(0x00, 10%float); (0x01, 10%float); (0x02, 10%float); (0x03, 10%float);
   (0x04, 1%float); (0x05, 4%float); (0x06, 8%float); (0x07, 9%float)].

(** In Go [&] and [>>] have the same precedence and associate to the left:
    [config & 0x700 >> 8] is [(config & 0x700) >> 8]. *)
Definition SettlingTimeFromConfig (config : Z) : float64 :=
  let dual := if negb (Z.land config 0x40 =? 0) then 1%float else 0%float in
  let fir := uint8 (Z.shiftr (Z.land config 0x700) 8) in
  let iir := uint8 (Z.land config 0x7) in
  let firS := map_index firSettingsMap fir in
  let iirS := map_index iirSettingsMap iir in
  (9.719 + (iirS * (firS + 5.26)) + (iirS * (firS + 12.542))
   + (dual * iirS * (firS + 12.542)))%float.

Definition WriteFilterConfig (d : MLX90614Driver) (fir iir : Z) : M (float64 * option error) :=
  if fir <? 0x04 then
    ret (0%float, Some (errors_New "MLX90614::WriteFilterConfig() FIR out of range: must be at least 0x04"))
  else if (fir >? 0x07) || (iir >? 0x07) then
    ret (0%float, Some (errors_New "MLX90614::WriteFilterConfig() FIR or IIR out of range: each must be less than 0x08"))
  else
    '(config, err) <- ReadConfig d ;;
    match err with
    | Some err =>
        ret (0%float, Some (fmt_Errorf_v "MLX90614::WriteFilterConfig() failed to read config:\n\t%v" err))
    | None =>
        let tSet := SettlingTimeFromConfig config in
        let fir16 := uint16 (Z.shiftl (uint16 fir) 8) in
        let config := Z.land config 0xF8FF in
        let config := Z.lor config fir16 in
        let iir16 := uint16 iir in
        let config := Z.land config 0xFFF8 in
        let config := Z.lor config iir16 in
        err <- writeEEPROM d mlx90614RegisterConfig config ;;
        match err with
        | Some err =>
            ret (tSet, Some (fmt_Errorf_v "MLX90614::WriteFilterConfig() failed:\n\t%v" err))
        | None => ret (tSet, None)
        end
    end.


Definition mlx90614RegisterRaw1 : Z := 0x04.
Definition mlx90614RegisterTObj1 : Z := 0x07.
Definition mlx90614RegisterTObj2 : Z := 0x08.
Definition mlx90614RegisterID0 : Z := 0x3C.

Definition initialization (d : MLX90614Driver) : M (option error) :=
  '(addr8, err) <- ReadAddress d ;;
  match err with
  | Some err =>
      ret (Some (fmt_Errorf_v
        "MLX90614::initialization() failed to communicate with slave device:\n\t%v" err))
  | None =>
      let addrExpected := GetAddressOrDefault (config d) mlx90614DefaultSlaveAddress in
      if negb (addr8 =? addrExpected) then
        ret (Some (fmt_Errorf_XX
          "MLX90614::initialization() SMBus slave address command returned mismatch, expected:%X actual:%X"
          addrExpected addr8))
      else ret None
  end.

Definition WriteAddress (d : MLX90614Driver) (newAddress : Z) : M (option error) :=
  if (newAddress >=? 0x78) || (newAddress <=? 0x07) then
    ret (Some (errors_New "MLX90614::WriteAddress() invalid or reserved SMBus address"))
  else writeEEPROM d mlx90614RegisterAddress (uint16 newAddress).

(** The loop [for i := byte(0); i < 4; i++] of [ReadID], from [i] on with
    [remaining] rounds to go; the [log.Printf] call is left out. *)
Fixpoint ReadID_loop (d : MLX90614Driver) (remaining : nat) (i : Z) (id64 : Z)
    : M (Z * option error) :=
  match remaining with
  | O => ret (id64, None)
  | S remaining' =>
      '(id16, err) <- read d (uint8 (mlx90614RegisterID0 + i)) ;;
      match err with
      | Some err =>
          ret (id64, Some (fmt_Errorf_dv "MLX90614::ReadID() failed on part " ":\n\t%v" i err))
      | None =>
          let id64 := Z.lor id64 (uint64 (Z.shiftl (uint64 id16) (uint8 (i * 16)))) in
          ReadID_loop d remaining' (uint8 (i + 1)) id64
      end
  end.

Definition ReadID (d : MLX90614Driver) : M (Z * option error) :=
  ReadID_loop d 4 0 0.

Definition ReadReg (d : MLX90614Driver) (reg : Z) : M (Z * option error) :=
  '(raw, err) <- read d reg ;;
  match err with
  | Some err => ret (0, Some (fmt_Errorf_v "MLX90614::ReadReg() failed:\n\t%v" err))
  | None =>
      let rawSigned :=
        if negb (Z.land raw 0x8000 =? 0) then int16 (- (Z.land (int16 raw) 0x00FF))
        else int16 raw in
      ret (rawSigned, None)
  end.

Definition ReadIRChannel1 (d : MLX90614Driver) : M (Z * option error) :=
  '(rawObj, err) <- read d mlx90614RegisterRaw1 ;;
  match err with
  | Some err => ret (0, Some (fmt_Errorf_v "MLX90614::ReadIRChannel1() failed:\n\t%v" err))
  | None =>
      let irSigned :=
        if negb (Z.land rawObj 0x8000 =? 0) then int16 (- (Z.land (int16 rawObj) 0x00FF))
        else int16 rawObj in
      ret (irSigned, None)
  end.

Definition ReadTObj1Raw (d : MLX90614Driver) : M (Z * option error) :=
  '(rawObj, err) <- read d mlx90614RegisterTObj1 ;;
  match err with
  | Some err => ret (0, Some (fmt_Errorf_v "MLX90614::ReadTObj1Raw() failed:\n\t%v" err))
  | None =>
      if negb (Z.land rawObj 0x8000 =? 0) then
        ret (0, Some (errors_New "MLX90614::ReadTObj1Raw() TObj1 error flag set"))
      else ret (rawObj, None)
  end.

Definition ReadTObj2Raw (d : MLX90614Driver) : M (Z * option error) :=
  '(rawObj, err) <- read d mlx90614RegisterTObj2 ;;
  match err with
  | Some err => ret (0, Some (fmt_Errorf_v "MLX90614::ReadTObj2Raw() failed:\n\t%v" err))
  | None =>
      if negb (Z.land rawObj 0x8000 =? 0) then
        ret (0, Some (errors_New "MLX90614::ReadTObj2Raw() TObj1 error flag set"))
      else ret (rawObj, None)
  end.

End MLX90614_part002.

(** * TMP007, [drivers/i2c/tmp007.go] *)

Module TMP007.

Definition tmp007RegisterVSensor : Z := 0x00.
Definition tmp007RegisterTDie : Z := 0x01.
Definition tmp007RegisterTObj : Z := 0x03.

Record TMP007Driver : Type := {
  connection : Connection;
  config : Config
}.

Fixpoint read_retry (c : Connection) (n : nat) (numRetries : nat)
    (buf : list Z) (bytesRead : Z) (err : option error)
    : M (list Z * Z * option error) :=
  match numRetries with
  | O => ret (buf, bytesRead, err)
  | S numRetries' =>
      '(buf, bytesRead, err) <- Read c buf ;;
      if (bytesRead =? Z.of_nat n) && is_nil err then ret (buf, bytesRead, err)
      else read_retry c n numRetries' buf bytesRead err
  end.

Definition read (d : TMP007Driver) (address : Z) (n : nat) : M (list Z * option error) :=
  '(_, err) <- Write (connection d) [address] ;;
  match err with
  | Some err => ret ([], Some err)
  | None =>
      let buf := make n in
      '(buf, bytesRead, err) <- read_retry (connection d) n 50 buf 0 None ;;
      ret (buf, err)
  end.

Definition nDVtoBool (raw : Z) : bool :=
  if negb (Z.land raw 0x01 =? 0) then false else true.

Definition ReadDieTempC (d : TMP007Driver) : M (float64 * option error) :=
  '(b, err) <- read d tmp007RegisterTDie 2 ;;
  match err with
  | Some err => ret (0.0%float, Some err)
  | None =>
      b0 <- index b 0 ;;
      b1 <- index b 1 ;;
      let raw := Z.lor (int16 (Z.shiftl (int16 b0) 8)) (int16 b1) in
      let isValid := nDVtoBool raw in
      if negb isValid then ret (0.0%float, Some (errors_New "nDV bit is set"))
      else
        let raw := Z.shiftr raw 2 in
        let tDie := (float64_of_int raw * 0.03125)%float in
        ret (tDie, None)
  end.

Definition ReadObjTempC (d : TMP007Driver) : M (float64 * option error) :=
  '(b, err) <- read d tmp007RegisterTObj 2 ;;
  match err with
  | Some err => ret (0.0%float, Some err)
  | None =>
      b0 <- index b 0 ;;
      b1 <- index b 1 ;;
      let raw := Z.lor (int16 (Z.shiftl (int16 b0) 8)) (int16 b1) in
      let isValid := nDVtoBool raw in
      if negb isValid then ret (0.0%float, Some (errors_New "nDV bit is set"))
      else
        let raw := Z.shiftr raw 2 in
        let tObj := (float64_of_int raw * 0.03125)%float in
        ret (tObj, err)
  end.

Definition ReadSensorVoltage (d : TMP007Driver) : M (float64 * option error) :=
  '(b, err) <- read d tmp007RegisterVSensor 2 ;;
  match err with
  | Some err => ret (0.0%float, Some err)
  | None =>
      b0 <- index b 0 ;;
      b1 <- index b 1 ;;
      let raw := Z.lor (int16 (Z.shiftl (int16 b0) 8)) (int16 b1) in
      let vSensor := ((float64_of_int raw * 156.25) / 1000)%float in
      ret (vSensor, err)
  end.


Definition tmp007RegisterConfig : Z := 0x02.
Definition tmp007RegisterStatus : Z := 0x04.
Definition tmp007RegisterStatusMask : Z := 0x05.
Definition tmp007RegisterDeviceID : Z := 0x1F.
Definition tmp007ConfigConvEN : Z := 0x1000.
Definition tmp007MaskCRTEN : Z := 0x4000.

Definition write (d : TMP007Driver) (address : Z) (data : Z) : M (option error) :=
  let b := BigEndian_PutUint16 data in
  WriteBlockData (connection d) address b.

(** [d.deviceID.didrid] is the one field of the driver [initialization]
    assigns: it is passed in and handed back with the error. *)
Definition initialization (d : TMP007Driver) (didrid : Z) : M (Z * option error) :=
  '(deviceID, err) <- read d tmp007RegisterDeviceID 2 ;;
  match err with
  | Some err => ret (didrid, Some err)
  | None =>
      let didrid := binary_Read_uint16 deviceID didrid in
      if negb (didrid =? 0x78) then ret (didrid, Some (errors_New "TMP007 not detected"))
      else
        let configInt := uint16 tmp007ConfigConvEN in
        err <- write d tmp007RegisterConfig configInt ;;
        match err with
        | Some err => ret (didrid, Some err)
        | None =>
            let statusMaskInt := uint16 tmp007MaskCRTEN in
            err <- write d tmp007RegisterStatusMask statusMaskInt ;;
            ret (didrid, err)
        end
  end.

Definition ReadStatus (d : TMP007Driver) : M (Z * option error) :=
  '(b, err) <- read d tmp007RegisterStatus 2 ;;
  match err with
  | Some err => ret (0, Some err)
  | None =>
      b0 <- index b 0 ;;
      b1 <- index b 1 ;;
      let raw := Z.lor (uint16 (Z.shiftl (uint16 b0) 8)) (uint16 b1) in
      ret (raw, err)
  end.

(** [WaitOnConversionReady] loops until the status shows the conversion
    ready: the embedding counts the polls it may still make, [None] when
    [fuel] polls were not enough for the call to return. *)
Fixpoint WaitOnConversionReady (fuel : nat) (d : TMP007Driver) (h : list event)
    : option (outcome unit * list event) :=
  match fuel with
  | O => None
  | S fuel' =>
      match ReadStatus d h with
      | (Panics msg, h') => Some (Panics msg, h')
      | (Returns (s, err), h') =>
          if negb (Z.land tmp007MaskCRTEN s =? 0) && is_nil err then Some (Returns tt, h')
          else
            match time_Sleep 65 h' with
            | (_, h'') => WaitOnConversionReady fuel' d h''
            end
      end
  end.

End TMP007.

(** * TMP007, the revision without error results (source part_001) *)

Module TMP007_part001.

Definition tmp007RegisterVSensor : Z := 0x00.
Definition tmp007RegisterTDie : Z := 0x01.
Definition tmp007RegisterTObj : Z := 0x03.

Record TMP007Driver : Type := {
  connection : Connection;
  config : Config
}.

Definition read (d : TMP007Driver) (address : Z) (n : nat) : M (list Z * option error) :=
  '(_, err) <- Write (connection d) [address] ;;
  match err with
  | Some err => ret ([], Some err)
  | None =>
      let buf := make n in
      '(buf, bytesRead, err) <- Read (connection d) buf ;;
      if negb (bytesRead =? Z.of_nat n) || negb (is_nil err) then ret ([], err)
      else ret (buf, None)
  end.

Definition ReadDieTempC (d : TMP007Driver) : M float64 :=
  '(b, _) <- read d tmp007RegisterTDie 2 ;;
  b0 <- index b 0 ;;
  b1 <- index b 1 ;;
  let raw := Z.lor (int16 (Z.shiftl (int16 b0) 8)) (int16 b1) in
  let raw := Z.shiftr raw 2 in
  let tDie := (float64_of_int raw * 0.03125)%float in
  ret tDie.

Definition ReadObjTempC (d : TMP007Driver) : M float64 :=
  '(b, _) <- read d tmp007RegisterTObj 2 ;;
  b0 <- index b 0 ;;
  b1 <- index b 1 ;;
  let raw := Z.lor (int16 (Z.shiftl (int16 b0) 8)) (int16 b1) in
  let raw := Z.shiftr raw 2 in
  let tObj := (float64_of_int raw * 0.03125)%float in
  ret tObj.

Definition ReadSensorVoltage (d : TMP007Driver) : M float64 :=
  '(b, _) <- read d tmp007RegisterVSensor 2 ;;
  b0 <- index b 0 ;;
  b1 <- index b 1 ;;
  let raw := Z.lor (int16 (Z.shiftl (int16 b0) 8)) (int16 b1) in
  let vSensor := ((float64_of_int raw * 156.25) / 1000)%float in
  ret vSensor.



End TMP007_part001.

(** * CaliPile, [drivers/i2c/calipile_driver.go] *)

Module Calipile.

Definition calipileRegisterTPAmbient1 : Z := 3.
Definition calipileRegisterTPAmbient2 : Z := 4.

Record eeprom : Type := {
  protocol : Z;
  checksum : Z;
  lookup : Z;
  ptat25 : Z;
  m : Z;
  u0 : Z;
  uOut1 : Z;
  tObj1 : Z;
  slaveAddress : Z;
  k : float64
}.

Record CalipileDriver : Type := {
  connection : Connection;
  config : Config;
  eeprom_ : eeprom
}.

Definition ReadRawTPAmbient (d : CalipileDriver) : M (Z * option error) :=
  '(val8h, err) <- ReadByteData (connection d) calipileRegisterTPAmbient1 ;;
  match err with
  | Some err =>
      ret (0, Some (fmt_Errorf_v "CalipileDriver::ReadRawTPAmbient() failed:\n\t%v" err))
  | None =>
      '(val8l, err) <- ReadByteData (connection d) calipileRegisterTPAmbient2 ;;
      match err with
      | Some err =>
          ret (0, Some (fmt_Errorf_v "CalipileDriver::ReadRawTPAmbient() failed:\n\t%v" err))
      | None =>
          let tpAmbientRaw :=
            Z.lor (uint16 (Z.shiftl (uint16 (Z.land val8h 0x7F)) 8)) (uint16 val8l) in
          ret (tpAmbientRaw, err)
      end
  end.

Definition CalculateTPAmbient (d : CalipileDriver) : M (float64 * option error) :=
  '(amb16, err) <- ReadRawTPAmbient d ;;
  match err with
  | Some err =>
      ret (0%float, Some (fmt_Errorf_v "CalipileDriver::CalculateTPAmbient() failed:\n\t%v" err))
  | None =>
      let tpAmbient :=
        (298.15 + (float64_of_int amb16 - float64_of_int (ptat25 (eeprom_ d)))
                  * (1.0 / float64_of_int (m (eeprom_ d))))%float in
      ret (tpAmbient, err)
  end.

(** [CalculateTPAmbientC] calls itself before anything else.  The recursion
    is not structural, so the embedding counts the calls it may still make:
    [None] when [fuel] calls were not enough for the call to return. *)
Fixpoint CalculateTPAmbientC (fuel : nat) (d : CalipileDriver) (h : list event)
    : option (outcome (float64 * option error) * list event) :=
  match fuel with
  | O => None
  | S fuel' =>
      match CalculateTPAmbientC fuel' d h with
      | None => None
      | Some (Returns (tpAmbient, err), h') =>
          let tpAmbient := (tpAmbient - 273.15)%float in
          Some (Returns (tpAmbient, err), h')
      | Some (Panics msg, h') => Some (Panics msg, h')
      end
  end.


Definition calipileDefaultSlaveAddress : Z := 0x0C.
Definition calipileRegisterTPObject1 : Z := 1.
Definition calipileRegisterTPObject2 : Z := 2.
Definition calipileRegisterTPObject3 : Z := 3.
Definition calipileRegisterEEPROMControl : Z := 31.
Definition calipileRegisterEEPROMProtocol : Z := 32.
Definition calipileRegisterEEPROMLookup : Z := 41.
Definition calipileRegisterEEPROMPTAT251 : Z := 42.
Definition calipileRegisterEEPROMPTAT252 : Z := 43.
Definition calipileRegisterEEPROMM1 : Z := 44.
Definition calipileRegisterEEPROMM2 : Z := 45.
Definition calipileRegisterEEPROMU01 : Z := 46.
Definition calipileRegisterEEPROMU02 : Z := 47.
Definition calipileRegisterEEPROMUOut11 : Z := 48.
Definition calipileRegisterEEPROMUOut12 : Z := 49.
Definition calipileRegisterEEPROMTObj1 : Z := 50.
Definition calipileRegisterEEPROMSlaveAddress : Z := 63.

(** Assignments to the fields of [d.eeprom]. *)
Definition set_protocol (e : eeprom) (v : Z) : eeprom :=
  {| protocol := v; checksum := checksum e; lookup := lookup e; ptat25 := ptat25 e;
     m := m e; u0 := u0 e; uOut1 := uOut1 e; tObj1 := tObj1 e;
     slaveAddress := slaveAddress e; k := k e |}.

Definition set_slaveAddress (e : eeprom) (v : Z) : eeprom :=
  {| protocol := protocol e; checksum := checksum e; lookup := lookup e;
     ptat25 := ptat25 e; m := m e; u0 := u0 e; uOut1 := uOut1 e; tObj1 := tObj1 e;
     slaveAddress := v; k := k e |}.

Definition set_lookup (e : eeprom) (v : Z) : eeprom :=
  {| protocol := protocol e; checksum := checksum e; lookup := v; ptat25 := ptat25 e;
     m := m e; u0 := u0 e; uOut1 := uOut1 e; tObj1 := tObj1 e;
     slaveAddress := slaveAddress e; k := k e |}.

Definition set_ptat25 (e : eeprom) (v : Z) : eeprom :=
  {| protocol := protocol e; checksum := checksum e; lookup := lookup e; ptat25 := v;
     m := m e; u0 := u0 e; uOut1 := uOut1 e; tObj1 := tObj1 e;
     slaveAddress := slaveAddress e; k := k e |}.

Definition set_m (e : eeprom) (v : Z) : eeprom :=
  {| protocol := protocol e; checksum := checksum e; lookup := lookup e;
     ptat25 := ptat25 e; m := v; u0 := u0 e; uOut1 := uOut1 e; tObj1 := tObj1 e;
     slaveAddress := slaveAddress e; k := k e |}.

Definition set_u0 (e : eeprom) (v : Z) : eeprom :=
  {| protocol := protocol e; checksum := checksum e; lookup := lookup e;
     ptat25 := ptat25 e; m := m e; u0 := v; uOut1 := uOut1 e; tObj1 := tObj1 e;
     slaveAddress := slaveAddress e; k := k e |}.

Definition set_uOut1 (e : eeprom) (v : Z) : eeprom :=
  {| protocol := protocol e; checksum := checksum e; lookup := lookup e;
     ptat25 := ptat25 e; m := m e; u0 := u0 e; uOut1 := v; tObj1 := tObj1 e;
     slaveAddress := slaveAddress e; k := k e |}.

Definition set_tObj1 (e : eeprom) (v : Z) : eeprom :=
  {| protocol := protocol e; checksum := checksum e; lookup := lookup e;
     ptat25 := ptat25 e; m := m e; u0 := u0 e; uOut1 := uOut1 e; tObj1 := v;
     slaveAddress := slaveAddress e; k := k e |}.

Definition set_k (e : eeprom) (v : float64) : eeprom :=
  {| protocol := protocol e; checksum := checksum e; lookup := lookup e;
     ptat25 := ptat25 e; m := m e; u0 := u0 e; uOut1 := uOut1 e; tObj1 := tObj1 e;
     slaveAddress := slaveAddress e; k := v |}.

(** [ReadEEPROM] assigns the fields of [d.eeprom] as it goes: the record is
    handed back with the error, holding what was assigned before a failure.
    The results of the two writes to the control register are dropped, as in
    the source. *)
Definition ReadEEPROM (d : CalipileDriver) : M (eeprom * option error) :=
  let c := connection d in
  let e := eeprom_ d in
  _ <- WriteByteData c calipileRegisterEEPROMControl 0x80 ;;
  '(val8, err) <- ReadByteData c calipileRegisterEEPROMProtocol ;;
  match err with
  | Some err =>
      ret (e, Some (fmt_Errorf_v "CalipileDriver::ReadEEPROM() failed to read PROTOCOL:\n\t%v" err))
  | None =>
  let e := set_protocol e val8 in
  '(val8, err) <- ReadByteData c calipileRegisterEEPROMSlaveAddress ;;
  match err with
  | Some err =>
      ret (e, Some (fmt_Errorf_v "CalipileDriver::ReadEEPROM() failed to read SLAVE ADD:\n\t%v" err))
  | None =>
  let e := set_slaveAddress e (Z.land val8 0x7F) in
  '(val8, err) <- ReadByteData c calipileRegisterEEPROMLookup ;;
  match err with
  | Some err =>
      ret (e, Some (fmt_Errorf_v "CalipileDriver::ReadEEPROM() failed to read LOOKUP#:\n\t%v" err))
  | None =>
  let e := set_lookup e val8 in
  '(val8h, err) <- ReadByteData c calipileRegisterEEPROMPTAT251 ;;
  match err with
  | Some err =>
      ret (e, Some (fmt_Errorf_v "CalipileDriver::ReadEEPROM() failed to read PTAT25:\n\t%v" err))
  | None =>
  '(val8l, err) <- ReadByteData c calipileRegisterEEPROMPTAT252 ;;
  match err with
  | Some err =>
      ret (e, Some (fmt_Errorf_v "CalipileDriver::ReadEEPROM() failed to read PTAT25:\n\t%v" err))
  | None =>
  let e := set_ptat25 e (Z.lor (uint16 (Z.shiftl (uint16 val8h) 8)) (uint16 val8l)) in
  '(val8h, err) <- ReadByteData c calipileRegisterEEPROMM1 ;;
  match err with
  | Some err =>
      ret (e, Some (fmt_Errorf_v "CalipileDriver::ReadEEPROM() failed to read M:\n\t%v" err))
  | None =>
  '(val8l, err) <- ReadByteData c calipileRegisterEEPROMM2 ;;
  match err with
  | Some err =>
      ret (e, Some (fmt_Errorf_v "CalipileDriver::ReadEEPROM() failed to read M:\n\t%v" err))
  | None =>
  let e := set_m e (Z.lor (uint16 (Z.shiftl (uint16 val8h) 8)) (uint16 val8l)) in
  let e := set_m e (m e / 100) in
  '(val8h, err) <- ReadByteData c calipileRegisterEEPROMU01 ;;
  match err with
  | Some err =>
      ret (e, Some (fmt_Errorf_v "CalipileDriver::ReadEEPROM() failed to read U0:\n\t%v" err))
  | None =>
  '(val8l, err) <- ReadByteData c calipileRegisterEEPROMU02 ;;
  match err with
  | Some err =>
      ret (e, Some (fmt_Errorf_v "CalipileDriver::ReadEEPROM() failed to read U0:\n\t%v" err))
  | None =>
  let e := set_u0 e (Z.lor (uint16 (Z.shiftl (uint16 val8h) 8)) (uint16 val8l)) in
  let e := set_u0 e (uint16 (u0 e + 32768)) in
  '(val8h, err) <- ReadByteData c calipileRegisterEEPROMUOut11 ;;
  match err with
  | Some err =>
      ret (e, Some (fmt_Errorf_v "CalipileDriver::ReadEEPROM() failed to read Uout1:\n\t%v" err))
  | None =>
  '(val8l, err) <- ReadByteData c calipileRegisterEEPROMUOut12 ;;
  match err with
  | Some err =>
      ret (e, Some (fmt_Errorf_v "CalipileDriver::ReadEEPROM() failed to read Uout1:\n\t%v" err))
  | None =>
  let e := set_uOut1 e (Z.lor (uint32 (Z.shiftl (uint32 val8h) 8)) (uint32 val8l)) in
  let e := set_uOut1 e (uint32 (uOut1 e * 2)) in
  '(val8, err) <- ReadByteData c calipileRegisterEEPROMTObj1 ;;
  match err with
  | Some err =>
      ret (e, Some (fmt_Errorf_v "CalipileDriver::ReadEEPROM() failed to read Tobj1:\n\t%v" err))
  | None =>
  let e := set_tObj1 e val8 in
  _ <- WriteByteData c calipileRegisterEEPROMControl 0x00 ;;
  ret (e, err)
  end end end end end end end end end end end end.

(** [initialization], with [math.Pow] of Go's library as [math_Pow]; the
    [fmt.Println] call is left out.  The record of [d.eeprom] comes back with
    the error. *)
Definition initialization (math_Pow : float64 -> float64 -> float64)
    (d : CalipileDriver) : M (eeprom * option error) :=
  '(e, err) <- ReadEEPROM d ;;
  match err with
  | Some err =>
      ret (e, Some (fmt_Errorf_v
        "CalipileDriver::initialization() failed to initialize device:\n\t%v" err))
  | None =>
      let addrExpected := uint8 (GetAddressOrDefault (config d) calipileDefaultSlaveAddress) in
      if negb (slaveAddress e =? addrExpected) then
        ret (e, Some (fmt_Errorf_XX
          "CalipileDriver::initialization() I2C slave address mismatch, expected:%02X actual:%02X"
          addrExpected (slaveAddress e)))
      else
        let e := set_k e
          ((float64_of_int (uOut1 e) - float64_of_int (u0 e))
           / (math_Pow (float64_of_int (tObj1 e) + 273.15) 3.8
              - math_Pow 298.15 3.8))%float in
        ret (e, err)
  end.

Definition ReadRawTPObject (d : CalipileDriver) : M (Z * option error) :=
  '(val8a, err) <- ReadByteData (connection d) calipileRegisterTPObject1 ;;
  match err with
  | Some err =>
      ret (0, Some (fmt_Errorf_v "CalipileDriver::ReadRawTPObject() failed:\n\t%v" err))
  | None =>
      '(val8b, err) <- ReadByteData (connection d) calipileRegisterTPObject2 ;;
      match err with
      | Some err =>
          ret (0, Some (fmt_Errorf_v "CalipileDriver::ReadRawTPObject() failed:\n\t%v" err))
      | None =>
          '(val8c, err) <- ReadByteData (connection d) calipileRegisterTPObject3 ;;
          match err with
          | Some err =>
              ret (0, Some (fmt_Errorf_v "CalipileDriver::ReadRawTPObject() failed:\n\t%v" err))
          | None =>
              let tpObjectRaw :=
                Z.shiftr
                  (Z.lor (Z.lor (uint32 (Z.shiftl (uint32 val8a) 24))
                                (uint32 (Z.shiftl (uint32 val8b) 16)))
                         (uint32 (Z.shiftl (uint32 (Z.land val8c 0x80)) 8)))
                  15 in
              ret (tpObjectRaw, err)
          end
      end
  end.

End Calipile.

(** * The specification's vocabulary *)

(** The Packet Error Code of a byte sequence: the CRC chained over the
    sequence, starting from 0. *)
Definition PEC (bytes : list Z) : Z := fold_left MLX90614.crc8ccitt bytes 0.

Definition slaveWriteAddress (addr : Z) : Z := uint8 (Z.shiftl addr 1).
Definition slaveReadAddress (addr : Z) : Z := uint8 (slaveWriteAddress addr + 1).

Definition low_byte (data : Z) : Z := data mod 256.
Definition high_byte (data : Z) : Z := (data / 256) mod 256.

(** The frame the PEC of a write covers, and the frame the PEC of a read
    covers. *)
Definition write_frame (addr register lo hi : Z) : list Z :=
  [slaveWriteAddress addr; register; lo; hi].
Definition read_frame (addr register lo hi : Z) : list Z :=
  [slaveWriteAddress addr; register; slaveReadAddress addr; lo; hi].

(** The packet of the write path: [register, low byte, high byte, PEC]. *)
Definition write_packet (addr register data : Z) : list Z :=
  [register; low_byte data; high_byte data;
   PEC (write_frame addr register (low_byte data) (high_byte data))].

Definition protected_registers : list Z := [0x24; 0x0F; 0x19].

(** The settling-time tables and formula of section 4.1. *)
Definition FIR_table (fir : Z) : float64 :=
  match fir with
  | 4 => 5.184 | 5 => 9.28 | 6 => 17.472 | 7 => 33.856 | _ => 0
  end%float.

Definition IIR_table (iir : Z) : float64 :=
  match iir with
  | 0 => 10 | 1 => 10 | 2 => 10 | 3 => 10 | 4 => 1 | 5 => 4 | 6 => 8 | 7 => 9
  | _ => 0
  end%float.

Definition settling_time (fir iir : Z) (dual : bool) : float64 :=
  let dual := if dual then 1%float else 0%float in
  (9.719 + IIR_table iir * (FIR_table fir + 5.26)
         + IIR_table iir * (FIR_table fir + 12.542)
         + dual * IIR_table iir * (FIR_table fir + 12.542))%float.

(** The FIR field (bits 10..8) and the IIR field (bits 2..0) of a config
    word. *)
Definition FIR_field (config : Z) : Z := Z.land (Z.shiftr config 8) 7.
Definition IIR_field (config : Z) : Z := Z.land config 7.
Definition filter_bit (i : Z) : bool :=
  ((0 <=? i) && (i <=? 2)) || ((8 <=? i) && (i <=? 10)).

(** The 16-bit register value carried by two bytes, high byte first, as a
    signed quantity. *)
Definition raw_int16 (b0 b1 : Z) : Z := int16 (b0 * 256 + b1).

(** Ambient temperature in kelvin, section 4.2. *)
Definition Tamb (rawAmbient PTAT25 M : Z) : float64 :=
  (298.15 + (float64_of_int rawAmbient - float64_of_int PTAT25)
            * (1 / float64_of_int M))%float.

Definition is_byte (b : Z) : Prop := 0 <= b < 256.

(** The unsigned 16-bit value carried by two bytes, high byte first. *)
Definition word (b0 b1 : Z) : Z := b0 * 256 + b1.

(** The calibration registers of the CaliPile, in the order [ReadEEPROM]
    reads them. *)
Definition eeprom_registers : list Z := [32; 63; 41; 42; 43; 44; 45; 46; 47; 48; 49; 50].

(** The calibration record [ReadEEPROM] leaves behind when the registers
    hold [regs]: the fields it assigns, the others as in [old]. *)
Definition eeprom_of_registers (old : Calipile.eeprom) (regs : Z -> Z) : Calipile.eeprom :=
  {| Calipile.protocol := regs 32;
     Calipile.checksum := Calipile.checksum old;
     Calipile.lookup := regs 41;
     Calipile.ptat25 := word (regs 42) (regs 43);
     Calipile.m := word (regs 44) (regs 45) / 100;
     Calipile.u0 := (word (regs 46) (regs 47) + 32768) mod 65536;
     Calipile.uOut1 := 2 * word (regs 48) (regs 49);
     Calipile.tObj1 := regs 50;
     Calipile.slaveAddress := regs 63 mod 128;
     Calipile.k := Calipile.k old |}.

(** CRC-8/CCITT as the specification and the comment above [crc8ccitt] name
    it: polynomial x^8 + x^2 + x + 1 (0x07), most significant bit first,
    initial value 0, nothing reflected, no final xor.  A round looks at the
    top bit, shifts, and then divides by the polynomial if the bit was set. *)
Definition CRC8_CCITT_round (crc : Z) : Z :=
  if negb (Z.land crc 0x80 =? 0) then Z.lxor (uint8 (Z.shiftl crc 1)) 0x07
  else uint8 (Z.shiftl crc 1).

Definition CRC8_CCITT_byte (crc data : Z) : Z :=
  Nat.iter 8 CRC8_CCITT_round (Z.lxor crc data).

Definition CRC8_CCITT (bytes : list Z) : Z := fold_left CRC8_CCITT_byte bytes 0.

(** The field each calibration register belongs to, as the errors of
    [ReadEEPROM] name it, in the order of [eeprom_registers]. *)
Definition eeprom_field_names : list string :=
  ["PROTOCOL"; "SLAVE ADD"; "LOOKUP#"; "PTAT25"; "PTAT25"; "M"; "M"; "U0"; "U0";
   "Uout1"; "Uout1"; "Tobj1"].

(** * Stub connections, after the test adaptor of the repository *)

(** Every call succeeds; [Read] fills the buffer with zeros. *)
Definition stubConnection : Connection := {|
  Write_impl := fun _ b => (Z.of_nat (List.length b), None);
  Read_impl := fun _ n => (repeat 0 n, Z.of_nat n, None);
  WriteByteData_impl := fun _ _ _ => None;
  ReadByteData_impl := fun _ _ => (0, None);
  WriteWordData_impl := fun _ _ _ => None;
  ReadWordData_impl := fun _ _ => (0, None);
  WriteBlockData_impl := fun _ _ _ => None
  |}.

(** [i2cReadImpl]: every [Read] copies [bytes] and reports their count. *)
Definition stubRead (bytes : list Z) : Connection := {|
  Write_impl := Write_impl stubConnection;
  Read_impl := fun _ _ => (bytes, Z.of_nat (List.length bytes), None);
  WriteByteData_impl := WriteByteData_impl stubConnection;
  ReadByteData_impl := ReadByteData_impl stubConnection;
  WriteWordData_impl := WriteWordData_impl stubConnection;
  ReadWordData_impl := ReadWordData_impl stubConnection;
  WriteBlockData_impl := WriteBlockData_impl stubConnection
  |}.

(** A device whose register writes all fail, reads as in [c]. *)
Definition stubWriteError (c : Connection) : Connection := {|
  Write_impl := Write_impl c;
  Read_impl := Read_impl c;
  WriteByteData_impl := fun _ _ _ => Some (conn_error "write error");
  ReadByteData_impl := ReadByteData_impl c;
  WriteWordData_impl := fun _ _ _ => Some (conn_error "write error");
  ReadWordData_impl := ReadWordData_impl c;
  WriteBlockData_impl := fun _ _ _ => Some (conn_error "write error")
  |}.

(** A register file: byte and word reads answer from [regs]. *)
Definition stubRegisters (regs : Z -> Z) : Connection := {|
  Write_impl := Write_impl stubConnection;
  Read_impl := Read_impl stubConnection;
  WriteByteData_impl := WriteByteData_impl stubConnection;
  ReadByteData_impl := fun _ reg => (regs reg, None);
  WriteWordData_impl := WriteWordData_impl stubConnection;
  ReadWordData_impl := fun _ reg => (regs reg, None);
  WriteBlockData_impl := WriteBlockData_impl stubConnection
  |}.

Definition defaultConfig : Config := {| address := None |}.

Definition mlx (c : Connection) : MLX90614.MLX90614Driver :=
  {| MLX90614.connection := c; MLX90614.config := defaultConfig |}.

Definition mlx_part002 (c : Connection) : MLX90614_part002.MLX90614Driver :=
  {| MLX90614_part002.connection := c; MLX90614_part002.config := defaultConfig |}.

Definition tmp007 (c : Connection) : TMP007.TMP007Driver :=
  {| TMP007.connection := c; TMP007.config := defaultConfig |}.

Definition tmp007_part001 (c : Connection) : TMP007_part001.TMP007Driver :=
  {| TMP007_part001.connection := c; TMP007_part001.config := defaultConfig |}.

Definition calipile (c : Connection) (PTAT25 M : Z) : Calipile.CalipileDriver :=
  {| Calipile.connection := c;
     Calipile.config := defaultConfig;
     Calipile.eeprom_ :=
       {| Calipile.protocol := 0; Calipile.checksum := 0; Calipile.lookup := 0;
          Calipile.ptat25 := PTAT25; Calipile.m := M; Calipile.u0 := 0;
          Calipile.uOut1 := 0; Calipile.tObj1 := 0; Calipile.slaveAddress := 0x0C;
          Calipile.k := 0%float |} |}.

(** The register of the last command written, as the test adaptor's
    [written[len(written)-1]]. *)
Fixpoint last_command (h : list event) (reg : Z) : Z :=
  match h with
  | [] => reg
  | EvWrite b :: h' => last_command h' (last b reg)
  | _ :: h' => last_command h' reg
  end.

(** [i2cReadImpl] of the [ReadID] test: every [Read] answers with the bytes
    of the register last commanded. *)
Definition stubReadByCommand (answer : Z -> list Z) : Connection := {|
  Write_impl := Write_impl stubConnection;
  Read_impl := fun h _ =>
    (answer (last_command h 0), Z.of_nat (List.length (answer (last_command h 0))), None);
  WriteByteData_impl := WriteByteData_impl stubConnection;
  ReadByteData_impl := ReadByteData_impl stubConnection;
  WriteWordData_impl := WriteWordData_impl stubConnection;
  ReadWordData_impl := ReadWordData_impl stubConnection;
  WriteBlockData_impl := WriteBlockData_impl stubConnection
  |}.

(** A device whose reads fail while fewer than [k] calls were made on the
    connection, and answer from [regs] after that. *)
Definition stubBusy (k : nat) (regs : Z -> Z) : Connection := {|
  Write_impl := Write_impl stubConnection;
  Read_impl := Read_impl stubConnection;
  WriteByteData_impl := WriteByteData_impl stubConnection;
  ReadByteData_impl := fun h reg =>
    if (List.length h <? k)%nat then (0, Some (conn_error "read error")) else (regs reg, None);
  WriteWordData_impl := WriteWordData_impl stubConnection;
  ReadWordData_impl := fun h reg =>
    if (List.length h <? k)%nat then (0, Some (conn_error "read error")) else (regs reg, None);
  WriteBlockData_impl := WriteBlockData_impl stubConnection
  |}.

(** A device whose [Read] answers [before] while fewer than [k] calls were
    made on the connection, and [after] from then on. *)
Definition stubReadAfter (k : nat) (before after : list Z) : Connection := {|
  Write_impl := Write_impl stubConnection;
  Read_impl := fun h _ =>
    if (List.length h <? k)%nat then (before, Z.of_nat (List.length before), None)
    else (after, Z.of_nat (List.length after), None);
  WriteByteData_impl := WriteByteData_impl stubConnection;
  ReadByteData_impl := ReadByteData_impl stubConnection;
  WriteWordData_impl := WriteWordData_impl stubConnection;
  ReadWordData_impl := ReadWordData_impl stubConnection;
  WriteBlockData_impl := WriteBlockData_impl stubConnection
  |}.

(** A device whose byte read of register [bad] fails; every other read
    answers zero. *)
Definition stubFailingRegister (bad : Z) : Connection := {|
  Write_impl := Write_impl stubConnection;
  Read_impl := Read_impl stubConnection;
  WriteByteData_impl := WriteByteData_impl stubConnection;
  ReadByteData_impl := fun _ reg =>
    if reg =? bad then (0, Some (conn_error "read error")) else (0, None);
  WriteWordData_impl := WriteWordData_impl stubConnection;
  ReadWordData_impl := ReadWordData_impl stubConnection;
  WriteBlockData_impl := WriteBlockData_impl stubConnection
  |}.

(** * Proof tools *)

(** The CRC is never unfolded by simplification. *)
Arguments MLX90614.crc8ccitt : simpl never.

(** Case analysis on an integer known to lie in a list of constants. *)
Ltac cases_of i vals :=
  lazymatch vals with
  | nil => exfalso; lia
  | cons ?v ?vs => destruct (Z.eq_dec i v) as [-> | ?]; [| cases_of i vs]
  end.

(** Bits of constants, computed. *)
Ltac const_bits :=
  repeat match goal with
         | |- context [Z.testbit (Zpos ?p) (Zpos ?q)] =>
             let v := eval vm_compute in (Z.testbit (Zpos p) (Zpos q)) in
             change (Z.testbit (Zpos p) (Zpos q)) with v
         | |- context [Z.testbit (Zpos ?p) 0] =>
             let v := eval vm_compute in (Z.testbit (Zpos p) 0) in
             change (Z.testbit (Zpos p) 0) with v
         | |- context [Z.testbit 0 ?q] => rewrite (Z.bits_0 q)
         end.

(** A check of [p] on the [n] integers from [i] on, for properties of the
    16-bit conversions that are settled by running them. *)
Fixpoint all_from (p : Z -> bool) (n : nat) (i : Z) : bool :=
  match n with
  | O => true
  | S n' => if p i then all_from p n' (i + 1) else false
  end.

(** The reads of [ReadEEPROM] that came before: each one is in the context
    with what it answered. *)
Ltac eeprom_earlier :=
  intros i Hi;
  do 12 (try (destruct i as [| i];
              [ try (exfalso; lia);
                cbn [nth firstn map eeprom_registers];
                match goal with
                | H : ReadByteData_impl _ _ ?r = _
                  |- snd (ReadByteData_impl _ _ ?r) = _ => rewrite H; reflexivity
                end
              | ]));
  exfalso; lia.

(** The end of a run of [ReadEEPROM] after [k] reads that succeeded. *)
Ltac eeprom_done k :=
  unfold ret; rewrite <- ?app_assoc; cbn [app];
  match goal with
  | |- exists e' err k', _ /\ _ /\ (Returns (?a, ?b), _) = _ /\ _ => exists a, b, k
  end;
  split; [lia |];
  split; [eeprom_earlier |];
  split; [reflexivity |];
  split; [intros Hk; first [reflexivity | exfalso; lia] |];
  split;
    [ intros Hk; first
        [ exfalso; lia
        | eexists; split;
          [ cbn [nth firstn map eeprom_registers];
            match goal with
            | H : ReadByteData_impl _ _ ?r = _
              |- snd (ReadByteData_impl _ _ ?r) = _ => rewrite H; reflexivity
            end
          | reflexivity ] ]
    | ];
  split; reflexivity.

(** One read of [ReadEEPROM], the [k]-th counting from 0: the case of a
    failure closes the goal, the case of a success goes on. *)
Ltac eeprom_read reg k :=
  match goal with
  | |- context [ReadByteData_impl ?c ?h0 reg] =>
      let H := fresh "Hread" in
      destruct (ReadByteData_impl c h0 reg) as [? [? |]] eqn:H;
      rewrite <- ?app_assoc in H; cbn [app] in H;
      cbv beta iota;
      [ eeprom_done k | ]
  end.

(** * Properties *)

(** ** Bytes and words *)

Lemma low_byte_land (data : Z) : uint8 (Z.land data 0x00FF) = low_byte data.
Proof.
  unfold uint8, low_byte.
  change 0x00FF with (Z.ones 8).
  rewrite Z.land_ones by lia.
  change (2 ^ 8) with 256.
  apply Z.mod_mod; lia.
Qed.

Lemma high_byte_shiftr (data : Z) : uint8 (Z.shiftr data 8) = high_byte data.
Proof.
  unfold uint8, high_byte.
  rewrite Z.shiftr_div_pow2 by lia.
  reflexivity.
Qed.

Lemma copy_length (buf data : list Z) : List.length (copy buf data) = List.length buf.
Proof.
  unfold copy.
  rewrite length_app, length_firstn, length_skipn.
  lia.
Qed.

Lemma copy_exact (buf data : list Z) :
  List.length data = List.length buf -> copy buf data = data.
Proof.
  intros Hlen. unfold copy.
  rewrite firstn_all2, skipn_all2 by lia.
  apply app_nil_r.
Qed.

(** ** MLX90614: what [write] puts on the bus *)

Lemma MLX90614_write_sends_packet (d : MLX90614.MLX90614Driver) (register data : Z)
    (h : list event) :
  MLX90614.write d register data h =
    (Returns (WriteBlockData_impl (MLX90614.connection d) h register
                (write_packet (GetAddressOrDefault (MLX90614.config d) 0x5A) register data)),
     h ++ [EvWriteBlockData register
             (write_packet (GetAddressOrDefault (MLX90614.config d) 0x5A) register data)]).
Proof.
  unfold MLX90614.write, WriteBlockData, write_packet, PEC, write_frame, slaveWriteAddress.
  cbv zeta. cbn [fold_left].
  rewrite low_byte_land, high_byte_shiftr.
  reflexivity.
Qed.

Lemma MLX90614_part002_write_cases (d : MLX90614_part002.MLX90614Driver)
    (register data : Z) :
  MLX90614_part002.write d register data =
    if existsb (Z.eqb register) protected_registers
    then ret (Some (errors_New "Refusing to write to protected register, see datasheet"))
    else WriteWordData (MLX90614_part002.connection d) register data.
Proof.
  unfold MLX90614_part002.write, protected_registers.
  destruct register as [| p | p]; try reflexivity.
  do 6 (try (destruct p as [p | p |]; try reflexivity)).
Qed.

Lemma existsb_eqb_In (x : Z) (l : list Z) : existsb (Z.eqb x) l = true <-> In x l.
Proof.
  rewrite existsb_exists. split.
  - intros [y [Hin Heq]]. apply Z.eqb_eq in Heq. now subst.
  - intros Hin. exists x. split; [assumption | apply Z.eqb_refl].
Qed.

(** The word-data revision refuses the protected registers before any bus
    operation: the history is unchanged. *)
Lemma MLX90614_part002_write_protected (d : MLX90614_part002.MLX90614Driver)
    (register data : Z) (h : list event) :
  In register protected_registers ->
  MLX90614_part002.write d register data h =
    (Returns (Some (errors_New "Refusing to write to protected register, see datasheet")), h).
Proof.
  intros Hin. rewrite MLX90614_part002_write_cases.
  apply existsb_eqb_In in Hin. rewrite Hin. reflexivity.
Qed.

Lemma MLX90614_part002_write_unguarded (d : MLX90614_part002.MLX90614Driver)
    (register data : Z) (h : list event) :
  ~ In register protected_registers ->
  MLX90614_part002.write d register data h =
    (Returns (WriteWordData_impl (MLX90614_part002.connection d) h register data),
     h ++ [EvWriteWordData register data]).
Proof.
  intros Hnot. rewrite MLX90614_part002_write_cases.
  destruct (existsb (Z.eqb register) protected_registers) eqn:Hex.
  - apply existsb_eqb_In in Hex. contradiction.
  - reflexivity.
Qed.

(** C1.  The claim: a write to a protected register (0x24, 0x0F, 0x19)
    returns a protected-register error and performs no bus operation.  In
    [drivers/i2c/mlx90614_driver.go] the guard is still a TODO: for every
    driver and data value, [write] on each protected register sends the block
    packet on the bus and returns whatever the connection answers. *)
Theorem MLX90614_write_protected_register_reaches_bus :
  forall (d : MLX90614.MLX90614Driver) (data : Z) (h : list event),
    Forall
      (fun register =>
         let packet :=
           write_packet (GetAddressOrDefault (MLX90614.config d) 0x5A) register data in
         MLX90614.write d register data h =
           (Returns (WriteBlockData_impl (MLX90614.connection d) h register packet),
            h ++ [EvWriteBlockData register packet])
         /\ bus_ops (snd (MLX90614.write d register data h)) <> bus_ops h)
      protected_registers.
Proof.
  intros d data h.
  apply Forall_forall. intros register _. cbv zeta.
  rewrite MLX90614_write_sends_packet. split; [reflexivity |].
  cbn [snd]. unfold bus_ops. rewrite filter_app. cbn [filter is_bus_op].
  intros Heq. apply (f_equal (@List.length event)) in Heq.
  rewrite length_app in Heq. cbn [List.length] in Heq. lia.
Qed.

(** ** CaliPile: the Celsius variant *)

(** C9.  The claim: [CalculateTPAmbientC] terminates and returns the Kelvin
    value minus 273.15.  The code calls itself, not [CalculateTPAmbient]:
    whatever the number of calls allowed, the call never returns. *)
Theorem Calipile_CalculateTPAmbientC_never_returns :
  forall (fuel : nat) (d : Calipile.CalipileDriver) (h : list event),
    Calipile.CalculateTPAmbientC fuel d h = None.
Proof.
  induction fuel as [| fuel IH]; intros d h.
  - reflexivity.
  - cbn [Calipile.CalculateTPAmbientC]. rewrite IH. reflexivity.
Qed.

(** ** MLX90614: the EEPROM write sequence *)

Lemma MLX90614_writeEEPROM_sequence (d : MLX90614.MLX90614Driver) (register data : Z)
    (h : list event) :
  let c := MLX90614.connection d in
  let addr := GetAddressOrDefault (MLX90614.config d) 0x5A in
  let erase := EvWriteBlockData register (write_packet addr register 0) in
  let real := EvWriteBlockData register (write_packet addr register data) in
  MLX90614.writeEEPROM d register data h =
    match WriteBlockData_impl c h register (write_packet addr register 0) with
    | Some err =>
        (Returns (Some (fmt_Errorf_v
           "MLX90614::writeEEPROM() failed to erase cell content: %v" err)),
         h ++ [erase])
    | None =>
        match WriteBlockData_impl c (h ++ [erase; EvSleep 5]) register
                (write_packet addr register data) with
        | Some err =>
            (Returns (Some (fmt_Errorf_v
               "MLX90614::writeEEPROM() failed to write new cell content: %v" err)),
             h ++ [erase; EvSleep 5; real])
        | None => (Returns None, h ++ [erase; EvSleep 5; real; EvSleep 5])
        end
    end.
Proof.
  cbv zeta. unfold MLX90614.writeEEPROM, bind.
  rewrite MLX90614_write_sends_packet.
  destruct (WriteBlockData_impl _ h register _) as [err |]; [reflexivity |].
  unfold time_Sleep. rewrite MLX90614_write_sends_packet.
  rewrite <- !app_assoc. cbn [app].
  destruct (WriteBlockData_impl _ _ register _) as [err |]; [reflexivity |].
  unfold ret. rewrite <- !app_assoc. reflexivity.
Qed.

Lemma MLX90614_part002_writeEEPROM_sequence (d : MLX90614_part002.MLX90614Driver)
    (register data : Z) (h : list event) :
  let c := MLX90614_part002.connection d in
  let erase := EvWriteWordData register 0 in
  let real := EvWriteWordData register data in
  MLX90614_part002.writeEEPROM d register data h =
    if existsb (Z.eqb register) protected_registers then
      (Returns (Some (fmt_Errorf_v
         "MLX90614::writeEEPROM() failed to erase cell content:\n\t%v"
         (errors_New "Refusing to write to protected register, see datasheet"))), h)
    else
      match WriteWordData_impl c h register 0 with
      | Some err =>
          (Returns (Some (fmt_Errorf_v
             "MLX90614::writeEEPROM() failed to erase cell content:\n\t%v" err)),
           h ++ [erase])
      | None =>
          match WriteWordData_impl c (h ++ [erase; EvSleep 5]) register data with
          | Some err =>
              (Returns (Some (fmt_Errorf_v
                 "MLX90614::writeEEPROM() failed to write new cell content:\n\t%v" err)),
               h ++ [erase; EvSleep 5; real])
          | None => (Returns None, h ++ [erase; EvSleep 5; real; EvSleep 5])
          end
      end.
Proof.
  cbv zeta. unfold MLX90614_part002.writeEEPROM, bind.
  rewrite !MLX90614_part002_write_cases.
  destruct (existsb (Z.eqb register) protected_registers); [reflexivity |].
  unfold WriteWordData at 1.
  destruct (WriteWordData_impl _ h register 0) as [err |]; [reflexivity |].
  unfold time_Sleep, WriteWordData.
  rewrite <- !app_assoc. cbn [app].
  destruct (WriteWordData_impl _ _ register data) as [err |]; [reflexivity |].
  unfold ret. rewrite <- !app_assoc. reflexivity.
Qed.

(** C3, as the code has it.  [writeEEPROM] first issues a write of zero; when
    that write fails it returns at once an error naming the erase phase, and
    the real write is not attempted; when it succeeds it sleeps 5 ms and
    issues the real write, whose failure is reported with an error naming the
    write phase.  The real write never precedes the erase.  Both revisions. *)
Theorem MLX90614_writeEEPROM_erase_then_write :
  (forall (d : MLX90614.MLX90614Driver) (register data : Z) (h : list event),
     let c := MLX90614.connection d in
     let addr := GetAddressOrDefault (MLX90614.config d) 0x5A in
     let erase := EvWriteBlockData register (write_packet addr register 0) in
     let real := EvWriteBlockData register (write_packet addr register data) in
     MLX90614.writeEEPROM d register data h =
       match WriteBlockData_impl c h register (write_packet addr register 0) with
       | Some err =>
           (Returns (Some (fmt_Errorf_v
              "MLX90614::writeEEPROM() failed to erase cell content: %v" err)),
            h ++ [erase])
       | None =>
           match WriteBlockData_impl c (h ++ [erase; EvSleep 5]) register
                   (write_packet addr register data) with
           | Some err =>
               (Returns (Some (fmt_Errorf_v
                  "MLX90614::writeEEPROM() failed to write new cell content: %v" err)),
                h ++ [erase; EvSleep 5; real])
           | None => (Returns None, h ++ [erase; EvSleep 5; real; EvSleep 5])
           end
       end)
  /\
  (forall (d : MLX90614_part002.MLX90614Driver) (register data : Z) (h : list event),
     let c := MLX90614_part002.connection d in
     let erase := EvWriteWordData register 0 in
     let real := EvWriteWordData register data in
     MLX90614_part002.writeEEPROM d register data h =
       if existsb (Z.eqb register) protected_registers then
         (Returns (Some (fmt_Errorf_v
            "MLX90614::writeEEPROM() failed to erase cell content:\n\t%v"
            (errors_New "Refusing to write to protected register, see datasheet"))), h)
       else
         match WriteWordData_impl c h register 0 with
         | Some err =>
             (Returns (Some (fmt_Errorf_v
                "MLX90614::writeEEPROM() failed to erase cell content:\n\t%v" err)),
              h ++ [erase])
         | None =>
             match WriteWordData_impl c (h ++ [erase; EvSleep 5]) register data with
             | Some err =>
                 (Returns (Some (fmt_Errorf_v
                    "MLX90614::writeEEPROM() failed to write new cell content:\n\t%v" err)),
                  h ++ [erase; EvSleep 5; real])
             | None => (Returns None, h ++ [erase; EvSleep 5; real; EvSleep 5])
             end
         end).
Proof.
  split.
  - exact MLX90614_writeEEPROM_sequence.
  - exact MLX90614_part002_writeEEPROM_sequence.
Qed.

(** C3 as stated fails: with a device that refuses every register write, the
    history after [writeEEPROM] holds the erase write alone, in both
    revisions; the write phase is not attempted. *)
Lemma MLX90614_writeEEPROM_failed_erase_stops :
  MLX90614.writeEEPROM (mlx (stubWriteError stubConnection)) 0x20 0x1234 [] =
    (Returns (Some (fmt_Errorf_v
       "MLX90614::writeEEPROM() failed to erase cell content: %v"
       (conn_error "write error"))),
     [EvWriteBlockData 0x20 [0x20; 0x00; 0x00; 0x14]])
  /\
  MLX90614_part002.writeEEPROM (mlx_part002 (stubWriteError stubConnection)) 0x20 0x1234 [] =
    (Returns (Some (fmt_Errorf_v
       "MLX90614::writeEEPROM() failed to erase cell content:\n\t%v"
       (conn_error "write error"))),
     [EvWriteWordData 0x20 0]).
Proof. split; vm_compute; reflexivity. Qed.

(** ** MLX90614: the read path and its PEC check *)

Lemma MLX90614_read_retry_first (c : Connection) (n k : nat) (buf data : list Z)
    (bytesRead : Z) (err : option error) (h : list event) :
  Read_impl c h (List.length buf) = (data, Z.of_nat n, None) ->
  MLX90614.read_retry c n (S k) buf bytesRead err h =
    (Returns (copy buf data, Z.of_nat n, None), h ++ [EvRead (List.length buf)]).
Proof.
  intros Hread.
  cbn [MLX90614.read_retry]. unfold bind, Read. rewrite Hread.
  rewrite Z.eqb_refl. reflexivity.
Qed.

(** What [read] answers when the command write succeeds and the first [Read]
    delivers three bytes: the PEC recomputed over the read frame decides. *)
Lemma MLX90614_read_response (d : MLX90614.MLX90614Driver) (register lo hi p n : Z)
    (h : list event) :
  let c := MLX90614.connection d in
  let addr := GetAddressOrDefault (MLX90614.config d) 0x5A in
  Write_impl c h [register] = (n, None) ->
  Read_impl c (h ++ [EvWrite [register]]) 3 = ([lo; hi; p], 3, None) ->
  MLX90614.read d register 3 h =
    (Returns
       (if p =? PEC (read_frame addr register lo hi) then ([lo; hi; p], None)
        else ([], Some (fmt_Errorf_XX "MLX90614::read() PEC mismatch exp:%X act:%X"
                          (PEC (read_frame addr register lo hi)) p))),
     h ++ [EvWrite [register]; EvRead 3]).
Proof.
  cbv zeta. intros Hwrite Hread.
  unfold MLX90614.read, bind at 1, Write. rewrite Hwrite.
  unfold bind at 1.
  rewrite (MLX90614_read_retry_first _ 3 49 (make 3) [lo; hi; p]) by exact Hread.
  change (copy (make 3) [lo; hi; p]) with [lo; hi; p].
  unfold index, bind, ret. cbn [nth_error].
  unfold PEC, read_frame, slaveReadAddress, slaveWriteAddress. cbn [fold_left].
  rewrite <- app_assoc. cbn [app List.length make repeat].
  destruct (p =? _); reflexivity.
Qed.

(** ** MLX90614: [ReadAddress] *)

(** [readUint16] puts the first byte received in the high half of the word:
    the low half, which [ReadAddress] keeps, is the second byte. *)
Lemma uint8_of_word (b0 b1 : Z) :
  is_byte b1 ->
  uint8 (Z.lor (uint16 (Z.shiftl (uint16 b0) 8)) (uint16 b1)) = b1.
Proof.
  unfold is_byte, uint8, uint16. intros Hb1.
  rewrite Z.shiftl_mul_pow2 by lia.
  change 256 with (2 ^ 8) at 1.
  rewrite <- Z.land_ones, Z.land_lor_distr_l, !Z.land_ones by lia.
  change (2 ^ 8) with 256.
  rewrite Z.mod_mod_divide by (exists 256; lia).
  rewrite Z.mod_mul by lia.
  rewrite Z.mod_mod_divide by (exists 256; lia).
  rewrite Z.lor_0_l. apply Z.mod_small. lia.
Qed.

Lemma MLX90614_readUint16_response (d : MLX90614.MLX90614Driver)
    (register b0 b1 p n : Z) (h : list event) :
  let c := MLX90614.connection d in
  let addr := GetAddressOrDefault (MLX90614.config d) 0x5A in
  Write_impl c h [register] = (n, None) ->
  Read_impl c (h ++ [EvWrite [register]]) 3 = ([b0; b1; p], 3, None) ->
  p = PEC (read_frame addr register b0 b1) ->
  MLX90614.readUint16 d register h =
    (Returns (Z.lor (uint16 (Z.shiftl (uint16 b0) 8)) (uint16 b1), None),
     h ++ [EvWrite [register]; EvRead 3]).
Proof.
  cbv zeta. intros Hwrite Hread Hpec.
  unfold MLX90614.readUint16, bind.
  rewrite (MLX90614_read_response d register b0 b1 p n h Hwrite Hread).
  cbv zeta. rewrite <- Hpec, Z.eqb_refl.
  reflexivity.
Qed.

(** ** Bits of a config word *)

Lemma testbit_above (a k i : Z) :
  0 <= a < 2 ^ k -> 0 <= k <= i -> Z.testbit a i = false.
Proof.
  intros Ha Hk.
  rewrite <- (Z.mod_small a (2 ^ k)) by lia.
  apply Z.mod_pow2_bits_high. lia.
Qed.

Lemma land_pow2_testbit (c n : Z) :
  0 <= n -> negb (Z.land c (2 ^ n) =? 0) = Z.testbit c n.
Proof.
  intros Hn. destruct (Z.testbit c n) eqn:Hbit.
  - apply negb_true_iff, Z.eqb_neq. intros Hzero.
    apply (f_equal (fun x => Z.testbit x n)) in Hzero.
    rewrite Z.land_spec, Hbit, Z.pow2_bits_true, Z.bits_0 in Hzero by lia.
    discriminate.
  - apply negb_false_iff, Z.eqb_eq, Z.bits_inj'. intros m Hm.
    rewrite Z.land_spec, Z.bits_0, Z.pow2_bits_eqb by lia.
    destruct (Z.eqb_spec n m) as [<- | _].
    + rewrite Hbit. reflexivity.
    + apply andb_false_r.
Qed.

Lemma dual_bit (config : Z) :
  negb (Z.land config 0x40 =? 0) = Z.testbit config 6.
Proof. exact (land_pow2_testbit config 6 ltac:(lia)). Qed.

(** The settling time the code computes is the formula of the specification
    at the supplied settings. *)
Lemma MLX90614_settling_time (fir iir config : Z) :
  4 <= fir <= 7 -> 0 <= iir <= 7 ->
  (9.719
   + map_index MLX90614.iirSettingsMap iir * (map_index MLX90614.firSettingsMap fir + 5.26)
   + map_index MLX90614.iirSettingsMap iir * (map_index MLX90614.firSettingsMap fir + 12.542)
   + (if negb (Z.land config 0x40 =? 0)%Z then 1 else 0)
     * map_index MLX90614.iirSettingsMap iir
     * (map_index MLX90614.firSettingsMap fir + 12.542))%float
  = settling_time fir iir (Z.testbit config 6).
Proof.
  intros Hfir Hiir. rewrite dual_bit.
  cases_of fir [4; 5; 6; 7];
    cases_of iir [0; 1; 2; 3; 4; 5; 6; 7];
    destruct (Z.testbit config 6); reflexivity.
Qed.

(** ** MLX90614: [WriteFilterConfig] *)

Lemma MLX90614_writeEEPROM_returns (d : MLX90614.MLX90614Driver) (register data : Z)
    (h : list event) :
  exists err h', MLX90614.writeEEPROM d register data h = (Returns err, h').
Proof.
  rewrite MLX90614_writeEEPROM_sequence. cbv zeta.
  repeat match goal with
         | |- context [match ?x with Some _ => _ | None => _ end] => destruct x
         end; eauto.
Qed.

Lemma MLX90614_part002_writeEEPROM_returns (d : MLX90614_part002.MLX90614Driver)
    (register data : Z) (h : list event) :
  exists err h', MLX90614_part002.writeEEPROM d register data h = (Returns err, h').
Proof.
  rewrite MLX90614_part002_writeEEPROM_sequence. cbv zeta.
  destruct (existsb _ _); [eauto |].
  repeat match goal with
         | |- context [match ?x with Some _ => _ | None => _ end] => destruct x
         end; eauto.
Qed.

(** Out-of-range settings are refused before any bus activity, in both
    revisions: the history is unchanged. *)
Lemma MLX90614_WriteFilterConfig_rejects (d : MLX90614.MLX90614Driver) (fir iir : Z)
    (h : list event) :
  (fir < 4 ->
   MLX90614.WriteFilterConfig d fir iir h =
     (Returns (0%float, Some (errors_New
        "MLX90614::WriteFilterConfig() FIR out of range: must be at least 0x04")), h))
  /\ (4 <= fir -> 8 <= fir \/ 8 <= iir ->
      MLX90614.WriteFilterConfig d fir iir h =
        (Returns (0%float, Some (errors_New
           "MLX90614::WriteFilterConfig() FIR or IIR out of range: each must be less than 0x08")),
         h)).
Proof.
  unfold MLX90614.WriteFilterConfig. split.
  - intros Hlow. apply Z.ltb_lt in Hlow. rewrite Hlow. reflexivity.
  - intros Hfir Hhigh. apply Z.ltb_ge in Hfir. rewrite Hfir.
    replace ((fir >? 7) || (iir >? 7)) with true; [reflexivity |].
    symmetry. apply orb_true_iff. rewrite !Z.gtb_ltb, !Z.ltb_lt. lia.
Qed.

Lemma MLX90614_part002_WriteFilterConfig_rejects (d : MLX90614_part002.MLX90614Driver)
    (fir iir : Z) (h : list event) :
  (fir < 4 ->
   MLX90614_part002.WriteFilterConfig d fir iir h =
     (Returns (0%float, Some (errors_New
        "MLX90614::WriteFilterConfig() FIR out of range: must be at least 0x04")), h))
  /\ (4 <= fir -> 8 <= fir \/ 8 <= iir ->
      MLX90614_part002.WriteFilterConfig d fir iir h =
        (Returns (0%float, Some (errors_New
           "MLX90614::WriteFilterConfig() FIR or IIR out of range: each must be less than 0x08")),
         h)).
Proof.
  unfold MLX90614_part002.WriteFilterConfig. split.
  - intros Hlow. apply Z.ltb_lt in Hlow. rewrite Hlow. reflexivity.
  - intros Hfir Hhigh. apply Z.ltb_ge in Hfir. rewrite Hfir.
    replace ((fir >? 7) || (iir >? 7)) with true; [reflexivity |].
    symmetry. apply orb_true_iff. rewrite !Z.gtb_ltb, !Z.ltb_lt. lia.
Qed.

Lemma in_range_guards (fir iir : Z) :
  4 <= fir <= 7 -> 0 <= iir <= 7 ->
  (fir <? 4) = false /\ ((fir >? 7) || (iir >? 7)) = false.
Proof.
  intros Hfir Hiir. split.
  - apply Z.ltb_ge. lia.
  - apply orb_false_iff. rewrite !Z.gtb_ltb, !Z.ltb_ge. lia.
Qed.

(** [drivers/i2c/mlx90614_driver.go]: in range, once the config register has
    been read, the settling time returned is the formula at the supplied
    settings, whatever the EEPROM write answers; the word written is the old
    config with the new fields OR-ed in. *)
Lemma MLX90614_WriteFilterConfig_accepted (d : MLX90614.MLX90614Driver)
    (fir iir config : Z) (h h1 : list event) :
  4 <= fir <= 7 -> 0 <= iir <= 7 ->
  MLX90614.ReadConfig d h = (Returns (config, None), h1) ->
  match MLX90614.writeEEPROM d 0x25 (Z.lor (Z.lor config (Z.shiftl fir 8)) iir) h1 with
  | (Returns err, h2) =>
      MLX90614.WriteFilterConfig d fir iir h =
        (Returns (settling_time fir iir (Z.testbit config 6),
                  option_map (fmt_Errorf_v "MLX90614::WriteFilterConfig() failed: %v") err),
         h2)
  | (Panics _, _) => False
  end.
Proof.
  intros Hfir Hiir Hread.
  destruct (MLX90614_writeEEPROM_returns d 0x25
              (Z.lor (Z.lor config (Z.shiftl fir 8)) iir) h1) as [err [h2 Hwrite]].
  rewrite Hwrite.
  unfold MLX90614.WriteFilterConfig.
  destruct (in_range_guards fir iir Hfir Hiir) as [-> ->].
  unfold bind at 1. rewrite Hread. cbv zeta.
  rewrite MLX90614_settling_time by assumption.
  replace (uint16 (Z.shiftl (uint16 fir) 8)) with (Z.shiftl fir 8)
    by (cases_of fir [4; 5; 6; 7]; reflexivity).
  replace (uint16 iir) with iir
    by (cases_of iir [0; 1; 2; 3; 4; 5; 6; 7]; reflexivity).
  unfold bind, MLX90614.mlx90614RegisterConfig. rewrite Hwrite.
  destruct err; reflexivity.
Qed.

Lemma land_7_range (a : Z) : 0 <= Z.land a 7 <= 7.
Proof.
  assert (Hmod : Z.land a 7 = a mod 8).
  { change 7 with (Z.ones 3). rewrite Z.land_ones by lia. reflexivity. }
  rewrite Hmod.
  pose proof (Z.mod_pos_bound a 8 ltac:(lia)). lia.
Qed.

(** The word-data revision computes the settling time from the config word it
    is given: the fields of that word, not the settings supplied. *)
Lemma MLX90614_part002_SettlingTimeFromConfig_fields (config : Z) :
  MLX90614_part002.SettlingTimeFromConfig config =
    settling_time (FIR_field config) (IIR_field config) (Z.testbit config 6).
Proof.
  unfold MLX90614_part002.SettlingTimeFromConfig.
  cbv zeta. rewrite dual_bit.
  rewrite Z.shiftr_land. change (Z.shiftr 0x700 8) with 7.
  fold (FIR_field config). fold (IIR_field config).
  pose proof (land_7_range (Z.shiftr config 8)) as Hfir.
  pose proof (land_7_range config) as Hiir.
  fold (FIR_field config) in Hfir. fold (IIR_field config) in Hiir.
  unfold uint8. rewrite !Z.mod_small by lia.
  generalize dependent (FIR_field config). intros fir Hfir.
  generalize dependent (IIR_field config). intros iir Hiir.
  cases_of fir [0; 1; 2; 3; 4; 5; 6; 7];
    cases_of iir [0; 1; 2; 3; 4; 5; 6; 7];
    destruct (Z.testbit config 6); reflexivity.
Qed.

Lemma MLX90614_part002_WriteFilterConfig_accepted (d : MLX90614_part002.MLX90614Driver)
    (fir iir config : Z) (h h1 : list event) :
  4 <= fir <= 7 -> 0 <= iir <= 7 ->
  MLX90614_part002.ReadConfig d h = (Returns (config, None), h1) ->
  match MLX90614_part002.writeEEPROM d 0x25
          (Z.lor (Z.land (Z.lor (Z.land config 0xF8FF) (Z.shiftl fir 8)) 0xFFF8) iir) h1 with
  | (Returns err, h2) =>
      MLX90614_part002.WriteFilterConfig d fir iir h =
        (Returns (settling_time (FIR_field config) (IIR_field config) (Z.testbit config 6),
                  option_map (fmt_Errorf_v "MLX90614::WriteFilterConfig() failed:\n\t%v") err),
         h2)
  | (Panics _, _) => False
  end.
Proof.
  intros Hfir Hiir Hread.
  destruct (MLX90614_part002_writeEEPROM_returns d 0x25
              (Z.lor (Z.land (Z.lor (Z.land config 0xF8FF) (Z.shiftl fir 8)) 0xFFF8) iir) h1)
    as [err [h2 Hwrite]].
  rewrite Hwrite.
  unfold MLX90614_part002.WriteFilterConfig.
  destruct (in_range_guards fir iir Hfir Hiir) as [-> ->].
  unfold bind at 1. rewrite Hread. cbv zeta.
  rewrite MLX90614_part002_SettlingTimeFromConfig_fields.
  replace (uint16 (Z.shiftl (uint16 fir) 8)) with (Z.shiftl fir 8)
    by (cases_of fir [4; 5; 6; 7]; reflexivity).
  replace (uint16 iir) with iir
    by (cases_of iir [0; 1; 2; 3; 4; 5; 6; 7]; reflexivity).
  unfold bind, MLX90614_part002.mlx90614RegisterConfig. rewrite Hwrite.
  destruct err; reflexivity.
Qed.

(** The word the word-data revision writes back: the fields are the settings
    supplied, every other bit is the bit of the config read. *)
Lemma MLX90614_part002_filter_word_bits (fir iir config : Z) :
  4 <= fir <= 7 -> 0 <= iir <= 7 -> 0 <= config < 65536 ->
  let w := Z.lor (Z.land (Z.lor (Z.land config 0xF8FF) (Z.shiftl fir 8)) 0xFFF8) iir in
  FIR_field w = fir
  /\ IIR_field w = iir
  /\ (forall i, 0 <= i -> filter_bit i = false -> Z.testbit w i = Z.testbit config i).
Proof.
  intros Hfir Hiir Hconfig w. subst w. unfold FIR_field, IIR_field.
  assert (Hhigh : forall a i, 0 <= a < 65536 -> 16 <= i -> Z.testbit a i = false).
  { intros a i Ha Hi. apply (testbit_above a 16 i); [exact Ha | lia]. }
  assert (Hlow : forall a i, 0 <= a < 8 -> 3 <= i -> Z.testbit a i = false).
  { intros a i Ha Hi. apply (testbit_above a 3 i); [exact Ha | lia]. }
  repeat split.
  - apply Z.bits_inj'. intros n Hn.
    rewrite Z.land_spec, Z.shiftr_spec, Z.lor_spec, Z.land_spec, Z.lor_spec, Z.land_spec
      by lia.
    destruct (Z.lt_ge_cases n 3) as [Hlt | Hge].
    + cases_of n [0; 1; 2]; cases_of fir [4; 5; 6; 7];
        cases_of iir [0; 1; 2; 3; 4; 5; 6; 7];
        cbn [Z.add Z.shiftl Pos.add Pos.iter Pos.succ]; const_bits;
        destruct (Z.testbit config _); reflexivity.
    + rewrite (Hlow 7 n), (Hlow fir n) by lia. apply andb_false_r.
  - apply Z.bits_inj'. intros n Hn.
    rewrite Z.land_spec, Z.lor_spec, Z.land_spec, Z.lor_spec, Z.land_spec.
    destruct (Z.lt_ge_cases n 3) as [Hlt | Hge].
    + cases_of n [0; 1; 2]; cases_of fir [4; 5; 6; 7];
        cases_of iir [0; 1; 2; 3; 4; 5; 6; 7];
        cbn [Z.shiftl Pos.iter]; const_bits;
        destruct (Z.testbit config _); reflexivity.
    + rewrite (Hlow 7 n), (Hlow iir n) by lia. apply andb_false_r.
  - intros i Hi Hfilter.
    rewrite Z.lor_spec, Z.land_spec, Z.lor_spec, Z.land_spec.
    destruct (Z.lt_ge_cases i 16) as [Hlt | Hge].
    + cases_of i [0; 1; 2; 3; 4; 5; 6; 7; 8; 9; 10; 11; 12; 13; 14; 15];
        try discriminate Hfilter;
        cases_of fir [4; 5; 6; 7]; cases_of iir [0; 1; 2; 3; 4; 5; 6; 7];
        cbn [Z.shiftl Pos.iter]; const_bits;
        destruct (Z.testbit config _); reflexivity.
    + rewrite (Hhigh config i), (Hhigh 0xF8FF i), (Hhigh iir i) by lia.
      cases_of fir [4; 5; 6; 7]; cbn [Z.shiftl Pos.iter];
        rewrite (Hhigh _ i) by lia; reflexivity.
Qed.

(** C4.  The claim: in range, [WriteFilterConfig] returns the settling time of
    the formula evaluated with the supplied [fir] and [iir].  The word-data
    revision computes it from the config word read from the device, before
    the new settings are put in: with 0x9FB4 in the config register (FIR 7,
    IIR 4, single sensor) and the call [WriteFilterConfig 4 0], it returns the
    settling time of FIR 7 and IIR 4, which is less than that of FIR 4 and
    IIR 0. *)
Theorem MLX90614_part002_WriteFilterConfig_settling_time_of_old_config :
  MLX90614_part002.WriteFilterConfig
    (mlx_part002 (stubRegisters (fun _ => 0x9FB4))) 4 0 [] =
    (Returns (settling_time 7 4 false, None),
     [EvReadWordData 0x25; EvWriteWordData 0x25 0; EvSleep 5;
      EvWriteWordData 0x25 0x9CB0; EvSleep 5])
  /\ settling_time 7 4 false = 95.233%float
  /\ settling_time 4 0 false = 291.419%float
  /\ PrimFloat.eqb (settling_time 7 4 false) (settling_time 4 0 false) = false.
Proof. repeat split; vm_compute; reflexivity. Qed.

(** C5.  The claim: the word written back has its FIR field equal to [fir]
    and its IIR field equal to [iir].  [drivers/i2c/mlx90614_driver.go] ORs
    the new fields into the old word without clearing them: with 0x9FB4 read
    from the config register (bytes 0x9F, 0xB4 and their PEC 0x78) and the
    call [WriteFilterConfig 4 0], the word written is 0x9FB4 again (low byte
    0xB4, high byte 0x9F), FIR field 7 and IIR field 4. *)
Theorem MLX90614_WriteFilterConfig_keeps_old_filter_bits :
  MLX90614.WriteFilterConfig (mlx (stubRead [0x9F; 0xB4; 0x78])) 4 0 [] =
    (Returns (settling_time 4 0 false, None),
     [EvWrite [0x25]; EvRead 3;
      EvWriteBlockData 0x25 [0x25; 0x00; 0x00; 0x78]; EvSleep 5;
      EvWriteBlockData 0x25 (write_packet 0x5A 0x25 0x9FB4); EvSleep 5])
  /\ write_packet 0x5A 0x25 0x9FB4 = [0x25; 0xB4; 0x9F; 0x06]
  /\ FIR_field 0x9FB4 = 7
  /\ IIR_field 0x9FB4 = 4.
Proof. repeat split; vm_compute; reflexivity. Qed.

(** ** TMP007 *)

Lemma lor_shifted_byte (k b : Z) : is_byte b -> Z.lor (k * 256) b = k * 256 + b.
Proof.
  unfold is_byte. intros Hb.
  assert (Hland : Z.land (k * 256) b = 0).
  { apply Z.bits_inj'. intros n Hn. rewrite Z.land_spec, Z.bits_0.
    destruct (Z.lt_ge_cases n 8) as [Hlt | Hge].
    - change 256 with (2 ^ 8). rewrite Z.mul_pow2_bits_low by exact Hlt. reflexivity.
    - rewrite (testbit_above b 8 n) by (change (2 ^ 8) with 256; lia).
      apply andb_false_r. }
  rewrite <- Z.lxor_lor by exact Hland.
  symmetry. apply Z.add_nocarry_lxor. exact Hland.
Qed.

(** The 16-bit value the drivers assemble from two bytes, high byte first,
    with [int16] arithmetic. *)
Lemma int16_of_bytes (b0 b1 : Z) :
  is_byte b0 -> is_byte b1 ->
  Z.lor (int16 (Z.shiftl (int16 b0) 8)) (int16 b1) = raw_int16 b0 b1.
Proof.
  unfold is_byte, raw_int16, int16. intros Hb0 Hb1.
  rewrite (Z.mod_small (b0 + 32768)), (Z.mod_small (b1 + 32768)) by lia.
  replace (b0 + 32768 - 32768) with b0 by lia.
  replace (b1 + 32768 - 32768) with b1 by lia.
  rewrite Z.shiftl_mul_pow2 by lia. change (2 ^ 8) with 256.
  destruct (Z.lt_ge_cases b0 128) as [Hlt | Hge].
  - rewrite !Z.mod_small by lia.
    replace (b0 * 256 + 32768 - 32768) with (b0 * 256) by lia.
    rewrite lor_shifted_byte by exact Hb1. lia.
  - replace (b0 * 256 + 32768) with (b0 * 256 - 32768 + 1 * 65536) by lia.
    replace (b0 * 256 + b1 + 32768) with (b0 * 256 + b1 - 32768 + 1 * 65536) by lia.
    rewrite !Z.mod_add, !Z.mod_small by lia.
    replace (b0 * 256 - 32768 - 32768) with ((b0 - 256) * 256) by lia.
    rewrite lor_shifted_byte by exact Hb1. lia.
Qed.

Lemma nDVtoBool_bit0 (raw : Z) : TMP007.nDVtoBool raw = negb (Z.testbit raw 0).
Proof.
  unfold TMP007.nDVtoBool.
  rewrite <- (land_pow2_testbit raw 0) by lia.
  change (2 ^ 0) with 1.
  destruct (negb (Z.land raw 1 =? 0)); reflexivity.
Qed.

(** The retry loop of [tmp007.go] always comes back, and with a buffer of the
    length it was given. *)
Lemma TMP007_read_retry_length (c : Connection) (n : nat) :
  forall (numRetries : nat) (buf : list Z) (bytesRead : Z) (err : option error)
         (h : list event),
  exists buf' bytesRead' err' h',
    TMP007.read_retry c n numRetries buf bytesRead err h =
      (Returns (buf', bytesRead', err'), h')
    /\ List.length buf' = List.length buf.
Proof.
  induction numRetries as [| k IH]; intros buf bytesRead err h.
  - exists buf, bytesRead, err, h. split; reflexivity.
  - cbn [TMP007.read_retry]. unfold bind, Read.
    destruct (Read_impl c h (List.length buf)) as [[data m] e].
    destruct ((m =? Z.of_nat n) && is_nil e).
    + eexists _, _, _, _. split; [reflexivity | apply copy_length].
    + destruct (IH (copy buf data) m e (h ++ [EvRead (List.length buf)]))
        as [buf' [br' [err' [h' [Hrun Hlen]]]]].
      exists buf', br', err', h'. split; [exact Hrun |].
      rewrite Hlen. apply copy_length.
Qed.

(** [read] of [tmp007.go] never panics; with a nil error the buffer has
    length [n]. *)
Lemma TMP007_read_returns (d : TMP007.TMP007Driver) (address : Z) (n : nat)
    (h : list event) :
  exists buf err h',
    TMP007.read d address n h = (Returns (buf, err), h')
    /\ (err = None -> List.length buf = n).
Proof.
  unfold TMP007.read, bind, Write.
  destruct (Write_impl (TMP007.connection d) h [address]) as [m [e |]].
  - eexists _, _, _. split; [reflexivity | discriminate].
  - destruct (TMP007_read_retry_length (TMP007.connection d) n 50 (make n) 0 None
                (h ++ [EvWrite [address]]))
      as [buf' [br' [err' [h' [Hrun Hlen]]]]].
    rewrite Hrun. exists buf', err', h'. split; [reflexivity |].
    intros _. rewrite Hlen. apply repeat_length.
Qed.

Lemma list_of_length_2 (b : list Z) :
  List.length b = 2%nat -> exists b0 b1, b = [b0; b1].
Proof.
  destruct b as [| b0 [| b1 [| b2 b]]]; try discriminate.
  intros _. exists b0, b1. reflexivity.
Qed.

(** [tmp007.go]: what [ReadDieTempC] and [ReadObjTempC] make of the two bytes
    [read] hands them. *)
Lemma TMP007_ReadDieTempC_decodes (d : TMP007.TMP007Driver) (b0 b1 : Z)
    (h h1 : list event) :
  is_byte b0 -> is_byte b1 ->
  TMP007.read d 0x01 2 h = (Returns ([b0; b1], None), h1) ->
  TMP007.ReadDieTempC d h =
    (Returns
       (if Z.testbit (raw_int16 b0 b1) 0
        then (0%float, Some (errors_New "nDV bit is set"))
        else ((float64_of_int (Z.shiftr (raw_int16 b0 b1) 2) * 0.03125)%float, None)),
     h1).
Proof.
  intros Hb0 Hb1 Hread.
  unfold TMP007.ReadDieTempC, bind, TMP007.tmp007RegisterTDie. rewrite Hread.
  unfold index, ret. cbn [nth_error]. cbv zeta.
  rewrite int16_of_bytes, nDVtoBool_bit0, negb_involutive by assumption.
  destruct (Z.testbit (raw_int16 b0 b1) 0); reflexivity.
Qed.

Lemma TMP007_ReadObjTempC_decodes (d : TMP007.TMP007Driver) (b0 b1 : Z)
    (h h1 : list event) :
  is_byte b0 -> is_byte b1 ->
  TMP007.read d 0x03 2 h = (Returns ([b0; b1], None), h1) ->
  TMP007.ReadObjTempC d h =
    (Returns
       (if Z.testbit (raw_int16 b0 b1) 0
        then (0%float, Some (errors_New "nDV bit is set"))
        else ((float64_of_int (Z.shiftr (raw_int16 b0 b1) 2) * 0.03125)%float, None)),
     h1).
Proof.
  intros Hb0 Hb1 Hread.
  unfold TMP007.ReadObjTempC, bind, TMP007.tmp007RegisterTObj. rewrite Hread.
  unfold index, ret. cbn [nth_error]. cbv zeta.
  rewrite int16_of_bytes, nDVtoBool_bit0, negb_involutive by assumption.
  destruct (Z.testbit (raw_int16 b0 b1) 0); reflexivity.
Qed.

(** [tmp007.go]: no reading function indexes past the buffer. *)
Lemma TMP007_readers_never_panic (d : TMP007.TMP007Driver) (h : list event) :
  (exists r h', TMP007.ReadDieTempC d h = (Returns r, h'))
  /\ (exists r h', TMP007.ReadObjTempC d h = (Returns r, h'))
  /\ (exists r h', TMP007.ReadSensorVoltage d h = (Returns r, h')).
Proof.
  unfold TMP007.ReadDieTempC, TMP007.ReadObjTempC, TMP007.ReadSensorVoltage, bind.
  repeat split.
  all: match goal with
       | |- context [TMP007.read ?dr ?a 2 ?h0] =>
           destruct (TMP007_read_returns dr a 2 h0) as [buf [err [h' [Hrun Hlen]]]];
           rewrite Hrun
       end.
  all: destruct err as [e |]; [eexists _, _; reflexivity |].
  all: destruct (list_of_length_2 buf (Hlen eq_refl)) as [b0 [b1 ->]].
  all: unfold index, ret; cbn [nth_error]; cbv zeta.
  all: try (destruct (negb (TMP007.nDVtoBool _))); eexists _, _; reflexivity.
Qed.

(** C7.  The claim: with bit 0 of the raw value set, [ReadDieTempC] and
    [ReadObjTempC] return an invalid-data error, never a temperature.  The
    revision without error results has no such check: for the register bytes
    0x0C, 0x81 (raw 0x0C81, bit 0 set) both return 25.0. *)
Theorem TMP007_part001_temperature_with_nDV_set :
  Z.testbit (raw_int16 0x0C 0x81) 0 = true
  /\ TMP007_part001.ReadDieTempC (tmp007_part001 (stubRead [0x0C; 0x81])) [] =
       (Returns 25%float, [EvWrite [0x01]; EvRead 2])
  /\ TMP007_part001.ReadObjTempC (tmp007_part001 (stubRead [0x0C; 0x81])) [] =
       (Returns 25%float, [EvWrite [0x03]; EvRead 2]).
Proof. repeat split; vm_compute; reflexivity. Qed.

(** C10.  The claim: a nil error from [read] comes with a buffer of length
    [n], so that no reading function indexes a nil or short slice.  In the
    revision without error results, a [Read] that reports one byte of the two
    asked for, with a nil error, makes [read] return a nil buffer and a nil
    error, and each of the three reading functions then panics on [b[0]]. *)
Theorem TMP007_part001_short_read_panics :
  Read_impl (stubRead [0x0C]) [EvWrite [0x01]] 2 = ([0x0C], 1, None)
  /\ TMP007_part001.read (tmp007_part001 (stubRead [0x0C])) 0x01 2 [] =
       (Returns ([], None), [EvWrite [0x01]; EvRead 2])
  /\ TMP007_part001.ReadDieTempC (tmp007_part001 (stubRead [0x0C])) [] =
       (Panics "index out of range", [EvWrite [0x01]; EvRead 2])
  /\ TMP007_part001.ReadObjTempC (tmp007_part001 (stubRead [0x0C])) [] =
       (Panics "index out of range", [EvWrite [0x03]; EvRead 2])
  /\ TMP007_part001.ReadSensorVoltage (tmp007_part001 (stubRead [0x0C])) [] =
       (Panics "index out of range", [EvWrite [0x00]; EvRead 2]).
Proof. repeat split; vm_compute; reflexivity. Qed.

(** ** CaliPile: ambient temperature *)

Lemma Calipile_raw_ambient (val8h val8l : Z) :
  is_byte val8h -> is_byte val8l ->
  Z.lor (uint16 (Z.shiftl (uint16 (Z.land val8h 0x7F)) 8)) (uint16 val8l) =
    (val8h mod 128) * 256 + val8l.
Proof.
  unfold is_byte, uint16. intros Hh Hl.
  change 0x7F with (Z.ones 7). rewrite Z.land_ones by lia. change (2 ^ 7) with 128.
  pose proof (Z.mod_pos_bound val8h 128 ltac:(lia)) as Hm.
  rewrite Z.shiftl_mul_pow2 by lia. change (2 ^ 8) with 256.
  rewrite (Z.mod_small (val8h mod 128) 65536) by lia.
  rewrite (Z.mod_small (val8h mod 128 * 256) 65536) by lia.
  rewrite (Z.mod_small val8l 65536) by lia.
  apply lor_shifted_byte. exact Hl.
Qed.

(** C8.  Whatever the calibration stored and whatever the two ambient
    registers hold, [CalculateTPAmbient] returns
    298.15 + (rawAmbient - PTAT25) * (1/M), the raw reading being the 15-bit
    value of the two registers; with PTAT25 = 8192, M = 100 and a raw reading
    of 8292 that is 299.15. *)
Theorem Calipile_CalculateTPAmbient_formula :
  (forall (d : Calipile.CalipileDriver) (val8h val8l : Z) (h : list event),
     let c := Calipile.connection d in
     let rawAmbient := (val8h mod 128) * 256 + val8l in
     is_byte val8h -> is_byte val8l ->
     ReadByteData_impl c h 3 = (val8h, None) ->
     ReadByteData_impl c (h ++ [EvReadByteData 3]) 4 = (val8l, None) ->
     Calipile.CalculateTPAmbient d h =
       (Returns (Tamb rawAmbient (Calipile.ptat25 (Calipile.eeprom_ d))
                   (Calipile.m (Calipile.eeprom_ d)), None),
        h ++ [EvReadByteData 3; EvReadByteData 4]))
  /\ Tamb 8292 8192 100 = 299.15%float.
Proof.
  split; [| vm_compute; reflexivity].
  cbv zeta. intros d val8h val8l h Hh Hl Hread1 Hread2.
  unfold Calipile.CalculateTPAmbient, Calipile.ReadRawTPAmbient, bind, ReadByteData.
  unfold Calipile.calipileRegisterTPAmbient1, Calipile.calipileRegisterTPAmbient2.
  rewrite Hread1, Hread2. cbv zeta. unfold ret.
  rewrite Calipile_raw_ambient by assumption.
  rewrite <- app_assoc. reflexivity.
Qed.

(** PTAT25 = 8192, M = 100, ambient registers 0x20 and 0x64 (raw 8292). *)
Lemma Calipile_CalculateTPAmbient_formula_witness :
  Calipile.CalculateTPAmbient
    (calipile (stubRegisters (fun reg => if reg =? 3 then 0x20 else 0x64)) 8192 100) [] =
    (Returns (299.15%float, None), [EvReadByteData 3; EvReadByteData 4]).
Proof.
  destruct Calipile_CalculateTPAmbient_formula as [Hgen Hval].
  rewrite <- Hval.
  apply (Hgen (calipile (stubRegisters (fun reg => if reg =? 3 then 0x20 else 0x64))
                 8192 100) 0x20 0x64 []).
  - unfold is_byte. lia.
  - unfold is_byte. lia.
  - reflexivity.
  - reflexivity.
Defined.

(** * What the other revision does right

    Each property above that one revision misses holds in the other. *)

(** X1.  The word-data revision refuses every protected register before any
    bus operation: a protected-register error, and the history unchanged. *)
Theorem MLX90614_part002_write_refuses_protected_registers :
  forall (d : MLX90614_part002.MLX90614Driver) (data : Z) (h : list event),
    Forall
      (fun register =>
         MLX90614_part002.write d register data h =
           (Returns (Some (errors_New
              "Refusing to write to protected register, see datasheet")), h))
      protected_registers.
Proof.
  intros d data h. apply Forall_forall. intros register Hin.
  apply MLX90614_part002_write_protected. exact Hin.
Qed.

(** X2.  [drivers/i2c/mlx90614_driver.go]: [WriteFilterConfig] refuses FIR
    below 4 and FIR or IIR of 8 and more before any bus activity; in range, once the
    config register has been read, it returns the settling time of the
    formula at the supplied settings, with dual taken from bit 6 of the
    config read, whether or not the EEPROM write succeeds. *)
Theorem MLX90614_WriteFilterConfig_settling_time_formula :
  forall (d : MLX90614.MLX90614Driver) (fir iir config : Z) (h h1 : list event),
    4 <= fir <= 7 -> 0 <= iir <= 7 ->
    MLX90614.ReadConfig d h = (Returns (config, None), h1) ->
    (exists err h2,
       MLX90614.WriteFilterConfig d fir iir h =
         (Returns (settling_time fir iir (Z.testbit config 6), err), h2))
    /\ (forall fir' iir', fir' < 4 \/ 8 <= fir' \/ 8 <= iir' ->
        exists msg,
          MLX90614.WriteFilterConfig d fir' iir' h =
            (Returns (0%float, Some (errors_New msg)), h)).
Proof.
  intros d fir iir config h h1 Hfir Hiir Hread. split.
  - pose proof (MLX90614_WriteFilterConfig_accepted d fir iir config h h1
                  Hfir Hiir Hread) as Hrun.
    destruct (MLX90614.writeEEPROM d 0x25 _ h1) as [[err | msg] h2]; [| contradiction].
    eexists _, _. exact Hrun.
  - intros fir' iir' Hout.
    destruct (MLX90614_WriteFilterConfig_rejects d fir' iir' h) as [Hlow Hhigh].
    destruct (Z.lt_ge_cases fir' 4) as [Hlt | Hge].
    + eexists. apply Hlow. exact Hlt.
    + eexists. apply Hhigh; lia.
Qed.

(** The config register holds 0x9FB4 (single sensor): FIR 4, IIR 0. *)
Lemma MLX90614_WriteFilterConfig_settling_time_formula_witness :
  exists err h2,
    MLX90614.WriteFilterConfig (mlx (stubRead [0x9F; 0xB4; 0x78])) 4 0 [] =
      (Returns (settling_time 4 0 (Z.testbit 0x9FB4 6), err), h2).
Proof.
  apply (MLX90614_WriteFilterConfig_settling_time_formula
           (mlx (stubRead [0x9F; 0xB4; 0x78])) 4 0 0x9FB4 []
           [EvWrite [0x25]; EvRead 3]).
  - lia.
  - lia.
  - vm_compute. reflexivity.
Defined.

(** X3.  The word-data revision: the word [WriteFilterConfig] hands to the
    EEPROM write sequence for the config register has FIR field [fir], IIR field
    [iir], and every other bit as in the config read. *)
Theorem MLX90614_part002_WriteFilterConfig_preserves_other_bits :
  forall (d : MLX90614_part002.MLX90614Driver) (fir iir config : Z)
         (h h1 : list event),
    4 <= fir <= 7 -> 0 <= iir <= 7 -> 0 <= config < 65536 ->
    MLX90614_part002.ReadConfig d h = (Returns (config, None), h1) ->
    exists w,
      snd (MLX90614_part002.WriteFilterConfig d fir iir h) =
        snd (MLX90614_part002.writeEEPROM d 0x25 w h1)
      /\ FIR_field w = fir
      /\ IIR_field w = iir
      /\ (forall i, 0 <= i -> filter_bit i = false ->
          Z.testbit w i = Z.testbit config i).
Proof.
  intros d fir iir config h h1 Hfir Hiir Hconfig Hread.
  exists (Z.lor (Z.land (Z.lor (Z.land config 0xF8FF) (Z.shiftl fir 8)) 0xFFF8) iir).
  split.
  - pose proof (MLX90614_part002_WriteFilterConfig_accepted d fir iir config h h1
                  Hfir Hiir Hread) as Hrun.
    destruct (MLX90614_part002.writeEEPROM d 0x25 _ h1) as [[err | msg] h2];
      [| contradiction].
    rewrite Hrun. reflexivity.
  - apply MLX90614_part002_filter_word_bits; assumption.
Qed.

(** The config register holds 0x9FB4; FIR 4 and IIR 0 give 0x9CB0. *)
Lemma MLX90614_part002_WriteFilterConfig_preserves_other_bits_witness :
  exists w,
    snd (MLX90614_part002.WriteFilterConfig
           (mlx_part002 (stubRegisters (fun _ => 0x9FB4))) 4 0 []) =
      snd (MLX90614_part002.writeEEPROM
             (mlx_part002 (stubRegisters (fun _ => 0x9FB4))) 0x25 w
             [EvReadWordData 0x25])
    /\ FIR_field w = 4
    /\ IIR_field w = 0
    /\ (forall i, 0 <= i -> filter_bit i = false ->
        Z.testbit w i = Z.testbit 0x9FB4 i).
Proof.
  apply (MLX90614_part002_WriteFilterConfig_preserves_other_bits
           (mlx_part002 (stubRegisters (fun _ => 0x9FB4))) 4 0 0x9FB4 []
           [EvReadWordData 0x25]).
  - lia.
  - lia.
  - lia.
  - vm_compute. reflexivity.
Defined.

(** X4.  [tmp007.go]: for every pair of register bytes [read] hands over, the die
    and object temperature readings are an invalid-data error when bit 0 of
    the raw value is set, and otherwise the raw value shifted right by two
    and scaled by 0.03125. *)
Theorem TMP007_temperature_decoding :
  forall (d : TMP007.TMP007Driver) (b0 b1 : Z) (h h1 h2 : list event),
    is_byte b0 -> is_byte b1 ->
    TMP007.read d 0x01 2 h = (Returns ([b0; b1], None), h1) ->
    TMP007.read d 0x03 2 h = (Returns ([b0; b1], None), h2) ->
    let decoded :=
      if Z.testbit (raw_int16 b0 b1) 0
      then (0%float, Some (errors_New "nDV bit is set"))
      else ((float64_of_int (Z.shiftr (raw_int16 b0 b1) 2) * 0.03125)%float, None) in
    TMP007.ReadDieTempC d h = (Returns decoded, h1)
    /\ TMP007.ReadObjTempC d h = (Returns decoded, h2).
Proof.
  intros d b0 b1 h h1 h2 Hb0 Hb1 Hdie Hobj. cbv zeta. split.
  - apply TMP007_ReadDieTempC_decodes; assumption.
  - apply TMP007_ReadObjTempC_decodes; assumption.
Qed.

(** Register bytes 0x0C, 0x80: raw 0x0C80, bit 0 clear, 800 * 0.03125. *)
Lemma TMP007_temperature_decoding_witness :
  TMP007.ReadDieTempC (tmp007 (stubRead [0x0C; 0x80])) [] =
    (Returns (25%float, None), [EvWrite [0x01]; EvRead 2])
  /\ TMP007.ReadObjTempC (tmp007 (stubRead [0x0C; 0x80])) [] =
       (Returns (25%float, None), [EvWrite [0x03]; EvRead 2]).
Proof.
  apply (TMP007_temperature_decoding (tmp007 (stubRead [0x0C; 0x80])) 0x0C 0x80 []
           [EvWrite [0x01]; EvRead 2] [EvWrite [0x03]; EvRead 2]).
  - unfold is_byte. lia.
  - unfold is_byte. lia.
  - vm_compute. reflexivity.
  - vm_compute. reflexivity.
Defined.

(** X5.  [tmp007.go]: [read] always returns, a nil error comes with a buffer
    of length [n], and no reading function panics, whatever the connection
    reports. *)
Theorem TMP007_read_buffer_has_length_n :
  forall (d : TMP007.TMP007Driver) (address : Z) (n : nat) (h : list event),
    (exists buf err h',
       TMP007.read d address n h = (Returns (buf, err), h')
       /\ (err = None -> List.length buf = n))
    /\ (exists r h', TMP007.ReadDieTempC d h = (Returns r, h'))
    /\ (exists r h', TMP007.ReadObjTempC d h = (Returns r, h'))
    /\ (exists r h', TMP007.ReadSensorVoltage d h = (Returns r, h')).
Proof.
  intros d address n h. split.
  - apply TMP007_read_returns.
  - apply TMP007_readers_never_panic.
Qed.

(** X6.  The PEC bytes of the responses in the repository's test are the ones
    the read path computes. *)
Theorem MLX90614_PEC_test_vectors :
  PEC (read_frame 0x5A 0x2E 0x00 0x5A) = 0xC9
  /\ PEC (read_frame 0x5A 0x3C 0xBE 0xEF) = 0x4E
  /\ PEC (read_frame 0x5A 0x3D 0xBE 0xEF) = 0xB7
  /\ PEC (read_frame 0x5A 0x3E 0xBE 0xEF) = 0xBB
  /\ PEC (read_frame 0x5A 0x3F 0xBE 0xEF) = 0x42.
Proof. repeat split; vm_compute; reflexivity. Qed.

(** * Further properties of the code

    What the functions around the ones above do: the retry loops, the
    start-up checks, the address and identity registers, the raw readings
    and the calibration data. *)

(** ** The retry loops *)

Lemma repeat_snoc_app {A : Type} (h : list A) (e : A) (k : nat) :
  (h ++ [e]) ++ repeat e k = h ++ repeat e (S k).
Proof. rewrite <- app_assoc. reflexivity. Qed.

(** The retry loop of [mlx90614_driver.go] always comes back, with a buffer of
    the length it was given, after at most [numRetries] calls of [Read]. *)
Lemma MLX90614_read_retry_runs (c : Connection) (n : nat) :
  forall (numRetries : nat) (buf : list Z) (bytesRead : Z) (err : option error)
         (h : list event),
  exists buf' bytesRead' err' k,
    MLX90614.read_retry c n numRetries buf bytesRead err h =
      (Returns (buf', bytesRead', err'), h ++ repeat (EvRead (List.length buf)) k)
    /\ List.length buf' = List.length buf
    /\ (k <= numRetries)%nat
    /\ (numRetries <> 0%nat -> (1 <= k)%nat).
Proof.
  induction numRetries as [| r IH]; intros buf bytesRead err h.
  - exists buf, bytesRead, err, 0%nat. cbn [repeat]. rewrite app_nil_r.
    repeat split; [lia | intros H; contradiction H; reflexivity].
  - cbn [MLX90614.read_retry]. unfold bind, Read.
    destruct (Read_impl c h (List.length buf)) as [[data m] e].
    destruct ((m =? Z.of_nat n) && is_nil e).
    + exists (copy buf data), m, e, 1%nat.
      repeat split; [apply copy_length | lia | lia].
    + destruct (IH (copy buf data) m e (h ++ [EvRead (List.length buf)]))
        as [buf' [br' [err' [k [Hrun [Hlen [Hk _]]]]]]].
      rewrite copy_length, repeat_snoc_app in Hrun.
      exists buf', br', err', (S k). rewrite Hrun.
      repeat split; [rewrite Hlen; apply copy_length | lia | lia].
Qed.

Lemma TMP007_read_retry_same (c : Connection) (n : nat) :
  forall (numRetries : nat) (buf : list Z) (bytesRead : Z) (err : option error)
         (h : list event),
    TMP007.read_retry c n numRetries buf bytesRead err h =
      MLX90614.read_retry c n numRetries buf bytesRead err h.
Proof.
  induction numRetries as [| r IH]; intros buf bytesRead err h; [reflexivity |].
  cbn [TMP007.read_retry MLX90614.read_retry]. unfold bind.
  destruct (Read c buf h) as [[[[buf' m] e] | msg] h']; [| reflexivity].
  destruct ((m =? Z.of_nat n) && is_nil e); [reflexivity | apply IH].
Qed.

Lemma list_of_length_3 (b : list Z) :
  List.length b = 3%nat -> exists b0 b1 b2, b = [b0; b1; b2].
Proof.
  destruct b as [| b0 [| b1 [| b2 [| b3 b]]]]; try discriminate.
  intros _. exists b0, b1, b2. reflexivity.
Qed.

(** X7.  [read] of [mlx90614_driver.go], asked for three bytes, never panics
    and never hands out unchecked data: whatever the connection does, a nil
    error comes with exactly three bytes whose third is the PEC of the read
    frame of the first two, and any error comes with no data at all. *)
Theorem MLX90614_read_returns_only_checked_data :
  forall (d : MLX90614.MLX90614Driver) (register : Z) (h : list event),
  exists buf err h',
    MLX90614.read d register 3 h = (Returns (buf, err), h')
    /\ (err = None ->
        exists lo hi,
          buf = [lo; hi;
                 PEC (read_frame (GetAddressOrDefault (MLX90614.config d) 0x5A)
                        register lo hi)])
    /\ (err <> None -> buf = []).
Proof.
  intros d register h.
  unfold MLX90614.read, bind at 1, Write.
  destruct (Write_impl (MLX90614.connection d) h [register]) as [m [e |]].
  - eexists _, _, _. split; [reflexivity |]. split; [discriminate | reflexivity].
  - unfold bind at 1.
    destruct (MLX90614_read_retry_runs (MLX90614.connection d) 3 50 (make 3) 0 None
                (h ++ [EvWrite [register]]))
      as [buf' [br' [err' [k [Hrun [Hlen _]]]]]].
    rewrite Hrun.
    destruct err' as [e |].
    + eexists _, _, _. split; [reflexivity |]. split; [discriminate | reflexivity].
    + destruct (list_of_length_3 buf' Hlen) as [lo [hi [p ->]]].
      unfold index, bind, ret. cbn [nth_error].
      unfold PEC, read_frame, slaveReadAddress, slaveWriteAddress. cbn [fold_left].
      match goal with
      | |- context [p =? ?pec] => destruct (Z.eqb_spec p pec) as [Heq | Hne]
      end.
      * eexists _, _, _. split; [reflexivity |]. split; [| intros H; contradiction H; reflexivity].
        intros _. exists lo, hi. rewrite Heq at 1. reflexivity.
      * eexists _, _, _. split; [reflexivity |]. split; [discriminate | reflexivity].
Qed.

(** The retry loop of the word-data revision: at least one and at most
    [numRetries] calls of [ReadWordData]. *)
Lemma MLX90614_part002_read_retry_runs (c : Connection) (register : Z) :
  forall (numRetries : nat) (val16 : Z) (err : option error) (h : list event),
  numRetries <> 0%nat ->
  exists val16' err' k,
    MLX90614_part002.read_retry c register numRetries val16 err h =
      (Returns (val16', err'), h ++ repeat (EvReadWordData register) k)
    /\ (1 <= k <= numRetries)%nat.
Proof.
  induction numRetries as [| r IH]; intros val16 err h Hpos; [contradiction Hpos; reflexivity |].
  cbn [MLX90614_part002.read_retry]. unfold bind, ReadWordData.
  destruct (ReadWordData_impl c h register) as [v e].
  destruct (is_nil e).
  - exists v, e, 1%nat. split; [reflexivity | lia].
  - destruct r as [| r'].
    + exists v, e, 1%nat. split; [reflexivity | lia].
    + destruct (IH v e (h ++ [EvReadWordData register]) ltac:(discriminate))
        as [v' [e' [k [Hrun Hk]]]].
      rewrite repeat_snoc_app in Hrun.
      exists v', e', (S k). split; [exact Hrun | lia].
Qed.

(** X8.  The polls of a read are bounded.  [read] of [mlx90614_driver.go] and
    [read] of [tmp007.go] write the register once and then call [Read] at most
    50 times, and not at all when the command write failed; [read] of the
    word-data revision calls [ReadWordData] at least once and at most 10
    times.  Nothing else reaches the bus. *)
Theorem read_polls_are_bounded :
  (forall (d : MLX90614.MLX90614Driver) (register : Z) (n : nat) (h : list event),
   exists k,
     snd (MLX90614.read d register n h) = h ++ EvWrite [register] :: repeat (EvRead n) k
     /\ (k <= 50)%nat
     /\ (is_nil (snd (Write_impl (MLX90614.connection d) h [register])) = false
         -> k = 0%nat))
  /\ (forall (d : TMP007.TMP007Driver) (register : Z) (n : nat) (h : list event),
      exists k,
        snd (TMP007.read d register n h) = h ++ EvWrite [register] :: repeat (EvRead n) k
        /\ (k <= 50)%nat
        /\ (is_nil (snd (Write_impl (TMP007.connection d) h [register])) = false
            -> k = 0%nat))
  /\ (forall (d : MLX90614_part002.MLX90614Driver) (register : Z) (h : list event),
      exists k,
        snd (MLX90614_part002.read d register h) = h ++ repeat (EvReadWordData register) k
        /\ (1 <= k <= 10)%nat).
Proof.
  split; [| split].
  - intros d register n h.
    unfold MLX90614.read, bind at 1, Write.
    destruct (Write_impl (MLX90614.connection d) h [register]) as [m [e |]].
    + exists 0%nat. cbn [snd ret repeat]. repeat split. lia.
    + unfold bind at 1.
      destruct (MLX90614_read_retry_runs (MLX90614.connection d) n 50 (make n) 0 None
                  (h ++ [EvWrite [register]]))
        as [buf' [br' [err' [k [Hrun [_ [Hk _]]]]]]].
      rewrite Hrun. unfold make in *. rewrite repeat_length, <- app_assoc.
      exists k. split; [| split; [exact Hk | discriminate]].
      destruct err' as [e |]; [reflexivity |].
      unfold index, bind, ret, panic.
      repeat match goal with
             | |- context [match nth_error ?l ?i with Some _ => _ | None => _ end] =>
                 destruct (nth_error l i)
             | |- context [if ?b then _ else _] => destruct b
             end; reflexivity.
  - intros d register n h.
    unfold TMP007.read, bind at 1, Write.
    destruct (Write_impl (TMP007.connection d) h [register]) as [m [e |]].
    + exists 0%nat. cbn [snd ret repeat]. repeat split. lia.
    + unfold bind at 1. rewrite TMP007_read_retry_same.
      destruct (MLX90614_read_retry_runs (TMP007.connection d) n 50 (make n) 0 None
                  (h ++ [EvWrite [register]]))
        as [buf' [br' [err' [k [Hrun [_ [Hk _]]]]]]].
      rewrite Hrun. unfold make. rewrite repeat_length, <- app_assoc.
      exists k. split; [reflexivity | split; [exact Hk | discriminate]].
  - intros d register h.
    unfold MLX90614_part002.read, bind.
    destruct (MLX90614_part002_read_retry_runs (MLX90614_part002.connection d) register
                10 0 None h ltac:(discriminate))
      as [v' [e' [k [Hrun Hk]]]].
    rewrite Hrun. exists k. split; [| exact Hk].
    destruct e'; reflexivity.
Qed.

(** The retry loop of the word-data revision stops at the first call that
    succeeds and returns its word. *)
Lemma MLX90614_part002_read_retry_first_success (c : Connection) (register v : Z) :
  forall (k numRetries : nat) (val16 : Z) (err : option error) (h : list event),
  (k < numRetries)%nat ->
  (forall i, (i < k)%nat ->
     is_nil (snd (ReadWordData_impl c (h ++ repeat (EvReadWordData register) i) register))
       = false) ->
  ReadWordData_impl c (h ++ repeat (EvReadWordData register) k) register = (v, None) ->
  MLX90614_part002.read_retry c register numRetries val16 err h =
    (Returns (v, None), h ++ repeat (EvReadWordData register) (S k)).
Proof.
  induction k as [| k IH]; intros numRetries val16 err h Hlt Hfail Hok.
  - destruct numRetries as [| r]; [lia |].
    cbn [MLX90614_part002.read_retry]. unfold bind, ReadWordData.
    cbn [repeat] in Hok. rewrite app_nil_r in Hok. rewrite Hok. reflexivity.
  - destruct numRetries as [| r]; [lia |].
    cbn [MLX90614_part002.read_retry]. unfold bind, ReadWordData.
    pose proof (Hfail 0%nat ltac:(lia)) as H0. cbn [repeat] in H0. rewrite app_nil_r in H0.
    destruct (ReadWordData_impl c h register) as [v0 e0]. cbn [snd] in H0. rewrite H0.
    rewrite (IH r v0 e0 (h ++ [EvReadWordData register])).
    + rewrite repeat_snoc_app. reflexivity.
    + lia.
    + intros i Hi. rewrite repeat_snoc_app. apply Hfail. lia.
    + rewrite repeat_snoc_app. exact Hok.
Qed.

(** When every call fails, the loop gives up after [numRetries] calls with
    the error of the last one. *)
Lemma MLX90614_part002_read_retry_all_fail (c : Connection) (register : Z) :
  forall (numRetries : nat) (val16 : Z) (err : option error) (h : list event),
  (forall i, (i <= numRetries)%nat ->
     is_nil (snd (ReadWordData_impl c (h ++ repeat (EvReadWordData register) i) register))
       = false) ->
  MLX90614_part002.read_retry c register (S numRetries) val16 err h =
    (Returns (ReadWordData_impl c (h ++ repeat (EvReadWordData register) numRetries) register),
     h ++ repeat (EvReadWordData register) (S numRetries)).
Proof.
  induction numRetries as [| r IH]; intros val16 err h Hfail.
  - cbn [MLX90614_part002.read_retry]. unfold bind, ReadWordData.
    pose proof (Hfail 0%nat ltac:(lia)) as H0. cbn [repeat] in *. rewrite app_nil_r in *.
    destruct (ReadWordData_impl c h register) as [v0 e0]. cbn [snd] in H0. rewrite H0.
    reflexivity.
  - remember (S r) as r1 eqn:Er1.
    cbn [MLX90614_part002.read_retry]. unfold bind, ReadWordData.
    pose proof (Hfail 0%nat ltac:(lia)) as H0. cbn [repeat] in H0. rewrite app_nil_r in H0.
    destruct (ReadWordData_impl c h register) as [v0 e0]. cbn [snd] in H0. rewrite H0.
    subst r1.
    rewrite (IH v0 e0 (h ++ [EvReadWordData register])).
    + rewrite !repeat_snoc_app. reflexivity.
    + intros i Hi. rewrite repeat_snoc_app. apply Hfail. lia.
Qed.

(** X9.  [read] of the word-data revision retries on a transport error only
    and stops at the first success: when the first [k] calls of
    [ReadWordData] fail and the next one succeeds ([k] below 10), the word of
    that call is returned after exactly [k + 1] calls; when ten calls fail,
    [read] returns 0 and the error of the tenth call, wrapped. *)
Theorem MLX90614_part002_read_stops_at_first_success :
  forall (d : MLX90614_part002.MLX90614Driver) (register : Z) (h : list event),
    let c := MLX90614_part002.connection d in
    let poll i := ReadWordData_impl c (h ++ repeat (EvReadWordData register) i) register in
    (forall (k : nat) (v : Z),
       (k < 10)%nat ->
       (forall i, (i < k)%nat -> is_nil (snd (poll i)) = false) ->
       poll k = (v, None) ->
       MLX90614_part002.read d register h =
         (Returns (v, None), h ++ repeat (EvReadWordData register) (S k)))
    /\ ((forall i, (i < 10)%nat -> is_nil (snd (poll i)) = false) ->
        exists e,
          snd (poll 9%nat) = Some e
          /\ MLX90614_part002.read d register h =
               (Returns (0, Some (fmt_Errorf_v "MLX90614::read() error:\n\t%v" e)),
                h ++ repeat (EvReadWordData register) 10)).
Proof.
  cbv zeta. intros d register h. split.
  - intros k v Hk Hfail Hok.
    unfold MLX90614_part002.read, bind.
    rewrite (MLX90614_part002_read_retry_first_success _ register v k 10 0 None h Hk Hfail Hok).
    reflexivity.
  - intros Hfail.
    unfold MLX90614_part002.read, bind.
    rewrite (MLX90614_part002_read_retry_all_fail _ register 9 0 None h)
      by (intros i Hi; apply Hfail; lia).
    pose proof (Hfail 9%nat ltac:(lia)) as H9.
    destruct (ReadWordData_impl (MLX90614_part002.connection d)
                (h ++ repeat (EvReadWordData register) 9) register)
      as [v9 [e9 |]]; [| discriminate H9].
    exists e9. split; reflexivity.
Qed.

(** The third call is the first to succeed: three calls, and its word. *)
Lemma MLX90614_part002_read_stops_at_first_success_witness :
  MLX90614_part002.read (mlx_part002 (stubBusy 2 (fun _ => 0x3AF7))) 0x07 [] =
    (Returns (0x3AF7, None), [EvReadWordData 0x07; EvReadWordData 0x07; EvReadWordData 0x07]).
Proof.
  apply (proj1 (MLX90614_part002_read_stops_at_first_success
                  (mlx_part002 (stubBusy 2 (fun _ => 0x3AF7))) 0x07 []) 2%nat 0x3AF7).
  - lia.
  - intros [| [| i]] Hi; [reflexivity | reflexivity | lia].
  - reflexivity.
Defined.

(** ** Start-up: the slave address check *)

(** X10.  [initialization] of either MLX90614 revision reports success only
    when [ReadAddress] came back without error and with the configured slave
    address: a failed read, a PEC mismatch or another address never starts
    the driver. *)
Theorem MLX90614_initialization_succeeds_only_on_configured_address :
  (forall (d : MLX90614.MLX90614Driver) (h h' : list event),
     MLX90614.initialization d h = (Returns None, h') ->
     MLX90614.ReadAddress d h =
       (Returns (GetAddressOrDefault (MLX90614.config d) 0x5A, None), h'))
  /\ (forall (d : MLX90614_part002.MLX90614Driver) (h h' : list event),
        MLX90614_part002.initialization d h = (Returns None, h') ->
        MLX90614_part002.ReadAddress d h =
          (Returns (GetAddressOrDefault (MLX90614_part002.config d) 0x5A, None), h')).
Proof.
  split; intros d h h'.
  - unfold MLX90614.initialization, bind.
    destruct (MLX90614.ReadAddress d h) as [[[a [e |]] | msg] h1];
      [discriminate | | discriminate].
    unfold MLX90614.mlx90614DefaultSlaveAddress.
    destruct (Z.eqb_spec a (GetAddressOrDefault (MLX90614.config d) 0x5A)) as [-> | Hne];
      cbn [negb]; unfold ret; intros H; inversion H. reflexivity.
  - unfold MLX90614_part002.initialization, bind.
    destruct (MLX90614_part002.ReadAddress d h) as [[[a [e |]] | msg] h1];
      [discriminate | | discriminate].
    unfold MLX90614_part002.mlx90614DefaultSlaveAddress.
    destruct (Z.eqb_spec a (GetAddressOrDefault (MLX90614_part002.config d) 0x5A))
      as [-> | Hne];
      cbn [negb]; unfold ret; intros H; inversion H. reflexivity.
Qed.

(** [ReadAddress] on a response with a valid PEC. *)
Lemma MLX90614_ReadAddress_response (d : MLX90614.MLX90614Driver) (b0 b1 p n : Z)
    (h : list event) :
  is_byte b1 ->
  Write_impl (MLX90614.connection d) h [0x2E] = (n, None) ->
  Read_impl (MLX90614.connection d) (h ++ [EvWrite [0x2E]]) 3 = ([b0; b1; p], 3, None) ->
  p = PEC (read_frame (GetAddressOrDefault (MLX90614.config d) 0x5A) 0x2E b0 b1) ->
  MLX90614.ReadAddress d h = (Returns (b1, None), h ++ [EvWrite [0x2E]; EvRead 3]).
Proof.
  intros Hb1 Hwrite Hread Hpec.
  unfold MLX90614.ReadAddress, bind, MLX90614.mlx90614RegisterAddress.
  rewrite (MLX90614_readUint16_response d 0x2E b0 b1 p n h Hwrite Hread Hpec).
  unfold ret. rewrite uint8_of_word by exact Hb1. reflexivity.
Qed.

(** X11.  What [initialization] makes of the device's answer.  With
    [mlx90614_driver.go], a response [b0, b1, p] with a valid PEC starts the
    driver exactly when its second byte [b1] is the configured address, and
    is an address mismatch naming both otherwise; with the word-data
    revision the low byte of the word read decides.  One write of the
    register and one read, or one word read, is all the bus sees. *)
Theorem MLX90614_initialization_compares_address :
  (forall (d : MLX90614.MLX90614Driver) (b0 b1 p n : Z) (h : list event),
     let c := MLX90614.connection d in
     let addr := GetAddressOrDefault (MLX90614.config d) 0x5A in
     is_byte b1 ->
     Write_impl c h [0x2E] = (n, None) ->
     Read_impl c (h ++ [EvWrite [0x2E]]) 3 = ([b0; b1; p], 3, None) ->
     p = PEC (read_frame addr 0x2E b0 b1) ->
     MLX90614.initialization d h =
       (Returns
          (if b1 =? addr then None
           else Some (fmt_Errorf_XX
             "MLX90614::initialization() SMBus slave address command returned mismatch, expected:%X actual:%X"
             addr b1)),
        h ++ [EvWrite [0x2E]; EvRead 3]))
  /\ (forall (d : MLX90614_part002.MLX90614Driver) (w : Z) (h : list event),
        let c := MLX90614_part002.connection d in
        let addr := GetAddressOrDefault (MLX90614_part002.config d) 0x5A in
        ReadWordData_impl c h 0x2E = (w, None) ->
        MLX90614_part002.initialization d h =
          (Returns
             (if low_byte w =? addr then None
              else Some (fmt_Errorf_XX
                "MLX90614::initialization() SMBus slave address command returned mismatch, expected:%X actual:%X"
                addr (low_byte w))),
           h ++ [EvReadWordData 0x2E])).
Proof.
  split; cbv zeta.
  - intros d b0 b1 p n h Hb1 Hwrite Hread Hpec.
    unfold MLX90614.initialization, bind.
    rewrite (MLX90614_ReadAddress_response d b0 b1 p n h Hb1 Hwrite Hread Hpec).
    unfold MLX90614.mlx90614DefaultSlaveAddress.
    destruct (b1 =? _); reflexivity.
  - intros d w h Hread.
    unfold MLX90614_part002.initialization, MLX90614_part002.ReadAddress,
      MLX90614_part002.read, bind.
    unfold MLX90614_part002.mlx90614RegisterAddress.
    cbn [MLX90614_part002.read_retry]. unfold bind, ReadWordData. rewrite Hread.
    cbn [is_nil ret]. unfold uint8, low_byte,
      MLX90614_part002.mlx90614DefaultSlaveAddress.
    destruct (w mod 256 =? _); reflexivity.
Qed.

(** The responses of [TestMLX90614DriverStart]: {0x00, 0x5A, 0xC9} starts the
    driver at the default address 0x5A. *)
Lemma MLX90614_initialization_compares_address_witness :
  MLX90614.initialization (mlx (stubRead [0x00; 0x5A; 0xC9])) [] =
    (Returns None, [EvWrite [0x2E]; EvRead 3]).
Proof.
  apply (proj1 MLX90614_initialization_compares_address
           (mlx (stubRead [0x00; 0x5A; 0xC9])) 0x00 0x5A 0xC9 1 []).
  - unfold is_byte. lia.
  - reflexivity.
  - reflexivity.
  - vm_compute. reflexivity.
Defined.

(** ** The slave-address register *)

(** X12.  [WriteAddress] of either revision refuses the reserved addresses,
    0x07 and below and 0x78 and above, before anything reaches the bus. *)
Theorem MLX90614_WriteAddress_rejects_reserved_addresses :
  forall (newAddress : Z),
    newAddress <= 0x07 \/ 0x78 <= newAddress ->
    (forall (d : MLX90614.MLX90614Driver) (h : list event),
       MLX90614.WriteAddress d newAddress h =
         (Returns (Some (errors_New
            "MLX90614::WriteAddress() invalid or reserved SMBus address")), h))
    /\ (forall (d : MLX90614_part002.MLX90614Driver) (h : list event),
          MLX90614_part002.WriteAddress d newAddress h =
            (Returns (Some (errors_New
               "MLX90614::WriteAddress() invalid or reserved SMBus address")), h)).
Proof.
  intros newAddress Hres.
  assert (Hguard : (newAddress >=? 0x78) || (newAddress <=? 0x07) = true).
  { apply orb_true_iff. destruct Hres; [right | left]; lia. }
  split; intros d h.
  - unfold MLX90614.WriteAddress. rewrite Hguard. reflexivity.
  - unfold MLX90614_part002.WriteAddress. rewrite Hguard. reflexivity.
Qed.

Lemma MLX90614_WriteAddress_rejects_reserved_addresses_witness :
  MLX90614.WriteAddress (mlx stubConnection) 0x78 [] =
    (Returns (Some (errors_New
       "MLX90614::WriteAddress() invalid or reserved SMBus address")), [])
  /\ MLX90614_part002.WriteAddress (mlx_part002 stubConnection) 0x07 [] =
       (Returns (Some (errors_New
          "MLX90614::WriteAddress() invalid or reserved SMBus address")), []).
Proof.
  split.
  - apply (proj1 (MLX90614_WriteAddress_rejects_reserved_addresses 0x78 ltac:(lia))).
  - apply (proj2 (MLX90614_WriteAddress_rejects_reserved_addresses 0x07 ltac:(lia))).
Defined.

Lemma land_byte_FF00 (b : Z) : is_byte b -> Z.land b 0xFF00 = 0.
Proof.
  unfold is_byte. intros Hb.
  apply Z.bits_inj'. intros n Hn. rewrite Z.land_spec, Z.bits_0.
  destruct (Z.lt_ge_cases n 8) as [Hlt | Hge].
  - change 0xFF00 with (Z.shiftl 255 8). rewrite Z.shiftl_spec_low by exact Hlt.
    apply andb_false_r.
  - rewrite (testbit_above b 8 n) by (change (2 ^ 8) with 256; lia). reflexivity.
Qed.

Lemma land_word_FF00 (b0 b1 : Z) :
  is_byte b0 -> is_byte b1 -> Z.land (b0 * 256 + b1) 0xFF00 = b0 * 256.
Proof.
  intros Hb0 Hb1.
  rewrite <- lor_shifted_byte by exact Hb1.
  rewrite Z.land_lor_distr_l, (land_byte_FF00 b1 Hb1).
  rewrite Z.lor_0_r.
  change 0xFF00 with (Z.shiftl 255 8).
  replace (b0 * 256) with (Z.shiftl b0 8) by (rewrite Z.shiftl_mul_pow2 by lia; reflexivity).
  rewrite <- Z.shiftl_land.
  change 255 with (Z.ones 8). rewrite Z.land_ones by lia.
  unfold is_byte in Hb0. rewrite Z.mod_small by (change (2 ^ 8) with 256; lia).
  reflexivity.
Qed.

(** The word [readUint16] assembles from two bytes. *)
Lemma uint16_of_bytes (b0 b1 : Z) :
  is_byte b0 -> is_byte b1 ->
  Z.lor (uint16 (Z.shiftl (uint16 b0) 8)) (uint16 b1) = word b0 b1.
Proof.
  unfold is_byte, uint16, word. intros Hb0 Hb1.
  rewrite (Z.mod_small b0), (Z.mod_small b1) by lia.
  rewrite Z.shiftl_mul_pow2 by lia. change (2 ^ 8) with 256.
  rewrite Z.mod_small by lia.
  apply lor_shifted_byte. exact Hb1.
Qed.

(** X13.  What [WriteAddress] stores for an address it accepts (0x08 to
    0x77).  [mlx90614_driver.go] reads the cell, keeps its other byte (the
    first byte [b0] of the response) and replaces the address byte, then
    erases and writes the cell; the word-data revision reads nothing and
    writes the address with a zero high byte. *)
Theorem MLX90614_WriteAddress_stored_word :
  (forall (d : MLX90614.MLX90614Driver) (newAddress b0 b1 p n : Z) (h : list event),
     let c := MLX90614.connection d in
     let addr := GetAddressOrDefault (MLX90614.config d) 0x5A in
     0x08 <= newAddress <= 0x77 ->
     is_byte b0 -> is_byte b1 ->
     Write_impl c h [0x2E] = (n, None) ->
     Read_impl c (h ++ [EvWrite [0x2E]]) 3 = ([b0; b1; p], 3, None) ->
     p = PEC (read_frame addr 0x2E b0 b1) ->
     MLX90614.WriteAddress d newAddress h =
       MLX90614.writeEEPROM d 0x2E (word b0 newAddress)
         (h ++ [EvWrite [0x2E]; EvRead 3]))
  /\ (forall (d : MLX90614_part002.MLX90614Driver) (newAddress : Z) (h : list event),
        0x08 <= newAddress <= 0x77 ->
        MLX90614_part002.WriteAddress d newAddress h =
          MLX90614_part002.writeEEPROM d 0x2E (word 0 newAddress) h).
Proof.
  split; cbv zeta.
  - intros d newAddress b0 b1 p n h Hnew Hb0 Hb1 Hwrite Hread Hpec.
    unfold MLX90614.WriteAddress.
    replace ((newAddress >=? 0x78) || (newAddress <=? 0x07)) with false
      by (symmetry; apply orb_false_iff; lia).
    unfold bind, MLX90614.mlx90614RegisterAddress.
    rewrite (MLX90614_readUint16_response d 0x2E b0 b1 p n h Hwrite Hread Hpec).
    rewrite uint16_of_bytes by assumption. unfold word.
    rewrite land_word_FF00 by assumption.
    unfold uint16. rewrite (Z.mod_small newAddress) by lia.
    rewrite lor_shifted_byte by (unfold is_byte; lia).
    reflexivity.
  - intros d newAddress h Hnew.
    unfold MLX90614_part002.WriteAddress.
    replace ((newAddress >=? 0x78) || (newAddress <=? 0x07)) with false
      by (symmetry; apply orb_false_iff; lia).
    unfold uint16, word, MLX90614_part002.mlx90614RegisterAddress.
    rewrite Z.mod_small by lia. reflexivity.
Qed.

(** The cell holds 0xBE in its other byte; the new address is 0x5B. *)
Lemma MLX90614_WriteAddress_stored_word_witness :
  MLX90614.WriteAddress (mlx (stubRead [0xBE; 0x5A; 0x1E])) 0x5B [] =
    MLX90614.writeEEPROM (mlx (stubRead [0xBE; 0x5A; 0x1E])) 0x2E (word 0xBE 0x5B)
      [EvWrite [0x2E]; EvRead 3].
Proof.
  apply (proj1 MLX90614_WriteAddress_stored_word
           (mlx (stubRead [0xBE; 0x5A; 0x1E])) 0x5B 0xBE 0x5A 0x1E 1 []).
  - lia.
  - unfold is_byte. lia.
  - unfold is_byte. lia.
  - reflexivity.
  - reflexivity.
  - vm_compute. reflexivity.
Defined.

(** C6.  The claim: when the bus answers the read of the slave-address
    register with {0x5A, 0x00, valid PEC}, [ReadAddress] returns 0x5A.  The
    response arrives low byte first ([read]: "lsb, msb, pec"), as [write]
    sends its packets, and the address is the low byte.  [readUint16] puts
    the first byte in the high half of the word, so that [ReadAddress]
    returns the second byte of every valid response: 0x00 for the response
    of the claim.  An address does not survive being written and read back:
    [WriteAddress] of 0x5B on a cell that answers {0x5A, 0xBE} sends the
    packet with 0x5B as low byte and 0x5A as high byte, and for a cell that
    answers these two bytes [ReadAddress] returns 0x5A.  The word-data
    revision returns the low byte: 0x5A for the word 0x005A. *)
Theorem MLX90614_ReadAddress_returns_second_byte_for_low_byte :
  PEC (read_frame 0x5A 0x2E 0x5A 0x00) = 0x64
  /\ MLX90614.ReadAddress (mlx (stubRead [0x5A; 0x00; 0x64])) [] =
       (Returns (0x00, None), [EvWrite [0x2E]; EvRead 3])
  /\ (forall (d : MLX90614.MLX90614Driver) (b0 b1 p n : Z) (h : list event),
        is_byte b1 ->
        Write_impl (MLX90614.connection d) h [0x2E] = (n, None) ->
        Read_impl (MLX90614.connection d) (h ++ [EvWrite [0x2E]]) 3 =
          ([b0; b1; p], 3, None) ->
        p = PEC (read_frame (GetAddressOrDefault (MLX90614.config d) 0x5A) 0x2E b0 b1) ->
        MLX90614.ReadAddress d h =
          (Returns (b1, None), h ++ [EvWrite [0x2E]; EvRead 3]))
  /\ PEC (read_frame 0x5A 0x2E 0x5A 0xBE) = 0x1E
  /\ snd (MLX90614.WriteAddress (mlx (stubRead [0x5A; 0xBE; 0x1E])) 0x5B []) =
       [EvWrite [0x2E]; EvRead 3;
        EvWriteBlockData 0x2E (write_packet 0x5A 0x2E 0); EvSleep 5;
        EvWriteBlockData 0x2E
          [0x2E; 0x5B; 0x5A; PEC (write_frame 0x5A 0x2E 0x5B 0x5A)]; EvSleep 5]
  /\ PEC (read_frame 0x5A 0x2E 0x5B 0x5A) = 0x2E
  /\ MLX90614.ReadAddress (mlx (stubRead [0x5B; 0x5A; 0x2E])) [] =
       (Returns (0x5A, None), [EvWrite [0x2E]; EvRead 3])
  /\ MLX90614_part002.ReadAddress (mlx_part002 (stubRegisters (fun _ => 0x005A))) [] =
       (Returns (0x5A, None), [EvReadWordData 0x2E]).
Proof.
  split; [vm_compute; reflexivity |].
  split; [vm_compute; reflexivity |].
  split; [| repeat split; vm_compute; reflexivity].
  intros d b0 b1 p n h Hb1 Hwrite Hread Hpec.
  exact (MLX90614_ReadAddress_response d b0 b1 p n h Hb1 Hwrite Hread Hpec).
Qed.

(** ** Raw readings *)

Lemma land_8000_testbit (v : Z) : negb (Z.land v 0x8000 =? 0) = Z.testbit v 15.
Proof. exact (land_pow2_testbit v 15 ltac:(lia)). Qed.


Lemma testbit_15_of_word (raw : Z) :
  0 <= raw < 65536 -> Z.testbit raw 15 = negb (raw <? 32768).
Proof.
  intros Hraw.
  destruct (Z.ltb_spec raw 32768) as [Hlt | Hge]; cbn [negb].
  - apply (testbit_above raw 15 15); [change (2 ^ 15) with 32768 |]; lia.
  - apply Z.testbit_true; [lia |]. change (2 ^ 15) with 32768.
    assert (Hq : raw / 32768 = 1)
      by (symmetry; apply (Z.div_unique raw 32768 1 (raw - 32768)); lia).
    rewrite Hq. reflexivity.
Qed.

(** The signed value [ReadReg] and [ReadIRChannel1] make of a 16-bit word. *)
Lemma MLX90614_part002_signed_of_word (raw : Z) :
  0 <= raw < 65536 ->
  (if negb (Z.land raw 0x8000 =? 0) then int16 (- (Z.land (int16 raw) 0x00FF))
   else int16 raw)
  = if raw <? 32768 then raw else - (raw mod 256).
Proof.
  intros Hraw.
  rewrite land_8000_testbit, testbit_15_of_word by exact Hraw.
  destruct (Z.ltb_spec raw 32768) as [Hlt | Hge]; cbn [negb].
  - unfold int16. rewrite Z.mod_small by lia. lia.
  - assert (Hraw16 : int16 raw = raw + (-256) * 256).
    { unfold int16.
      replace (raw + 32768) with (raw - 32768 + 1 * 65536) by lia.
      rewrite Z.mod_add, Z.mod_small by lia. lia. }
    rewrite Hraw16.
    change 0x00FF with (Z.ones 8). rewrite Z.land_ones by lia. change (2 ^ 8) with 256.
    rewrite Z.mod_add by lia.
    pose proof (Z.mod_pos_bound raw 256 ltac:(lia)) as Hm.
    unfold int16. rewrite Z.mod_small by lia. lia.
Qed.

(** X15.  The sign of a raw register in the word-data revision.  [ReadReg]
    and [ReadIRChannel1] return a 16-bit word below 0x8000 as it is; of a
    word with the top bit set they keep the low byte only, negated, so that
    the result lies between -255 and 32767 and bits 8 to 14 of such a word
    have no effect. *)
Theorem MLX90614_part002_ReadReg_sign_and_low_byte :
  forall (d : MLX90614_part002.MLX90614Driver) (reg raw : Z) (h h1 : list event),
    0 <= raw < 65536 ->
    let signed := if raw <? 32768 then raw else - (raw mod 256) in
    (MLX90614_part002.read d reg h = (Returns (raw, None), h1) ->
     MLX90614_part002.ReadReg d reg h = (Returns (signed, None), h1))
    /\ (MLX90614_part002.read d 0x04 h = (Returns (raw, None), h1) ->
        MLX90614_part002.ReadIRChannel1 d h = (Returns (signed, None), h1))
    /\ -255 <= signed <= 32767.
Proof.
  intros d reg raw h h1 Hraw signed.
  split; [| split].
  - intros Hread. unfold MLX90614_part002.ReadReg, bind. rewrite Hread.
    rewrite MLX90614_part002_signed_of_word by exact Hraw. reflexivity.
  - intros Hread. unfold MLX90614_part002.ReadIRChannel1, bind,
      MLX90614_part002.mlx90614RegisterRaw1. rewrite Hread.
    rewrite MLX90614_part002_signed_of_word by exact Hraw. reflexivity.
  - unfold signed. pose proof (Z.mod_pos_bound raw 256 ltac:(lia)).
    destruct (Z.ltb_spec raw 32768); lia.
Qed.

(** The word 0xFF38 reads as -56, and so does 0x8038. *)
Lemma MLX90614_part002_ReadReg_sign_and_low_byte_witness :
  MLX90614_part002.ReadReg (mlx_part002 (stubRegisters (fun _ => 0xFF38))) 0x04 [] =
    (Returns (-56, None), [EvReadWordData 0x04])
  /\ MLX90614_part002.ReadReg (mlx_part002 (stubRegisters (fun _ => 0x8038))) 0x04 [] =
       (Returns (-56, None), [EvReadWordData 0x04]).
Proof.
  split.
  - apply (proj1 (MLX90614_part002_ReadReg_sign_and_low_byte
                    (mlx_part002 (stubRegisters (fun _ => 0xFF38))) 0x04 0xFF38 []
                    [EvReadWordData 0x04] ltac:(lia))).
    reflexivity.
  - apply (proj1 (MLX90614_part002_ReadReg_sign_and_low_byte
                    (mlx_part002 (stubRegisters (fun _ => 0x8038))) 0x04 0x8038 []
                    [EvReadWordData 0x04] ltac:(lia))).
    reflexivity.
Defined.

(** ** The identity registers *)

Lemma last_command_app (h : list event) (reg r : Z) :
  last_command (h ++ [EvWrite [reg]]) r = reg.
Proof.
  revert r. induction h as [| e h IH]; intros r; [reflexivity |].
  destruct e; cbn [app last_command]; apply IH.
Qed.

(** One round of the loop of [ReadID] on a response with a valid PEC. *)
Lemma MLX90614_ReadID_round (d : MLX90614.MLX90614Driver) (lo hi : Z -> Z)
    (remaining : nat) (i reg : Z) (id64 : list Z) (h : list event) :
  let c := MLX90614.connection d in
  let addr := GetAddressOrDefault (MLX90614.config d) 0x5A in
  (forall h reg, snd (Write_impl c h [reg]) = None) ->
  (forall h reg,
     Read_impl c (h ++ [EvWrite [reg]]) 3 =
       ([lo reg; hi reg; PEC (read_frame addr reg (lo reg) (hi reg))], 3, None)) ->
  reg = uint8 (0x3C + i) ->
  MLX90614.ReadID_loop d (S remaining) i id64 h =
    MLX90614.ReadID_loop d remaining (uint8 (i + 1)) (id64 ++ [lo reg; hi reg])
      (h ++ [EvWrite [reg]; EvRead 3]).
Proof.
  cbv zeta. intros Hwrite Hread ->.
  cbn [MLX90614.ReadID_loop]. unfold bind at 1.
  unfold MLX90614.mlx90614RegisterID0.
  pose proof (Hwrite h (uint8 (0x3C + i))) as Hw.
  destruct (Write_impl (MLX90614.connection d) h [uint8 (0x3C + i)]) as [n e] eqn:Hwi.
  cbn [snd] in Hw. subst e.
  rewrite (MLX90614_read_response d _ _ _ _ n h Hwi (Hread h _)).
  cbv zeta. rewrite Z.eqb_refl.
  unfold index, bind, ret. cbn [nth_error].
  rewrite <- app_assoc. reflexivity.
Qed.

(** X16.  [ReadID] of [mlx90614_driver.go] reads the four registers 0x3C to
    0x3F in order, one command and one read each, and returns the two data
    bytes of each response in the order received, eight bytes in all, when
    every response carries a valid PEC. *)
Theorem MLX90614_ReadID_returns_eight_bytes_in_order :
  forall (d : MLX90614.MLX90614Driver) (lo hi : Z -> Z) (h : list event),
    let c := MLX90614.connection d in
    let addr := GetAddressOrDefault (MLX90614.config d) 0x5A in
    (forall h reg, snd (Write_impl c h [reg]) = None) ->
    (forall h reg,
       Read_impl c (h ++ [EvWrite [reg]]) 3 =
         ([lo reg; hi reg; PEC (read_frame addr reg (lo reg) (hi reg))], 3, None)) ->
    MLX90614.ReadID d h =
      (Returns ([lo 0x3C; hi 0x3C; lo 0x3D; hi 0x3D; lo 0x3E; hi 0x3E; lo 0x3F; hi 0x3F],
                None),
       h ++ [EvWrite [0x3C]; EvRead 3; EvWrite [0x3D]; EvRead 3;
             EvWrite [0x3E]; EvRead 3; EvWrite [0x3F]; EvRead 3]).
Proof.
  cbv zeta. intros d lo hi h Hwrite Hread.
  unfold MLX90614.ReadID.
  rewrite (MLX90614_ReadID_round d lo hi 3 0 0x3C [] h Hwrite Hread eq_refl).
  change (uint8 (0 + 1)) with 1.
  rewrite (MLX90614_ReadID_round d lo hi 2 1 0x3D _ _ Hwrite Hread eq_refl).
  change (uint8 (1 + 1)) with 2.
  rewrite (MLX90614_ReadID_round d lo hi 1 2 0x3E _ _ Hwrite Hread eq_refl).
  change (uint8 (2 + 1)) with 3.
  rewrite (MLX90614_ReadID_round d lo hi 0 3 0x3F _ _ Hwrite Hread eq_refl).
  cbn [MLX90614.ReadID_loop app]. unfold ret.
  rewrite <- !app_assoc. reflexivity.
Qed.

(** The responses of [TestMLX90614ReadID]: 0xBE, 0xEF and the PEC of the
    register asked for. *)
Lemma MLX90614_ReadID_returns_eight_bytes_in_order_witness :
  MLX90614.ReadID
    (mlx (stubReadByCommand
            (fun reg => [0xBE; 0xEF; PEC (read_frame 0x5A reg 0xBE 0xEF)]))) [] =
    (Returns ([0xBE; 0xEF; 0xBE; 0xEF; 0xBE; 0xEF; 0xBE; 0xEF], None),
     [EvWrite [0x3C]; EvRead 3; EvWrite [0x3D]; EvRead 3;
      EvWrite [0x3E]; EvRead 3; EvWrite [0x3F]; EvRead 3]).
Proof.
  apply (MLX90614_ReadID_returns_eight_bytes_in_order
           (mlx (stubReadByCommand
                   (fun reg => [0xBE; 0xEF; PEC (read_frame 0x5A reg 0xBE 0xEF)])))
           (fun _ => 0xBE) (fun _ => 0xEF) []).
  - intros h reg. reflexivity.
  - intros h reg. cbn [mlx MLX90614.connection stubReadByCommand Read_impl].
    rewrite last_command_app. reflexivity.
Defined.

Lemma lor_add_disjoint (a b n : Z) :
  0 <= n -> 0 <= a < 2 ^ n -> Z.lor a (b * 2 ^ n) = a + b * 2 ^ n.
Proof.
  intros Hn Ha.
  assert (Hland : Z.land a (b * 2 ^ n) = 0).
  { apply Z.bits_inj'. intros i Hi. rewrite Z.land_spec, Z.bits_0.
    destruct (Z.lt_ge_cases i n) as [Hlt | Hge].
    - rewrite Z.mul_pow2_bits_low by exact Hlt. apply andb_false_r.
    - rewrite (testbit_above a n i) by lia. reflexivity. }
  rewrite <- Z.lxor_lor by exact Hland.
  symmetry. apply Z.add_nocarry_lxor. exact Hland.
Qed.

(** X17.  [ReadID] of the word-data revision reads the four registers 0x3C
    to 0x3F in order and returns one 64-bit number, the word of 0x3C in its
    lowest 16 bits and the word of 0x3F in its highest. *)
Theorem MLX90614_part002_ReadID_assembles_little_endian :
  forall (d : MLX90614_part002.MLX90614Driver) (w : Z -> Z) (h : list event),
    (forall h reg, ReadWordData_impl (MLX90614_part002.connection d) h reg = (w reg, None)) ->
    (forall reg, 0 <= w reg < 65536) ->
    MLX90614_part002.ReadID d h =
      (Returns (w 0x3C + w 0x3D * 2 ^ 16 + w 0x3E * 2 ^ 32 + w 0x3F * 2 ^ 48, None),
       h ++ [EvReadWordData 0x3C; EvReadWordData 0x3D;
             EvReadWordData 0x3E; EvReadWordData 0x3F]).
Proof.
  intros d w h Hread Hw.
  assert (Hone : forall reg h0,
            MLX90614_part002.read d reg h0 =
              (Returns (w reg, None), h0 ++ [EvReadWordData reg])).
  { intros reg h0. unfold MLX90614_part002.read, bind.
    cbn [MLX90614_part002.read_retry]. unfold bind, ReadWordData.
    rewrite Hread. reflexivity. }
  unfold MLX90614_part002.ReadID. cbn [MLX90614_part002.ReadID_loop].
  unfold MLX90614_part002.mlx90614RegisterID0.
  unfold bind at 1. change (uint8 (0x3C + 0)) with 0x3C. rewrite Hone.
  change (uint8 (0 + 1)) with 1. change (uint8 (0 * 16)) with 0.
  unfold bind at 1. change (uint8 (0x3C + 1)) with 0x3D. rewrite Hone.
  change (uint8 (1 + 1)) with 2. change (uint8 (1 * 16)) with 16.
  unfold bind at 1. change (uint8 (0x3C + 2)) with 0x3E. rewrite Hone.
  change (uint8 (2 + 1)) with 3. change (uint8 (2 * 16)) with 32.
  unfold bind at 1. change (uint8 (0x3C + 3)) with 0x3F. rewrite Hone.
  change (uint8 (3 * 16)) with 48.
  unfold ret. rewrite <- !app_assoc. cbn [app].
  f_equal. f_equal. f_equal.
  pose proof (Hw 0x3C) as H0. pose proof (Hw 0x3D) as H1.
  pose proof (Hw 0x3E) as H2. pose proof (Hw 0x3F) as H3.
  unfold uint64.
  rewrite !Z.shiftl_mul_pow2 by lia.
  rewrite (Z.mod_small (w 0x3C)), (Z.mod_small (w 0x3D)), (Z.mod_small (w 0x3E)),
    (Z.mod_small (w 0x3F)) by lia.
  rewrite (Z.mod_small (w 0x3C * 2 ^ 0)), (Z.mod_small (w 0x3D * 2 ^ 16)),
    (Z.mod_small (w 0x3E * 2 ^ 32)), (Z.mod_small (w 0x3F * 2 ^ 48)) by lia.
  rewrite Z.lor_0_l. change (2 ^ 0) with 1. rewrite Z.mul_1_r.
  rewrite (lor_add_disjoint (w 0x3C) (w 0x3D) 16) by lia.
  rewrite (lor_add_disjoint (w 0x3C + w 0x3D * 2 ^ 16) (w 0x3E) 32) by lia.
  rewrite (lor_add_disjoint (w 0x3C + w 0x3D * 2 ^ 16 + w 0x3E * 2 ^ 32) (w 0x3F) 48)
    by lia.
  reflexivity.
Qed.

Lemma MLX90614_part002_ReadID_assembles_little_endian_witness :
  MLX90614_part002.ReadID
    (mlx_part002 (stubRegisters (fun reg => 0xEF00 + reg mod 256))) [] =
    (Returns (0xEF3FEF3EEF3DEF3C, None),
     [EvReadWordData 0x3C; EvReadWordData 0x3D; EvReadWordData 0x3E; EvReadWordData 0x3F]).
Proof.
  apply (MLX90614_part002_ReadID_assembles_little_endian
           (mlx_part002 (stubRegisters (fun reg => 0xEF00 + reg mod 256)))
           (fun reg => 0xEF00 + reg mod 256) []).
  - intros h reg. reflexivity.
  - intros reg. pose proof (Z.mod_pos_bound reg 256 ltac:(lia)). lia.
Defined.

(** ** Conversions *)

Lemma all_from_spec (p : Z -> bool) (n : nat) :
  forall i, all_from p n i = true ->
  forall j, i <= j < i + Z.of_nat n -> p j = true.
Proof.
  induction n as [| n IH]; intros i Hall j Hj; [lia |].
  cbn [all_from] in Hall.
  destruct (p i) eqn:Hpi; [| discriminate].
  destruct (Z.eq_dec j i) as [-> | Hne]; [exact Hpi |].
  apply (IH (i + 1) Hall). lia.
Qed.

(** X18.  [ReadEmissivity] of [mlx90614_driver.go] divides the 16-bit
    register by 65535: whatever the register holds, the emissivity returned
    lies between 0 and 1, both reached. *)
Theorem MLX90614_ReadEmissivity_between_0_and_1 :
  forall (d : MLX90614.MLX90614Driver) (ke : Z) (h h1 : list event),
    0 <= ke < 65536 ->
    MLX90614.readUint16 d 0x24 h = (Returns (ke, None), h1) ->
    exists e,
      MLX90614.ReadEmissivity d h = (Returns (e, None), h1)
      /\ e = (float64_of_int ke / 65535)%float
      /\ PrimFloat.leb 0 e = true
      /\ PrimFloat.leb e 1 = true.
Proof.
  intros d ke h h1 Hke Hread.
  exists (float64_of_int ke / 65535)%float.
  split.
  - unfold MLX90614.ReadEmissivity, bind, MLX90614.mlx90614RegisterKE.
    rewrite Hread. reflexivity.
  - split; [reflexivity |].
    assert (Hall : all_from
              (fun ke => PrimFloat.leb 0 (float64_of_int ke / 65535)
                         && PrimFloat.leb (float64_of_int ke / 65535) 1)
              (Z.to_nat 65536) 0 = true) by (vm_compute; reflexivity).
    pose proof (all_from_spec _ _ _ Hall ke ltac:(lia)) as Hp. cbv beta in Hp.
    apply andb_true_iff in Hp. exact Hp.
Qed.

(** The register at 0xFFFF: emissivity 1. *)
Lemma MLX90614_ReadEmissivity_between_0_and_1_witness :
  exists e,
    MLX90614.ReadEmissivity (mlx (stubRead [0xFF; 0xFF; 0x4C])) [] =
      (Returns (e, None), [EvWrite [0x24]; EvRead 3])
    /\ e = (float64_of_int 0xFFFF / 65535)%float
    /\ PrimFloat.leb 0 e = true
    /\ PrimFloat.leb e 1 = true.
Proof.
  apply (MLX90614_ReadEmissivity_between_0_and_1
           (mlx (stubRead [0xFF; 0xFF; 0x4C])) 0xFFFF [] [EvWrite [0x24]; EvRead 3]).
  - lia.
  - vm_compute. reflexivity.
Defined.

(** X19.  A raw object temperature that passed the error-flag check of
    [ReadTObj1Raw] or [ReadTObj2Raw] converts to a temperature between 0 and
    655.34 kelvin, that is between -273.15 and 382.2 degrees Celsius; and
    over the whole 16-bit range each conversion of [mlx90614_driver.go]
    grows with every step of the raw value. *)
Theorem MLX90614_conversions_of_unflagged_readings :
  (forall (raw : Z),
     0 <= raw < 65536 -> Z.testbit raw 15 = false ->
     PrimFloat.leb 0 (MLX90614.ConvertRawTempToDegK raw) = true
     /\ PrimFloat.leb (MLX90614.ConvertRawTempToDegK raw) 655.34 = true
     /\ PrimFloat.leb (-273.15) (MLX90614.ConvertRawTempToDegC raw) = true
     /\ PrimFloat.leb (MLX90614.ConvertRawTempToDegC raw) 382.2 = true)
  /\ (forall (raw : Z),
        0 <= raw < 65535 ->
        PrimFloat.ltb (MLX90614.ConvertRawTempToDegK raw)
          (MLX90614.ConvertRawTempToDegK (raw + 1)) = true
        /\ PrimFloat.ltb (MLX90614.ConvertRawTempToDegC raw)
             (MLX90614.ConvertRawTempToDegC (raw + 1)) = true
        /\ PrimFloat.ltb (MLX90614.ConvertRawTempToDegF raw)
             (MLX90614.ConvertRawTempToDegF (raw + 1)) = true).
Proof.
  split.
  - intros raw Hraw Hbit.
    rewrite testbit_15_of_word in Hbit by exact Hraw.
    apply negb_false_iff, Z.ltb_lt in Hbit.
    assert (Hall : all_from
              (fun raw => PrimFloat.leb 0 (MLX90614.ConvertRawTempToDegK raw)
                          && (PrimFloat.leb (MLX90614.ConvertRawTempToDegK raw) 655.34
                          && (PrimFloat.leb (-273.15) (MLX90614.ConvertRawTempToDegC raw)
                          && PrimFloat.leb (MLX90614.ConvertRawTempToDegC raw) 382.2)))
              (Z.to_nat 32768) 0 = true) by (vm_compute; reflexivity).
    pose proof (all_from_spec _ _ _ Hall raw ltac:(lia)) as Hp. cbv beta in Hp.
    apply andb_true_iff in Hp. destruct Hp as [H1 Hp].
    apply andb_true_iff in Hp. destruct Hp as [H2 Hp].
    apply andb_true_iff in Hp. destruct Hp as [H3 H4].
    repeat split; assumption.
  - intros raw Hraw.
    assert (Hall : all_from
              (fun raw => PrimFloat.ltb (MLX90614.ConvertRawTempToDegK raw)
                            (MLX90614.ConvertRawTempToDegK (raw + 1))
                          && (PrimFloat.ltb (MLX90614.ConvertRawTempToDegC raw)
                                (MLX90614.ConvertRawTempToDegC (raw + 1))
                          && PrimFloat.ltb (MLX90614.ConvertRawTempToDegF raw)
                               (MLX90614.ConvertRawTempToDegF (raw + 1))))
              (Z.to_nat 65535) 0 = true) by (vm_compute; reflexivity).
    pose proof (all_from_spec _ _ _ Hall raw ltac:(lia)) as Hp. cbv beta in Hp.
    apply andb_true_iff in Hp. destruct Hp as [H1 Hp].
    apply andb_true_iff in Hp. destruct Hp as [H2 H3].
    repeat split; assumption.
Qed.

(** The raw value 0x3AF7: 301.9 kelvin. *)
Lemma MLX90614_conversions_of_unflagged_readings_witness :
  PrimFloat.leb 0 (MLX90614.ConvertRawTempToDegK 0x3AF7) = true
  /\ PrimFloat.leb (MLX90614.ConvertRawTempToDegK 0x3AF7) 655.34 = true
  /\ PrimFloat.leb (-273.15) (MLX90614.ConvertRawTempToDegC 0x3AF7) = true
  /\ PrimFloat.leb (MLX90614.ConvertRawTempToDegC 0x3AF7) 382.2 = true.
Proof.
  apply (proj1 MLX90614_conversions_of_unflagged_readings 0x3AF7).
  - lia.
  - reflexivity.
Defined.

(** ** TMP007: start-up, status and the wait for a conversion *)

Lemma binary_Read_uint16_of_bytes (b0 b1 v : Z) :
  is_byte b0 -> is_byte b1 -> binary_Read_uint16 [b0; b1] v = word b0 b1.
Proof.
  intros Hb0 Hb1. unfold binary_Read_uint16.
  rewrite Z.lor_comm. apply uint16_of_bytes; assumption.
Qed.

Lemma BigEndian_PutUint16_bytes (data : Z) :
  BigEndian_PutUint16 data = [high_byte data; low_byte data].
Proof.
  unfold BigEndian_PutUint16. rewrite high_byte_shiftr. reflexivity.
Qed.

(** X20.  [initialization] of [tmp007.go] starts the driver only on a device
    that identifies as 0x0078.  A nil error means that the identity read was
    0x0078 and that the last two bus operations were the write of 0x1000 to
    the configuration register and of 0x4000 to the status mask, high byte
    first; any other identity is "TMP007 not detected", with nothing
    written. *)
Theorem TMP007_initialization_checks_device_id :
  (forall (d : TMP007.TMP007Driver) (didrid v : Z) (h h' : list event),
     TMP007.initialization d didrid h = (Returns (v, None), h') ->
     v = 0x78
     /\ exists h1,
          h' = h1 ++ [EvWriteBlockData 0x02 [0x10; 0x00];
                      EvWriteBlockData 0x05 [0x40; 0x00]])
  /\ (forall (d : TMP007.TMP007Driver) (didrid b0 b1 : Z) (h h1 : list event),
        is_byte b0 -> is_byte b1 -> word b0 b1 <> 0x78 ->
        TMP007.read d 0x1F 2 h = (Returns ([b0; b1], None), h1) ->
        TMP007.initialization d didrid h =
          (Returns (word b0 b1, Some (errors_New "TMP007 not detected")), h1)).
Proof.
  split.
  - intros d didrid v h h'.
    unfold TMP007.initialization, bind at 1.
    destruct (TMP007.read d TMP007.tmp007RegisterDeviceID 2 h)
      as [[[deviceID [e |]] | msg] h1]; [discriminate | | discriminate].
    cbv zeta.
    destruct (Z.eqb_spec (binary_Read_uint16 deviceID didrid) 0x78) as [Heq | Hne];
      cbn [negb]; [| discriminate].
    unfold TMP007.write, bind, WriteBlockData.
    change (BigEndian_PutUint16 (uint16 TMP007.tmp007ConfigConvEN)) with [0x10; 0x00].
    change (BigEndian_PutUint16 (uint16 TMP007.tmp007MaskCRTEN)) with [0x40; 0x00].
    unfold TMP007.tmp007RegisterConfig, TMP007.tmp007RegisterStatusMask.
    destruct (WriteBlockData_impl (TMP007.connection d) h1 0x02 [0x10; 0x00]) as [e |];
      [discriminate |].
    unfold ret. intros H. inversion H as [[Hv Herr Hh]].
    split; [exact Heq |].
    exists h1. rewrite <- app_assoc. reflexivity.
  - intros d didrid b0 b1 h h1 Hb0 Hb1 Hid Hread.
    unfold TMP007.initialization, bind at 1, TMP007.tmp007RegisterDeviceID.
    rewrite Hread. cbv zeta.
    rewrite binary_Read_uint16_of_bytes by assumption.
    destruct (Z.eqb_spec (word b0 b1) 0x78) as [Heq | Hne]; [contradiction |].
    reflexivity.
Qed.

(** A device that identifies as 0x0078 is started with the two writes; one
    that identifies as 0x0067 is not detected. *)
Lemma TMP007_initialization_checks_device_id_witness :
  (0x78 = 0x78
   /\ exists h1,
        [EvWrite [0x1F]; EvRead 2; EvWriteBlockData 0x02 [0x10; 0x00];
         EvWriteBlockData 0x05 [0x40; 0x00]] =
        h1 ++ [EvWriteBlockData 0x02 [0x10; 0x00]; EvWriteBlockData 0x05 [0x40; 0x00]])
  /\ TMP007.initialization (tmp007 (stubRead [0x00; 0x67])) 0 [] =
       (Returns (0x67, Some (errors_New "TMP007 not detected")),
        [EvWrite [0x1F]; EvRead 2]).
Proof.
  split.
  - apply (proj1 TMP007_initialization_checks_device_id
             (tmp007 (stubRead [0x00; 0x78])) 0 0x78 []).
    vm_compute. reflexivity.
  - apply (proj2 TMP007_initialization_checks_device_id
             (tmp007 (stubRead [0x00; 0x67])) 0 0x00 0x67 []).
    + unfold is_byte. lia.
    + unfold is_byte. lia.
    + vm_compute. discriminate.
    + vm_compute. reflexivity.
Defined.

(** X21.  [write] of [tmp007.go] puts a 16-bit value on the bus high byte
    first, and [ReadStatus] reads a register the same way: when the device
    hands back the two bytes [write] sends for a value, [ReadStatus] returns
    that value. *)
Theorem TMP007_write_and_ReadStatus_agree_on_byte_order :
  forall (d : TMP007.TMP007Driver) (register data : Z) (h h0 h1 : list event),
    0 <= data < 65536 ->
    TMP007.read d 0x04 2 h0 = (Returns ([high_byte data; low_byte data], None), h1) ->
    TMP007.write d register data h =
      (Returns (WriteBlockData_impl (TMP007.connection d) h register
                  [high_byte data; low_byte data]),
       h ++ [EvWriteBlockData register [high_byte data; low_byte data]])
    /\ TMP007.ReadStatus d h0 = (Returns (data, None), h1).
Proof.
  intros d register data h h0 h1 Hdata Hread. split.
  - unfold TMP007.write, WriteBlockData. rewrite BigEndian_PutUint16_bytes. reflexivity.
  - unfold TMP007.ReadStatus, bind at 1, TMP007.tmp007RegisterStatus.
    rewrite Hread. unfold index, bind, ret. cbn [nth_error].
    assert (Hhi : is_byte (high_byte data))
      by (unfold is_byte, high_byte; apply Z.mod_pos_bound; lia).
    assert (Hlo : is_byte (low_byte data))
      by (unfold is_byte, low_byte; apply Z.mod_pos_bound; lia).
    rewrite uint16_of_bytes by assumption.
    unfold word, high_byte, low_byte.
    rewrite (Z.mod_small (data / 256))
      by (split; [apply Z.div_pos | apply Z.div_lt_upper_bound]; lia).
    rewrite (Z.mul_comm (data / 256)), <- Z.div_mod by lia.
    reflexivity.
Qed.

(** The value 0x4080 goes out as 0x40, 0x80 and comes back as 0x4080. *)
Lemma TMP007_write_and_ReadStatus_agree_on_byte_order_witness :
  TMP007.write (tmp007 (stubRead [0x40; 0x80])) 0x05 0x4080 [] =
    (Returns None, [EvWriteBlockData 0x05 [0x40; 0x80]])
  /\ TMP007.ReadStatus (tmp007 (stubRead [0x40; 0x80])) [] =
       (Returns (0x4080, None), [EvWrite [0x04]; EvRead 2]).
Proof.
  apply (TMP007_write_and_ReadStatus_agree_on_byte_order
           (tmp007 (stubRead [0x40; 0x80])) 0x05 0x4080 [] []
           [EvWrite [0x04]; EvRead 2]).
  - lia.
  - vm_compute. reflexivity.
Defined.

(** [ReadStatus] never panics. *)
Lemma TMP007_ReadStatus_returns (d : TMP007.TMP007Driver) (h : list event) :
  exists s err h', TMP007.ReadStatus d h = (Returns (s, err), h').
Proof.
  unfold TMP007.ReadStatus, bind at 1.
  destruct (TMP007_read_returns d TMP007.tmp007RegisterStatus 2 h)
    as [buf [err [h' [Hrun Hlen]]]].
  rewrite Hrun. destruct err as [e |]; [eexists _, _, _; reflexivity |].
  destruct (list_of_length_2 buf (Hlen eq_refl)) as [b0 [b1 ->]].
  unfold index, bind, ret. cbn [nth_error]. eexists _, _, _. reflexivity.
Qed.

Lemma land_4000_testbit (s : Z) : negb (Z.land 0x4000 s =? 0) = Z.testbit s 14.
Proof. rewrite Z.land_comm. exact (land_pow2_testbit s 14 ltac:(lia)). Qed.

(** X22.  [WaitOnConversionReady] has no timeout: against a device whose
    status never shows the conversion-ready bit without error, no number of
    polls makes it return. *)
Theorem TMP007_WaitOnConversionReady_never_gives_up :
  forall (d : TMP007.TMP007Driver),
    (forall h, exists s err h',
       TMP007.ReadStatus d h = (Returns (s, err), h')
       /\ Z.testbit s 14 && is_nil err = false) ->
    forall (fuel : nat) (h : list event),
      TMP007.WaitOnConversionReady fuel d h = None.
Proof.
  intros d Hbusy fuel.
  induction fuel as [| fuel IH]; intros h; [reflexivity |].
  cbn [TMP007.WaitOnConversionReady].
  destruct (Hbusy h) as [s [err [h' [Hrun Hnot]]]].
  rewrite Hrun, land_4000_testbit, Hnot.
  unfold time_Sleep. apply IH.
Qed.

(** The status register reads zero for ever. *)
Lemma TMP007_WaitOnConversionReady_never_gives_up_witness :
  TMP007.WaitOnConversionReady 1000 (tmp007 stubConnection) [] = None.
Proof.
  apply (TMP007_WaitOnConversionReady_never_gives_up (tmp007 stubConnection)).
  intros h. exists 0, None, (h ++ [EvWrite [0x04]; EvRead 2]).
  split; [| reflexivity].
  unfold TMP007.ReadStatus, TMP007.read, bind, Write.
  cbn [tmp007 TMP007.connection stubConnection Write_impl snd].
  cbn [TMP007.read_retry]. unfold bind, Read.
  cbn [stubConnection Read_impl make repeat List.length copy firstn skipn app
       Z.of_nat Pos.of_succ_nat Pos.succ Z.eqb Pos.eqb andb is_nil ret].
  unfold index, bind, ret. cbn [nth_error].
  rewrite <- app_assoc. reflexivity.
Defined.

(** X23.  [WaitOnConversionReady] never panics, and when it returns the last
    thing it did was a status read that showed the conversion-ready bit (bit
    14) without error: it never returns on a failed read or on a status
    without the bit. *)
Theorem TMP007_WaitOnConversionReady_returns_only_when_ready :
  forall (fuel : nat) (d : TMP007.TMP007Driver) (h : list event)
         (r : outcome unit * list event),
    TMP007.WaitOnConversionReady fuel d h = Some r ->
    exists h0 s h',
      TMP007.ReadStatus d h0 = (Returns (s, None), h')
      /\ Z.testbit s 14 = true
      /\ r = (Returns tt, h').
Proof.
  induction fuel as [| fuel IH]; intros d h r; [discriminate |].
  cbn [TMP007.WaitOnConversionReady].
  destruct (TMP007_ReadStatus_returns d h) as [s [err [h' Hrun]]].
  rewrite Hrun, land_4000_testbit.
  destruct (Z.testbit s 14) eqn:Hbit; destruct err as [e |]; cbn [andb is_nil].
  - unfold time_Sleep. apply IH.
  - intros H. inversion H. exists h, s, h'. repeat split; assumption.
  - unfold time_Sleep. apply IH.
  - unfold time_Sleep. apply IH.
Qed.

(** The third status read is the first to show the bit: three polls, two
    sleeps of 65 ms. *)
Lemma TMP007_WaitOnConversionReady_returns_only_when_ready_witness :
  TMP007.WaitOnConversionReady 5 (tmp007 (stubReadAfter 6 [0x00; 0x00] [0x40; 0x00])) [] =
    Some (Returns tt,
          [EvWrite [0x04]; EvRead 2; EvSleep 65;
           EvWrite [0x04]; EvRead 2; EvSleep 65;
           EvWrite [0x04]; EvRead 2])
  /\ exists h0 s h',
       TMP007.ReadStatus (tmp007 (stubReadAfter 6 [0x00; 0x00] [0x40; 0x00])) h0 =
         (Returns (s, None), h')
       /\ Z.testbit s 14 = true
       /\ (Returns tt,
           [EvWrite [0x04]; EvRead 2; EvSleep 65;
            EvWrite [0x04]; EvRead 2; EvSleep 65;
            EvWrite [0x04]; EvRead 2]) = (Returns tt, h').
Proof.
  split; [vm_compute; reflexivity |].
  apply (TMP007_WaitOnConversionReady_returns_only_when_ready 5
           (tmp007 (stubReadAfter 6 [0x00; 0x00] [0x40; 0x00])) []).
  vm_compute. reflexivity.
Defined.

(** With a connection whose [Read] never reports an error, the retry loop
    ends without error, however many bytes each [Read] delivered. *)
Lemma MLX90614_read_retry_without_errors (c : Connection) (n : nat) :
  (forall h len, snd (Read_impl c h len) = None) ->
  forall (numRetries : nat) (buf : list Z) (bytesRead : Z) (h : list event),
  exists buf' bytesRead' h',
    MLX90614.read_retry c n numRetries buf bytesRead None h =
      (Returns (buf', bytesRead', None), h')
    /\ List.length buf' = List.length buf.
Proof.
  intros Hok.
  induction numRetries as [| r IH]; intros buf bytesRead h.
  - exists buf, bytesRead, h. split; reflexivity.
  - cbn [MLX90614.read_retry]. unfold bind, Read.
    pose proof (Hok h (List.length buf)) as Hnil.
    destruct (Read_impl c h (List.length buf)) as [[data m] e].
    cbn [snd] in Hnil. subst e.
    destruct ((m =? Z.of_nat n) && is_nil None).
    + eexists _, _, _. split; [reflexivity | apply copy_length].
    + destruct (IH (copy buf data) m (h ++ [EvRead (List.length buf)]))
        as [buf' [br' [h' [Hrun Hlen]]]].
      exists buf', br', h'. split; [exact Hrun |].
      rewrite Hlen. apply copy_length.
Qed.

(** X24.  [read] of [tmp007.go] does not report short reads.  When the
    command write and every [Read] come back without error, [read] returns a
    nil error and a buffer of the length asked for, also when no [Read] ever
    delivered that many bytes: against a device that delivers one byte of
    two, fifty reads are made and [ReadDieTempC] then returns a temperature,
    24 degrees for the byte 0x0C, and no error. *)
Theorem TMP007_read_does_not_report_short_reads :
  (forall (d : TMP007.TMP007Driver) (address : Z) (n : nat) (h : list event),
     snd (Write_impl (TMP007.connection d) h [address]) = None ->
     (forall h len, snd (Read_impl (TMP007.connection d) h len) = None) ->
     exists buf h',
       TMP007.read d address n h = (Returns (buf, None), h')
       /\ List.length buf = n)
  /\ TMP007.read (tmp007 (stubRead [0x0C])) 0x01 2 [] =
       (Returns ([0x0C; 0x00], None), EvWrite [0x01] :: repeat (EvRead 2) 50)
  /\ TMP007.ReadDieTempC (tmp007 (stubRead [0x0C])) [] =
       (Returns (24%float, None), EvWrite [0x01] :: repeat (EvRead 2) 50).
Proof.
  split; [| split; vm_compute; reflexivity].
  intros d address n h Hwrite Hread.
  unfold TMP007.read, bind, Write.
  destruct (Write_impl (TMP007.connection d) h [address]) as [m e].
  cbn [snd] in Hwrite. subst e.
  rewrite TMP007_read_retry_same.
  destruct (MLX90614_read_retry_without_errors (TMP007.connection d) n Hread 50
              (make n) 0 (h ++ [EvWrite [address]]))
    as [buf' [br' [h' [Hrun Hlen]]]].
  rewrite Hrun. exists buf', h'. split; [reflexivity |].
  rewrite Hlen. apply repeat_length.
Qed.

Lemma TMP007_read_does_not_report_short_reads_witness :
  exists buf h',
    TMP007.read (tmp007 (stubRead [0x0C])) 0x01 2 [] = (Returns (buf, None), h')
    /\ List.length buf = 2%nat.
Proof.
  apply (proj1 TMP007_read_does_not_report_short_reads (tmp007 (stubRead [0x0C])) 0x01 2%nat []).
  - reflexivity.
  - intros h len. reflexivity.
Defined.

(** X25.  The sensor voltage of [tmp007.go].  [ReadSensorVoltage] takes the
    two bytes as a signed 16-bit number, high byte first, at 156.25 nV a
    step, and returns microvolts: whatever the bytes, between -5120 and
    5120. *)
Theorem TMP007_ReadSensorVoltage_range :
  forall (d : TMP007.TMP007Driver) (b0 b1 : Z) (h h1 : list event),
    is_byte b0 -> is_byte b1 ->
    TMP007.read d 0x00 2 h = (Returns ([b0; b1], None), h1) ->
    exists v,
      TMP007.ReadSensorVoltage d h = (Returns (v, None), h1)
      /\ v = (float64_of_int (raw_int16 b0 b1) * 156.25 / 1000)%float
      /\ PrimFloat.leb (-5120) v = true
      /\ PrimFloat.leb v 5120 = true.
Proof.
  intros d b0 b1 h h1 Hb0 Hb1 Hread.
  exists (float64_of_int (raw_int16 b0 b1) * 156.25 / 1000)%float.
  split.
  - unfold TMP007.ReadSensorVoltage, bind at 1, TMP007.tmp007RegisterVSensor.
    rewrite Hread. unfold index, bind, ret. cbn [nth_error].
    rewrite int16_of_bytes by assumption. reflexivity.
  - split; [reflexivity |].
    assert (Hall : all_from
              (fun raw => PrimFloat.leb (-5120) (float64_of_int raw * 156.25 / 1000)
                          && PrimFloat.leb (float64_of_int raw * 156.25 / 1000) 5120)
              (Z.to_nat 65536) (-32768) = true) by (vm_compute; reflexivity).
    assert (Hraw : -32768 <= raw_int16 b0 b1 < 32768).
    { unfold raw_int16, int16.
      pose proof (Z.mod_pos_bound (b0 * 256 + b1 + 32768) 65536 ltac:(lia)). lia. }
    pose proof (all_from_spec _ _ _ Hall (raw_int16 b0 b1) ltac:(lia)) as Hp.
    cbv beta in Hp. apply andb_true_iff in Hp. exact Hp.
Qed.

(** The bytes 0x80, 0x00: -32768 steps, -5120 microvolts. *)
Lemma TMP007_ReadSensorVoltage_range_witness :
  exists v,
    TMP007.ReadSensorVoltage (tmp007 (stubRead [0x80; 0x00])) [] =
      (Returns (v, None), [EvWrite [0x00]; EvRead 2])
    /\ v = (float64_of_int (raw_int16 0x80 0x00) * 156.25 / 1000)%float
    /\ PrimFloat.leb (-5120) v = true
    /\ PrimFloat.leb v 5120 = true.
Proof.
  apply (TMP007_ReadSensorVoltage_range (tmp007 (stubRead [0x80; 0x00])) 0x80 0x00 []
           [EvWrite [0x00]; EvRead 2]).
  - unfold is_byte. lia.
  - unfold is_byte. lia.
  - vm_compute. reflexivity.
Defined.

(** ** CaliPile: calibration data and the raw object reading *)

Lemma uint32_of_bytes (b0 b1 : Z) :
  is_byte b0 -> is_byte b1 ->
  Z.lor (uint32 (Z.shiftl (uint32 b0) 8)) (uint32 b1) = word b0 b1.
Proof.
  unfold is_byte, uint32, word. intros Hb0 Hb1.
  rewrite (Z.mod_small b0), (Z.mod_small b1) by lia.
  rewrite Z.shiftl_mul_pow2 by lia. change (2 ^ 8) with 256.
  rewrite Z.mod_small by lia.
  apply lor_shifted_byte. exact Hb1.
Qed.

Lemma land_7F_mod (b : Z) : Z.land b 0x7F = b mod 128.
Proof. change 0x7F with (Z.ones 7). rewrite Z.land_ones by lia. reflexivity. Qed.

Lemma eeprom_ext (e1 e2 : Calipile.eeprom) :
  Calipile.protocol e1 = Calipile.protocol e2 ->
  Calipile.checksum e1 = Calipile.checksum e2 ->
  Calipile.lookup e1 = Calipile.lookup e2 ->
  Calipile.ptat25 e1 = Calipile.ptat25 e2 ->
  Calipile.m e1 = Calipile.m e2 ->
  Calipile.u0 e1 = Calipile.u0 e2 ->
  Calipile.uOut1 e1 = Calipile.uOut1 e2 ->
  Calipile.tObj1 e1 = Calipile.tObj1 e2 ->
  Calipile.slaveAddress e1 = Calipile.slaveAddress e2 ->
  Calipile.k e1 = Calipile.k e2 ->
  e1 = e2.
Proof.
  destruct e1, e2. cbn. intros. subst. reflexivity.
Qed.

(** [ReadEEPROM] against a device that answers every byte read. *)
Lemma Calipile_ReadEEPROM_run (d : Calipile.CalipileDriver) (regs : Z -> Z)
    (h : list event) :
  (forall h reg, ReadByteData_impl (Calipile.connection d) h reg = (regs reg, None)) ->
  (forall reg, is_byte (regs reg)) ->
  Calipile.ReadEEPROM d h =
    (Returns (eeprom_of_registers (Calipile.eeprom_ d) regs, None),
     h ++ EvWriteByteData 31 0x80 :: map EvReadByteData eeprom_registers
       ++ [EvWriteByteData 31 0x00]).
Proof.
  intros Hread Hbyte.
  unfold Calipile.ReadEEPROM, bind, WriteByteData, ReadByteData.
  cbv zeta. rewrite !Hread. cbv beta iota.
  unfold ret. rewrite <- !app_assoc. cbn [app map eeprom_registers].
  unfold Calipile.calipileRegisterEEPROMControl, Calipile.calipileRegisterEEPROMProtocol,
    Calipile.calipileRegisterEEPROMSlaveAddress, Calipile.calipileRegisterEEPROMLookup,
    Calipile.calipileRegisterEEPROMPTAT251, Calipile.calipileRegisterEEPROMPTAT252,
    Calipile.calipileRegisterEEPROMM1, Calipile.calipileRegisterEEPROMM2,
    Calipile.calipileRegisterEEPROMU01, Calipile.calipileRegisterEEPROMU02,
    Calipile.calipileRegisterEEPROMUOut11, Calipile.calipileRegisterEEPROMUOut12,
    Calipile.calipileRegisterEEPROMTObj1.
  f_equal. f_equal. f_equal.
  apply eeprom_ext;
    lazy beta iota delta [Calipile.set_protocol Calipile.set_slaveAddress
      Calipile.set_lookup Calipile.set_ptat25 Calipile.set_m Calipile.set_u0
      Calipile.set_uOut1 Calipile.set_tObj1 eeprom_of_registers
      Calipile.protocol Calipile.checksum Calipile.lookup Calipile.ptat25 Calipile.m
      Calipile.u0 Calipile.uOut1 Calipile.tObj1 Calipile.slaveAddress Calipile.k].
  - reflexivity.
  - reflexivity.
  - reflexivity.
  - apply uint16_of_bytes; apply Hbyte.
  - rewrite (uint16_of_bytes (regs 44) (regs 45) (Hbyte 44) (Hbyte 45)). reflexivity.
  - rewrite (uint16_of_bytes (regs 46) (regs 47) (Hbyte 46) (Hbyte 47)). reflexivity.
  - rewrite (uint32_of_bytes (regs 48) (regs 49) (Hbyte 48) (Hbyte 49)).
    pose proof (Hbyte 48) as H48. pose proof (Hbyte 49) as H49.
    unfold uint32, word, is_byte in *. rewrite Z.mod_small by lia. lia.
  - reflexivity.
  - apply land_7F_mod.
  - reflexivity.
Qed.

(** X26.  What [ReadEEPROM] stores.  Against a device that answers every
    byte read from its registers, [ReadEEPROM] enables the calibration
    registers, reads the twelve of them in a fixed order, disables them
    again, and leaves: PTAT25 and the other two-byte values high byte first,
    M as the register value divided by 100 with the remainder dropped, U0 as
    the register value plus 32768 modulo 65536, Uout1 as twice the register
    value, the slave address without its top bit; checksum and k are not
    touched. *)
Theorem Calipile_ReadEEPROM_decodes_registers :
  forall (d : Calipile.CalipileDriver) (regs : Z -> Z) (h : list event),
    (forall h reg, ReadByteData_impl (Calipile.connection d) h reg = (regs reg, None)) ->
    (forall reg, is_byte (regs reg)) ->
    Calipile.ReadEEPROM d h =
      (Returns (eeprom_of_registers (Calipile.eeprom_ d) regs, None),
       h ++ EvWriteByteData 31 0x80 :: map EvReadByteData eeprom_registers
         ++ [EvWriteByteData 31 0x00])
    /\ Calipile.m (eeprom_of_registers (Calipile.eeprom_ d) regs) * 100
         <= word (regs 44) (regs 45)
    /\ (Calipile.u0 (eeprom_of_registers (Calipile.eeprom_ d) regs)
          = word (regs 46) (regs 47) + 32768
        <-> regs 46 < 128).
Proof.
  intros d regs h Hread Hbyte.
  split; [exact (Calipile_ReadEEPROM_run d regs h Hread Hbyte) |].
  cbn [eeprom_of_registers Calipile.m Calipile.u0].
  pose proof (Hbyte 44) as H44. pose proof (Hbyte 45) as H45.
  pose proof (Hbyte 46) as H46. pose proof (Hbyte 47) as H47.
  unfold word, is_byte in *.
  split.
  - rewrite Z.mul_comm. apply Z.mul_div_le. lia.
  - split.
    + intros Hu0.
      pose proof (Z.mod_pos_bound (regs 46 * 256 + regs 47 + 32768) 65536 ltac:(lia)).
      lia.
    + intros Hlt. apply Z.mod_small. lia.
Qed.

(** Registers 46 and 47 at 0x80 and 0x00: the stored U0 is 0, not 65536. *)
Lemma Calipile_ReadEEPROM_decodes_registers_witness :
  Calipile.ReadEEPROM
    (calipile (stubRegisters (fun reg => if reg =? 46 then 0x80 else 0)) 0 0) [] =
    (Returns ({| Calipile.protocol := 0; Calipile.checksum := 0; Calipile.lookup := 0;
                 Calipile.ptat25 := 0; Calipile.m := 0; Calipile.u0 := 0;
                 Calipile.uOut1 := 0; Calipile.tObj1 := 0; Calipile.slaveAddress := 0;
                 Calipile.k := 0%float |}, None),
     [EvWriteByteData 31 0x80;
      EvReadByteData 32; EvReadByteData 63; EvReadByteData 41; EvReadByteData 42;
      EvReadByteData 43; EvReadByteData 44; EvReadByteData 45; EvReadByteData 46;
      EvReadByteData 47; EvReadByteData 48; EvReadByteData 49; EvReadByteData 50;
      EvWriteByteData 31 0x00]).
Proof.
  refine (proj1 (Calipile_ReadEEPROM_decodes_registers
                   (calipile (stubRegisters (fun reg => if reg =? 46 then 0x80 else 0)) 0 0)
                   (fun reg => if reg =? 46 then 0x80 else 0) [] _ _)).
  - intros h reg. reflexivity.
  - intros reg. unfold is_byte. destruct (reg =? 46); lia.
Defined.

(** X27.  [ReadEEPROM] stops at the first read that fails, whatever the
    device does.  It writes 0x80 to the control register and reads the
    calibration registers in order.  With [k] the number of reads that
    succeeded before the first failure: if all twelve succeeded, it writes
    0x00 to the control register and returns no error; otherwise the read of
    register number [k] failed, nothing is read or written after it (the
    calibration registers are left enabled), and the error is the cause of
    that read wrapped in a message naming the field of that register.
    Checksum and k are never assigned.  With a device that fails on register
    44, six reads are made and the error names M. *)
Theorem Calipile_ReadEEPROM_stops_at_first_failure :
  (forall (d : Calipile.CalipileDriver) (h : list event),
   exists e' err k,
     (k <= 12)%nat
     /\ (forall i, (i < k)%nat ->
           snd (ReadByteData_impl (Calipile.connection d)
                  (h ++ EvWriteByteData 31 0x80
                     :: map EvReadByteData (firstn i eeprom_registers))
                  (nth i eeprom_registers 0)) = None)
     /\ Calipile.ReadEEPROM d h =
          (Returns (e', err),
           h ++ EvWriteByteData 31 0x80
             :: map EvReadByteData (firstn (S k) eeprom_registers)
             ++ (if is_nil err then [EvWriteByteData 31 0x00] else []))
     /\ (k = 12%nat -> err = None)
     /\ ((k < 12)%nat ->
         exists cause,
           snd (ReadByteData_impl (Calipile.connection d)
                  (h ++ EvWriteByteData 31 0x80
                     :: map EvReadByteData (firstn k eeprom_registers))
                  (nth k eeprom_registers 0)) = Some cause
           /\ err = Some (fmt_Errorf_v
                (String.append "CalipileDriver::ReadEEPROM() failed to read "
                   (String.append (nth k eeprom_field_names "") ":\n\t%v"))
                cause))
     /\ Calipile.checksum e' = Calipile.checksum (Calipile.eeprom_ d)
     /\ Calipile.k e' = Calipile.k (Calipile.eeprom_ d))
  /\ exists e',
       Calipile.ReadEEPROM (calipile (stubFailingRegister 44) 0 0) [] =
         (Returns (e', Some (fmt_Errorf_v
            "CalipileDriver::ReadEEPROM() failed to read M:\n\t%v"
            (conn_error "read error"))),
          [EvWriteByteData 31 0x80; EvReadByteData 32; EvReadByteData 63;
           EvReadByteData 41; EvReadByteData 42; EvReadByteData 43; EvReadByteData 44]).
Proof.
  split; [| eexists; vm_compute; reflexivity].
  intros d h.
  unfold Calipile.ReadEEPROM, bind, WriteByteData, ReadByteData.
  cbv beta iota zeta.
  unfold Calipile.calipileRegisterEEPROMControl, Calipile.calipileRegisterEEPROMProtocol,
    Calipile.calipileRegisterEEPROMSlaveAddress, Calipile.calipileRegisterEEPROMLookup,
    Calipile.calipileRegisterEEPROMPTAT251, Calipile.calipileRegisterEEPROMPTAT252,
    Calipile.calipileRegisterEEPROMM1, Calipile.calipileRegisterEEPROMM2,
    Calipile.calipileRegisterEEPROMU01, Calipile.calipileRegisterEEPROMU02,
    Calipile.calipileRegisterEEPROMUOut11, Calipile.calipileRegisterEEPROMUOut12,
    Calipile.calipileRegisterEEPROMTObj1.
  eeprom_read 32 0%nat.
  eeprom_read 63 1%nat.
  eeprom_read 41 2%nat.
  eeprom_read 42 3%nat.
  eeprom_read 43 4%nat.
  eeprom_read 44 5%nat.
  eeprom_read 45 6%nat.
  eeprom_read 46 7%nat.
  eeprom_read 47 8%nat.
  eeprom_read 48 9%nat.
  eeprom_read 49 10%nat.
  eeprom_read 50 11%nat.
  eeprom_done 12%nat.
Qed.

(** X28.  The address check of the CaliPile start-up.  Against a device that
    answers every byte read, [initialization] compares the low seven bits of
    register 63 with the configured address: a device that reports 0x8C is
    taken for address 0x0C.  On a mismatch the error names both addresses and
    k is left as it was. *)
Theorem Calipile_initialization_compares_seven_bits :
  forall (math_Pow : float64 -> float64 -> float64) (d : Calipile.CalipileDriver)
         (regs : Z -> Z) (h : list event),
    (forall h reg, ReadByteData_impl (Calipile.connection d) h reg = (regs reg, None)) ->
    (forall reg, is_byte (regs reg)) ->
    let addr := uint8 (GetAddressOrDefault (Calipile.config d) 0x0C) in
    exists e',
      Calipile.initialization math_Pow d h =
        (Returns (e',
                  if regs 63 mod 128 =? addr then None
                  else Some (fmt_Errorf_XX
                    "CalipileDriver::initialization() I2C slave address mismatch, expected:%02X actual:%02X"
                    addr (regs 63 mod 128))),
         h ++ EvWriteByteData 31 0x80 :: map EvReadByteData eeprom_registers
           ++ [EvWriteByteData 31 0x00])
      /\ Calipile.slaveAddress e' = regs 63 mod 128
      /\ (regs 63 mod 128 <> addr -> Calipile.k e' = Calipile.k (Calipile.eeprom_ d)).
Proof.
  intros math_Pow d regs h Hread Hbyte addr.
  unfold Calipile.initialization, bind.
  rewrite (Calipile_ReadEEPROM_run d regs h Hread Hbyte).
  cbv zeta. unfold Calipile.calipileDefaultSlaveAddress. fold addr.
  change (Calipile.slaveAddress (eeprom_of_registers (Calipile.eeprom_ d) regs))
    with (regs 63 mod 128).
  destruct (Z.eqb_spec (regs 63 mod 128) addr) as [Heq | Hne]; cbn [negb]; unfold ret.
  - eexists. split; [reflexivity |]. split; [reflexivity | intros H; contradiction].
  - eexists. split; [reflexivity |]. split; [reflexivity | reflexivity].
Qed.

(** Register 63 holds 0x8C, the configured address is the default 0x0C. *)
Lemma Calipile_initialization_compares_seven_bits_witness :
  exists e',
    Calipile.initialization (fun x _ => x)
      (calipile (stubRegisters (fun reg => if reg =? 63 then 0x8C else 0)) 0 0) [] =
      (Returns (e', None),
       [EvWriteByteData 31 0x80;
        EvReadByteData 32; EvReadByteData 63; EvReadByteData 41; EvReadByteData 42;
        EvReadByteData 43; EvReadByteData 44; EvReadByteData 45; EvReadByteData 46;
        EvReadByteData 47; EvReadByteData 48; EvReadByteData 49; EvReadByteData 50;
        EvWriteByteData 31 0x00])
    /\ Calipile.slaveAddress e' = 0x0C.
Proof.
  destruct (Calipile_initialization_compares_seven_bits (fun x _ => x)
              (calipile (stubRegisters (fun reg => if reg =? 63 then 0x8C else 0)) 0 0)
              (fun reg => if reg =? 63 then 0x8C else 0) [])
    as [e' [Hrun [Haddr _]]].
  - intros h reg. reflexivity.
  - intros reg. unfold is_byte. destruct (reg =? 63); lia.
  - exists e'. split; [exact Hrun | exact Haddr].
Defined.

Lemma land_80_of_byte (c : Z) : is_byte c -> Z.land c 0x80 = c / 128 * 128.
Proof.
  unfold is_byte. intros Hc.
  assert (Hall : all_from (fun c => Z.land c 0x80 =? c / 128 * 128) 256 0 = true)
    by (vm_compute; reflexivity).
  apply Z.eqb_eq. exact (all_from_spec _ _ _ Hall c ltac:(lia)).
Qed.

(** The 17-bit value [ReadRawTPObject] assembles from three bytes. *)
Lemma Calipile_raw_object (a b c : Z) :
  is_byte a -> is_byte b -> is_byte c ->
  Z.shiftr
    (Z.lor (Z.lor (uint32 (Z.shiftl (uint32 a) 24)) (uint32 (Z.shiftl (uint32 b) 16)))
           (uint32 (Z.shiftl (uint32 (Z.land c 0x80)) 8)))
    15
  = a * 512 + b * 2 + c / 128.
Proof.
  intros Ha Hb Hc.
  rewrite land_80_of_byte by exact Hc.
  unfold is_byte in *.
  assert (Hc7 : 0 <= c / 128 <= 1).
  { split; [apply Z.div_pos; lia |].
    assert (c / 128 < 2) by (apply Z.div_lt_upper_bound; lia). lia. }
  unfold uint32.
  rewrite (Z.mod_small a), (Z.mod_small b), (Z.mod_small (c / 128 * 128)) by lia.
  rewrite !Z.shiftl_mul_pow2 by lia.
  change (2 ^ 24) with 16777216. change (2 ^ 16) with 65536. change (2 ^ 8) with 256.
  rewrite (Z.mod_small (a * 16777216)), (Z.mod_small (b * 65536)),
    (Z.mod_small (c / 128 * 128 * 256)) by lia.
  rewrite (Z.lor_comm (a * 16777216)).
  replace (a * 16777216) with (a * 2 ^ 24) by lia.
  rewrite (lor_add_disjoint (b * 65536) a 24) by lia.
  rewrite Z.lor_comm.
  replace (b * 65536 + a * 2 ^ 24) with ((b + a * 256) * 2 ^ 16) by lia.
  rewrite (lor_add_disjoint (c / 128 * 128 * 256) (b + a * 256) 16) by lia.
  rewrite Z.shiftr_div_pow2 by lia.
  replace (c / 128 * 128 * 256 + (b + a * 256) * 2 ^ 16)
    with ((a * 512 + b * 2 + c / 128) * 2 ^ 15) by lia.
  apply Z.div_mul. lia.
Qed.

(** X29.  The raw object reading of the CaliPile.  [ReadRawTPObject] reads
    registers 1, 2 and 3 in that order and returns the 17-bit number made of
    the first two bytes and the top bit of the third: a * 512 + b * 2 +
    c / 128, below 131072; the low seven bits of register 3, which belong to
    the ambient reading, have no effect. *)
Theorem Calipile_ReadRawTPObject_is_17_bits :
  forall (d : Calipile.CalipileDriver) (a b c : Z) (h : list event),
    let cn := Calipile.connection d in
    is_byte a -> is_byte b -> is_byte c ->
    ReadByteData_impl cn h 1 = (a, None) ->
    ReadByteData_impl cn (h ++ [EvReadByteData 1]) 2 = (b, None) ->
    ReadByteData_impl cn (h ++ [EvReadByteData 1; EvReadByteData 2]) 3 = (c, None) ->
    Calipile.ReadRawTPObject d h =
      (Returns (a * 512 + b * 2 + c / 128, None),
       h ++ [EvReadByteData 1; EvReadByteData 2; EvReadByteData 3])
    /\ 0 <= a * 512 + b * 2 + c / 128 < 131072.
Proof.
  cbv zeta. intros d a b c h Ha Hb Hc Hr1 Hr2 Hr3.
  split.
  - unfold Calipile.ReadRawTPObject, bind, ReadByteData.
    unfold Calipile.calipileRegisterTPObject1, Calipile.calipileRegisterTPObject2,
      Calipile.calipileRegisterTPObject3.
    rewrite Hr1. cbv beta iota. rewrite Hr2. cbv beta iota.
    rewrite <- app_assoc. cbn [app]. rewrite Hr3. cbv beta iota zeta.
    rewrite Calipile_raw_object by assumption.
    unfold ret. rewrite <- app_assoc. reflexivity.
  - unfold is_byte in *.
    assert (0 <= c / 128 <= 1).
    { split; [apply Z.div_pos; lia |].
      assert (c / 128 < 2) by (apply Z.div_lt_upper_bound; lia). lia. }
    lia.
Qed.

(** Registers 1, 2, 3 at 0x80, 0x01, 0xFF: 65536 + 2 + 1. *)
Lemma Calipile_ReadRawTPObject_is_17_bits_witness :
  Calipile.ReadRawTPObject
    (calipile (stubRegisters
                 (fun reg => if reg =? 1 then 0x80 else if reg =? 2 then 0x01 else 0xFF))
       0 0) [] =
    (Returns (65539, None), [EvReadByteData 1; EvReadByteData 2; EvReadByteData 3]).
Proof.
  refine (proj1 (Calipile_ReadRawTPObject_is_17_bits
                   (calipile (stubRegisters
                      (fun reg => if reg =? 1 then 0x80 else if reg =? 2 then 0x01 else 0xFF))
                      0 0) 0x80 0x01 0xFF [] _ _ _ _ _ _)).
  - unfold is_byte. lia.
  - unfold is_byte. lia.
  - unfold is_byte. lia.
  - reflexivity.
  - reflexivity.
  - reflexivity.
Defined.

(** * The packet error code *)

(** A round of [crc8ccitt] shifts, and then sets the lowest bit exactly when
    the top bit of the shifted value is set. *)
Lemma MLX90614_crc8ccitt_round_bits (data : Z) :
  Z.testbit (MLX90614.crc8ccitt_round data) 0 =
    Z.testbit (MLX90614.crc8ccitt_round data) 7.
Proof.
  unfold MLX90614.crc8ccitt_round. cbv zeta.
  assert (Hlow : Z.testbit (uint8 (Z.shiftl data 1)) 0 = false).
  { unfold uint8. change 256 with (2 ^ 8).
    rewrite Z.mod_pow2_bits_low by lia. apply Z.shiftl_spec_low. lia. }
  pose proof (land_pow2_testbit (uint8 (Z.shiftl data 1)) 7 ltac:(lia)) as Hbit.
  change (2 ^ 7) with 0x80 in Hbit. rewrite Hbit.
  destruct (Z.testbit (uint8 (Z.shiftl data 1)) 7) eqn:Htop.
  - rewrite !Z.lxor_spec, Hlow, Htop. reflexivity.
  - rewrite Hlow, Htop. reflexivity.
Qed.

(** C2.  The claim: the PEC of the packet the write path builds is
    CRC-8/CCITT chained from 0 over {slave address << 1, register, low,
    high}, and the read path recomputes the same PEC for the same register
    and data.  [crc8ccitt] is not CRC-8/CCITT: in each round it shifts first
    and tests the top bit afterwards.  CRC-8/CCITT of the bytes "123456789"
    is 0xF4 and of the byte 0x80 is 0x89, where the chain of [crc8ccitt]
    gives 0xAF and 0; every value [crc8ccitt] returns has its lowest bit
    equal to its top bit.  At the default address, for register 0x20 and
    data 0x1234, the packet of [write] carries 0x2C where CRC-8/CCITT of the
    write frame is 0x50; [read] of the same register rejects that 0x2C,
    since it chains the slave read address as well and expects 0x2A; and it
    rejects the CRC-8/CCITT of the read frame, 0x79, too. *)
Theorem MLX90614_crc8ccitt_is_not_CRC8_CCITT :
  CRC8_CCITT [0x31; 0x32; 0x33; 0x34; 0x35; 0x36; 0x37; 0x38; 0x39] = 0xF4
  /\ PEC [0x31; 0x32; 0x33; 0x34; 0x35; 0x36; 0x37; 0x38; 0x39] = 0xAF
  /\ CRC8_CCITT_byte 0 0x80 = 0x89
  /\ MLX90614.crc8ccitt 0 0x80 = 0
  /\ (forall (inCRC inData : Z),
        Z.testbit (MLX90614.crc8ccitt inCRC inData) 0 =
          Z.testbit (MLX90614.crc8ccitt inCRC inData) 7)
  /\ MLX90614.write (mlx stubConnection) 0x20 0x1234 [] =
       (Returns None, [EvWriteBlockData 0x20 [0x20; 0x34; 0x12; 0x2C]])
  /\ CRC8_CCITT (write_frame 0x5A 0x20 0x34 0x12) = 0x50
  /\ MLX90614.read (mlx (stubRead [0x34; 0x12; 0x2C])) 0x20 3 [] =
       (Returns ([], Some (fmt_Errorf_XX "MLX90614::read() PEC mismatch exp:%X act:%X"
                             0x2A 0x2C)),
        [EvWrite [0x20]; EvRead 3])
  /\ CRC8_CCITT (read_frame 0x5A 0x20 0x34 0x12) = 0x79
  /\ MLX90614.read (mlx (stubRead [0x34; 0x12; 0x79])) 0x20 3 [] =
       (Returns ([], Some (fmt_Errorf_XX "MLX90614::read() PEC mismatch exp:%X act:%X"
                             0x2A 0x79)),
        [EvWrite [0x20]; EvRead 3]).
Proof.
  do 4 (split; [vm_compute; reflexivity |]).
  split; [| repeat split; vm_compute; reflexivity].
  intros inCRC inData. unfold MLX90614.crc8ccitt.
  change (Nat.iter 8 MLX90614.crc8ccitt_round (Z.lxor inCRC inData))
    with (MLX90614.crc8ccitt_round
            (Nat.iter 7 MLX90614.crc8ccitt_round (Z.lxor inCRC inData))).
  apply MLX90614_crc8ccitt_round_bits.
Qed.
